(** * ZKTeco check-in synchronisation: a shallow embedding

    The repository holds two copies of [zkteco_config.py] and one repair
    script:

    - [zkteco_checkins_sync/zkteco_checkin_sync/doctype/zkteco_config/zkteco_config.py]
      (the module of the Frappe app, next to [hooks.py]); embedded in
      [Module ConfigApp];
    - [zkteco_checkin_sync/doctype/zkteco_config/zkteco_config.py]
      (a second copy at the top of the repository); embedded in
      [Module ConfigTop];
    - [fix_existing_checkins.py]; embedded in [Module FixScript].

    Python values are modelled by [value], strings by their UTF-8
    encoding ([len] and slices count characters, see [py_len]),
    dictionaries by insertion-ordered association lists, naive date-times
    by a number of microseconds, the
    table of stored check-ins by a list of rows threaded through the
    functions that write to it.  Logging is left out everywhere. *)

From Stdlib Require Import ZArith String Ascii List Bool Lia Permutation.
From stdpp Require Import base list strings.
Import ListNotations.

Local Open Scope string_scope.
Local Open Scope list_scope.
Local Open Scope Z_scope.

(** ** Python values *)

(** The values a transaction field can hold.  JSON floats and nested
    containers are outside the model. *)
Inductive value : Type :=
| VNone
| VBool (b : bool)
| VInt (z : Z)
| VStr (s : string)
| VDatetime (d : Z).

(** A naive [datetime]: microseconds since 1970-01-01 00:00:00. *)
Definition datetime : Type := Z.

Definition us_per_second : Z := 1000000.
Definition us_per_minute : Z := 60 * us_per_second.
Definition us_per_day : Z := 86400 * us_per_second.

(** [timedelta(minutes=m)] and [timedelta(days=d)]. *)
Definition minutes (m : Z) : Z := m * us_per_minute.
Definition days (d : Z) : Z := d * us_per_day.

(** [dt.strftime("%Y-%m-%d")]: the calendar day, as a day number. *)
Definition date_key (dt : datetime) : Z := dt / us_per_day.

(** [dt.strftime('%Y-%m-%d %H:%M:%S')]: the time cut to whole seconds
    (kept in microseconds). *)
Definition whole_seconds (dt : datetime) : datetime :=
  (dt / us_per_second) * us_per_second.

(** [bool(v)]. *)
Definition truthy (v : value) : bool :=
  match v with
  | VNone => false
  | VBool b => b
  | VInt z => negb (z =? 0)
  | VStr s => negb (String.eqb s "")
  | VDatetime _ => true
  end.

Definition int_of_bool (b : bool) : Z := if b then 1 else 0.

(** [a == b]; [True == 1] and [False == 0] as in Python. *)
Definition py_eqb (a b : value) : bool :=
  match a, b with
  | VNone, VNone => true
  | VBool x, VBool y => Bool.eqb x y
  | VBool x, VInt y => int_of_bool x =? y
  | VInt x, VBool y => x =? int_of_bool y
  | VInt x, VInt y => x =? y
  | VStr x, VStr y => String.eqb x y
  | VDatetime x, VDatetime y => x =? y
  | _, _ => false
  end.

(** [a or b]. *)
Definition py_or (a b : value) : value := if truthy a then a else b.

(** ** Strings *)

Definition digit_char (d : Z) : ascii := ascii_of_nat (48 + Z.to_nat d).

Fixpoint digits_fuel (fuel : nat) (n : Z) (acc : string) : string :=
  match fuel with
  | O => acc
  | S fuel' =>
      let acc' := String (digit_char (n mod 10)) acc in
      if n / 10 =? 0 then acc' else digits_fuel fuel' (n / 10) acc'
  end.

(** Decimal digits of a natural number [n >= 0]. *)
Definition digits (n : Z) : string :=
  digits_fuel (S (Z.to_nat (Z.log2 n))) n "".

(** [str(n)] for an int. *)
Definition str_of_int (n : Z) : string :=
  if n <? 0 then String "-" (digits (- n)) else digits n.

Fixpoint zeros_before (k : nat) (s : string) : string :=
  match k with
  | O => s
  | S k' => zeros_before k' (String "0" s)
  end.

(** [s.zfill(width)] for a string of digits. *)
Definition pad_left (width : nat) (s : string) : string :=
  zeros_before (width - String.length s) s.

(** Days since 1970-01-01 of a proleptic Gregorian date. *)
Definition days_from_civil (y m d : Z) : Z :=
  let y' := if m <=? 2 then y - 1 else y in
  let era := y' / 400 in
  let yoe := y' - era * 400 in
  let mp := (m + 9) mod 12 in
  let doy := (153 * mp + 2) / 5 + d - 1 in
  let doe := yoe * 365 + yoe / 4 - yoe / 100 + doy in
  era * 146097 + doe - 719468.

(** The proleptic Gregorian date (year, month, day) of a day number. *)
Definition civil_from_days (z : Z) : Z * Z * Z :=
  let z' := z + 719468 in
  let era := z' / 146097 in
  let doe := z' - era * 146097 in
  let yoe := (doe - doe / 1460 + doe / 36524 - doe / 146096) / 365 in
  let doy := doe - (365 * yoe + yoe / 4 - yoe / 100) in
  let mp := (5 * doy + 2) / 153 in
  let d := doy - (153 * mp + 2) / 5 + 1 in
  let m := if mp <? 10 then mp + 3 else mp - 9 in
  let y := yoe + era * 400 in
  (if m <=? 2 then y + 1 else y, m, d).

(** [str(dt)]: [YYYY-MM-DD HH:MM:SS], followed by [.ffffff] when the
    microsecond part is not zero. *)
Definition str_of_datetime (dt : datetime) : string :=
  let '(y, m, d) := civil_from_days (date_key dt) in
  let us := dt mod us_per_day in
  let secs := us / us_per_second in
  let frac := us mod us_per_second in
  let two n := pad_left 2 (digits n) in
  pad_left 4 (digits y) +:+ "-" +:+ two m +:+ "-" +:+ two d +:+ " " +:+
  two (secs / 3600) +:+ ":" +:+ two ((secs / 60) mod 60) +:+ ":" +:+ two (secs mod 60) +:+
  (if frac =? 0 then "" else "." +:+ pad_left 6 (digits frac)).

(** [str(v)]. *)
Definition py_str (v : value) : string :=
  match v with
  | VNone => "None"
  | VBool true => "True"
  | VBool false => "False"
  | VInt z => str_of_int z
  | VStr s => s
  | VDatetime d => str_of_datetime d
  end.

Definition map_string (f : ascii -> ascii) : string -> string :=
  fix go (s : string) : string :=
    match s with
    | EmptyString => EmptyString
    | String c s' => String (f c) (go s')
    end.

Definition upper_char (c : ascii) : ascii :=
  let n := nat_of_ascii c in
  if ((97 <=? n) && (n <=? 122))%nat then ascii_of_nat (n - 32) else c.

Definition lower_char (c : ascii) : ascii :=
  let n := nat_of_ascii c in
  if ((65 <=? n) && (n <=? 90))%nat then ascii_of_nat (n + 32) else c.

(** [s.upper()] and [s.lower()]; strings are byte strings (UTF-8), and
    only the ASCII letters change case. *)
Definition upper : string -> string := map_string upper_char.
Definition lower : string -> string := map_string lower_char.

(** The ASCII characters Python's [str.strip()] removes. *)
Definition is_space (c : ascii) : bool :=
  let n := nat_of_ascii c in
  ((9 <=? n) && (n <=? 13) || (28 <=? n) && (n <=? 32))%nat.

Fixpoint lstrip (s : string) : string :=
  match s with
  | EmptyString => EmptyString
  | String c s' => if is_space c then lstrip s' else s
  end.

Fixpoint rstrip (s : string) : string :=
  match s with
  | EmptyString => EmptyString
  | String c s' =>
      match rstrip s' with
      | EmptyString => if is_space c then EmptyString else String c EmptyString
      | r => String c r
      end
  end.

(** [s.strip()]. *)
Definition strip (s : string) : string := rstrip (lstrip s).

Fixpoint starts_with (p s : string) : bool :=
  match p, s with
  | EmptyString, _ => true
  | String a p', String b s' => Ascii.eqb a b && starts_with p' s'
  | String _ _, EmptyString => false
  end.

(** [needle in hay] on strings. *)
Fixpoint contains (needle hay : string) : bool :=
  starts_with needle hay ||
  match hay with
  | EmptyString => false
  | String _ hay' => contains needle hay'
  end.

(** [any(x in s for x in xs)]. *)
Definition any_in (xs : list string) (s : string) : bool :=
  existsb (fun x => contains x s) xs.

(** [s.split(sep)[0]] for a one-character separator. *)
Fixpoint split_head (sep : ascii) (s : string) : string :=
  match s with
  | EmptyString => EmptyString
  | String c s' => if Ascii.eqb c sep then EmptyString else String c (split_head sep s')
  end.

(** A string holds the UTF-8 encoding of a Python [str]: a character
    begins at every byte that is not a continuation byte [10xxxxxx]. *)
Definition is_continuation (c : ascii) : bool :=
  let n := nat_of_ascii c in ((128 <=? n) && (n <=? 191))%nat.

(** [len(s)]: the number of characters of [s]. *)
Fixpoint py_len (s : string) : nat :=
  match s with
  | EmptyString => 0
  | String c s' => if is_continuation c then py_len s' else S (py_len s')
  end.

(** [s[:n]]: the first [n] characters of [s]. *)
Fixpoint py_take (n : nat) (s : string) : string :=
  match s with
  | EmptyString => EmptyString
  | String c s' =>
      if is_continuation c then String c (py_take n s')
      else
        match n with
        | O => EmptyString
        | S n' => String c (py_take n' s')
        end
  end.

Definition is_digit (c : ascii) : bool :=
  let n := nat_of_ascii c in ((48 <=? n) && (n <=? 57))%nat.

Definition digit_value (c : ascii) : Z := Z.of_nat (nat_of_ascii c) - 48.

(** Digits with single underscores between them, as [int()] accepts.
    [after_digit] tells whether the previous character was a digit. *)
Fixpoint parse_digits (s : string) (acc : Z) (after_digit : bool) : option Z :=
  match s with
  | EmptyString => if after_digit then Some acc else None
  | String c s' =>
      if is_digit c then parse_digits s' (10 * acc + digit_value c) true
      else if Ascii.eqb c "_" && after_digit then
             match s' with
             | String c' _ => if is_digit c' then parse_digits s' acc false else None
             | EmptyString => None
             end
           else None
  end.

(** [int(s)] for a string (ASCII digits); [None] stands for [ValueError]. *)
Definition int_of_string (s : string) : option Z :=
  match strip s with
  | String "+" r => parse_digits r 0 false
  | String "-" r => option_map Z.opp (parse_digits r 0 false)
  | r => parse_digits r 0 false
  end.

(** [int(v)]; [None] stands for [ValueError] or [TypeError]. *)
Definition py_int (v : value) : option Z :=
  match v with
  | VNone => None
  | VBool b => Some (int_of_bool b)
  | VInt z => Some z
  | VStr s => int_of_string s
  | VDatetime _ => None
  end.

(** ** Dictionaries *)

(** A [dict] with string keys, in insertion order. *)
Definition dict : Type := list (string * value).

(** [d[k]] when [k in d]. *)
Fixpoint dict_get (k : string) (d : dict) : option value :=
  match d with
  | [] => None
  | (k', v) :: d' => if String.eqb k k' then Some v else dict_get k d'
  end.

(** [k in d]. *)
Definition has_key (k : string) (d : dict) : bool :=
  match dict_get k d with Some _ => true | None => false end.

(** [d.get(k)]. *)
Definition get (k : string) (d : dict) : value :=
  match dict_get k d with Some v => v | None => VNone end.

(** [d.get(k, default)]. *)
Definition get_default (k : string) (default : value) (d : dict) : value :=
  match dict_get k d with Some v => v | None => default end.

(** [d[k] = v]: in place when the key exists, appended otherwise. *)
Fixpoint dict_set (k : string) (v : value) (d : dict) : dict :=
  match d with
  | [] => [(k, v)]
  | (k', v') :: d' =>
      if String.eqb k k' then (k', v) :: d' else (k', v') :: dict_set k v d'
  end.

(** [del d[k]]. *)
Fixpoint dict_del (k : string) (d : dict) : dict :=
  match d with
  | [] => []
  | (k', v') :: d' => if String.eqb k k' then d' else (k', v') :: dict_del k d'
  end.

(** The two attendance labels. *)
Inductive label : Type := IN | OUT.

Definition label_str (l : label) : string :=
  match l with IN => "IN" | OUT => "OUT" end.

Definition label_eqb (a b : label) : bool :=
  match a, b with IN, IN | OUT, OUT => true | _, _ => false end.

Definition opposite (l : label) : label :=
  match l with IN => OUT | OUT => IN end.

(** ** Library functions the code calls *)

(** What [datetime.fromtimestamp(ts)] does inside
    [try: ... except (ValueError, TypeError, OSError): continue]: a local
    naive time, an error the handler catches, or an error it lets through
    ([OverflowError]). *)
Inductive timestamp_result : Type :=
| TsOk (d : datetime)
| TsCaught
| TsUncaught.

(** The library functions whose results depend on parsing rules or on the
    local time zone.
    - [strptime value fmt] is [datetime.strptime(value, fmt)], [None] for
      [ValueError]; the result is taken naive ([replace(tzinfo=None)]);
    - [parse_datetime s] is [frappe.utils.get_datetime(s)] on a string,
      [None] when it raises or returns [None];
    - [fromtimestamp us] is [datetime.fromtimestamp] at [us] microseconds
      after the epoch. *)
Record py_env : Type := {
  strptime : string -> string -> option datetime;
  parse_datetime : string -> option datetime;
  fromtimestamp : Z -> timestamp_result
}.

(** [frappe.utils.get_datetime(v)] for a truthy [v]: a [datetime] is
    returned as it is, a string is parsed, anything else has no date. *)
Definition get_datetime (E : py_env) (v : value) : option datetime :=
  match v with
  | VDatetime d => Some d
  | VStr s => parse_datetime E s
  | _ => None
  end.

(** List sorting: [list.sort] and SQL [order by] on a list, as a stable
    insertion sort ([leb x y] reads "x may stay before y"). *)
Section StableSort.
Context {A : Type} (leb : A -> A -> bool).

Fixpoint insert_sorted (x : A) (l : list A) : list A :=
  match l with
  | [] => [x]
  | y :: l' => if leb x y then x :: y :: l' else y :: insert_sorted x l'
  end.

Fixpoint sort_leb (l : list A) : list A :=
  match l with
  | [] => []
  | x :: l' => insert_sorted x (sort_leb l')
  end.
End StableSort.

(** [l.sort(key=key)] for a key that is a time. *)
Definition sort_by {A : Type} (key : A -> Z) : list A -> list A :=
  sort_leb (fun x y => key x <=? key y).

(** A [defaultdict(list)]: keys in order of first insertion, compared with
    [eqb]. *)
Section Grouping.
Context {K X : Type} (eqb : K -> K -> bool).

Fixpoint group_add (k : K) (x : X) (g : list (K * list X)) : list (K * list X) :=
  match g with
  | [] => [(k, [x])]
  | (k', xs) :: g' =>
      if eqb k k' then (k', xs ++ [x]) :: g' else (k', xs) :: group_add k x g'
  end.
End Grouping.

(** [a < b]; [None] stands for the [TypeError] of an unordered pair. *)
Definition py_ltb (a b : value) : option bool :=
  match a, b with
  | VStr x, VStr y => Some (String.ltb x y)
  | VDatetime x, VDatetime y => Some (x <? y)
  | VInt x, VInt y => Some (x <? y)
  | VInt x, VBool y => Some (x <? int_of_bool y)
  | VBool x, VInt y => Some (int_of_bool x <? y)
  | VBool x, VBool y => Some (int_of_bool x <? int_of_bool y)
  | _, _ => None
  end.

(** [l.sort(key=key)] on keys that are Python values: stable, and [None]
    as soon as a comparison raises. *)
Section SortValues.
Context {A : Type} (key : A -> value).

Fixpoint insert_value (x : A) (l : list A) : option (list A) :=
  match l with
  | [] => Some [x]
  | y :: l' =>
      match py_ltb (key y) (key x) with
      | None => None
      | Some true => option_map (cons y) (insert_value x l')
      | Some false => Some (x :: y :: l')
      end
  end.

Fixpoint sort_values (l : list A) : option (list A) :=
  match l with
  | [] => Some []
  | x :: l' =>
      match sort_values l' with
      | Some sorted => insert_value x sorted
      | None => None
      end
  end.
End SortValues.

(** ** The stored check-ins *)

(** One [Employee Checkin] row: the columns [name], [employee], [time]
    (in microseconds), [log_type] and [device_id]. *)
Record checkin : Type := {
  ck_name : string;
  ck_employee : string;
  ck_time : datetime;
  ck_log_type : string;
  ck_device_id : string
}.

(** One [Employee] row, with the three fields the lookup reads. *)
Record employee_row : Type := {
  emp_name : string;
  emp_employee : string;
  emp_user_id : string;
  emp_attendance_device_id : string
}.

(** What a call does: it returns a boolean or lets an exception escape. *)
Inductive outcome : Type :=
| Return (b : bool)
| Raise (exc : string).

(** What [doc.insert(...)] does: the row is stored, or the store raises
    [frappe.DuplicateEntryError], or it raises something else. *)
Inductive insert_result : Type :=
| Stored
| DuplicateEntryError
| OtherError.

(** The site the code runs on: the library functions, the [Employee] table
    (never written here), the name the store gives to a new check-in and
    what an insert does. *)
Record site : Type := {
  py : py_env;
  employees : list employee_row;
  has_attendance_device_id : bool;
  autoname : list checkin -> string;
  insert : list checkin -> checkin -> insert_result
}.

(** An insert that always stores the row. *)
Definition always_stored : list checkin -> checkin -> insert_result :=
  fun _ _ => Stored.

(** [frappe.db.get_value("Employee", {field: emp_code}, "name")]: the name
    of the first row whose field equals the code. *)
Definition get_employee_by (field : employee_row -> string) (emp_code : value)
    (rows : list employee_row) : option string :=
  option_map emp_name
    (List.find (fun r => String.eqb (field r) (py_str emp_code)) rows).

(** [if employee:] on the result of [get_value]. *)
Definition found (r : option string) : bool :=
  match r with
  | Some n => negb (String.eqb n "")
  | None => false
  end.

(** [order_by="employee asc, time asc"]. *)
Definition by_employee_time (a b : checkin) : bool :=
  match String.compare (ck_employee a) (ck_employee b) with
  | Lt => true
  | Eq => ck_time a <=? ck_time b
  | Gt => false
  end.

(** [frappe.get_all("Employee Checkin", filters, order_by="employee asc,
    time asc")]: the rows passing the filter, ordered; rows that compare
    equal stay in the order of the table. *)
Definition get_all_checkins (filters : checkin -> bool) (store : list checkin)
    : list checkin :=
  sort_leb by_employee_time (List.filter filters store).

(** [frappe.db.set_value("Employee Checkin", name, "log_type", log_type)]. *)
Definition set_log_type (name log_type : string) (store : list checkin) : list checkin :=
  map (fun r =>
         if String.eqb (ck_name r) name then
           {| ck_name := ck_name r; ck_employee := ck_employee r; ck_time := ck_time r;
              ck_log_type := log_type; ck_device_id := ck_device_id r |}
         else r) store.

(** One of the dicts the repair passes put in their groups; [fe_correct]
    is the key [correct_log_type], absent at first. *)
Record fix_entry : Type := {
  fe_name : string;
  fe_time : datetime;
  fe_current : string;
  fe_correct : option string
}.

Definition with_correct (c : string) (e : fix_entry) : fix_entry :=
  {| fe_name := fe_name e; fe_time := fe_time e; fe_current := fe_current e;
     fe_correct := Some c |}.

(** Equality of the keys [(emp, date_key)] of the repair passes. *)
Definition day_key_eqb (a b : string * Z) : bool :=
  String.eqb (fst a) (fst b) && (snd a =? snd b).

(** The grouping loop of the repair passes. *)
Fixpoint group_checkins (checkins : list checkin)
    (grouped : list ((string * Z) * list fix_entry))
    : list ((string * Z) * list fix_entry) :=
  match checkins with
  | [] => grouped
  | c :: rest =>
      group_checkins rest
        (group_add day_key_eqb (ck_employee c, date_key (ck_time c))
           {| fe_name := ck_name c; fe_time := ck_time c;
              fe_current := ck_log_type c; fe_correct := None |}
           grouped)
  end.

(** [datetime] cut-offs of the time-window gate. *)
Definition max_past_days : Z := 90.

(** ** The device, the vendor API and the configuration *)

(** An attendance record as the device library returns it: the attributes
    [user_id], [timestamp] and [punch]. *)
Record attendance : Type := {
  att_user_id : value;
  att_timestamp : value;
  att_punch : value
}.

(** The JSON body of a response of the vendor API.  An object is kept as
    its entry [next] ([None] when the key is absent or null) and the arrays
    under [data], [results] and [transactions] ([None] when the key is
    absent; a null entry is the empty array, which the code treats alike).
    Entries under these three keys that are neither arrays of objects nor
    null are outside the model. *)
Inductive body : Type :=
| BodyList (transactions : list dict)
| BodyDict (next : value) (data results transactions : option (list dict))
| BodyOther.

(** What lies outside the site: [http_get url params] is
    [requests.get(url, headers=..., params=...)] followed by
    [raise_for_status()] and [json()], [None] when one of them raises
    ([params] holds the two times of the query string, cut to seconds by
    [strftime]); [zk_library] tells whether [zk] could be imported;
    [get_attendance ip port] is [ZK(ip, port=port, ...).connect()
    .get_attendance() or []], [None] when it raises. *)
Record network : Type := {
  http_get : string -> option (datetime * datetime) -> option body;
  zk_library : bool;
  get_attendance : value -> Z -> option (list attendance)
}.

(** The single document [ZKTeco Config], with the fields the sync jobs
    read or write. *)
Record config : Type := {
  cfg_server_ip : value;
  cfg_server_port : value;
  cfg_token : value;
  cfg_enable_sync : bool;
  cfg_seconds : value;
  cfg_last_sync : value;
  cfg_total_synced_records : Z
}.

(** What the sync jobs read and write: the cache ([frappe.cache()]), the
    configuration and the stored check-ins. *)
Record world : Type := {
  w_cache : dict;
  w_cfg : config;
  w_store : list checkin
}.

Definition with_cache (c : dict) (w : world) : world :=
  {| w_cache := c; w_cfg := w_cfg w; w_store := w_store w |}.

(** [frappe.db.set_single_value] on [last_sync] and
    [total_synced_records]. *)
Definition set_sync_stats (last_sync : datetime) (total : Z) (c : config) : config :=
  {| cfg_server_ip := cfg_server_ip c; cfg_server_port := cfg_server_port c;
     cfg_token := cfg_token c; cfg_enable_sync := cfg_enable_sync c;
     cfg_seconds := cfg_seconds c; cfg_last_sync := VDatetime last_sync;
     cfg_total_synced_records := total |}.

(** What [device_mode_sync] returns: [{"success": True, "created": n}],
    [{"success": False, "message": m}] for one of its own messages, or
    [{"success": False, "message": str(e)}] for a caught exception. *)
Inductive sync_result : Type :=
| SyncCreated (created : nat)
| SyncRefused (message : string)
| SyncError.

(** ** The app module: [zkteco_checkins_sync/zkteco_checkin_sync/doctype/zkteco_config/zkteco_config.py] *)

Module ConfigApp.

(** *** [detect_log_type] *)

Definition out_indicators : list string :=
  ["OUT"; "CHECK OUT"; "CHECKOUT"; "CHK OUT"; "CHKOUT"; "OUTGOING"; "EXIT"].
Definition in_indicators : list string :=
  ["IN"; "CHECK IN"; "CHECKIN"; "CHK IN"; "CHKIN"; "ENTRY"].

(** [if not value and value not in [0, False]: continue]. *)
Definition skipped (v : value) : bool :=
  negb (truthy v) && negb (py_eqb v (VInt 0) || py_eqb v (VBool false)).

(** First loop: any field value holding an indicator, OUT before IN. *)
Fixpoint scan_values (items : dict) : option label :=
  match items with
  | [] => None
  | (_, v) :: rest =>
      if skipped v then scan_values rest
      else
        let value_str := strip (upper (py_str v)) in
        if any_in out_indicators value_str then Some OUT
        else if any_in in_indicators value_str then Some IN
        else scan_values rest
  end.

(** [(field_name, is_numeric, out_value, in_value)]. *)
Definition field_checks : list (string * bool * value * value) :=
  [ ("log_type", false, VStr "OUT", VStr "IN");
    ("punch_state", true, VInt 1, VInt 0);
    ("punch", true, VInt 1, VInt 0);
    ("punchtype", true, VInt 1, VInt 0);
    ("type", false, VStr "OUT", VStr "IN");
    ("direction", false, VStr "OUT", VStr "IN");
    ("status", false, VStr "OUT", VStr "IN");
    ("verify_type", true, VInt 1, VInt 0) ].

(** Second loop: the known fields; a failing [int()] is caught and the
    next field is tried. *)
Fixpoint check_fields (checks : list (string * bool * value * value))
    (transaction : dict) : option label :=
  match checks with
  | [] => None
  | (field, is_numeric, out_val, in_val) :: rest =>
      match dict_get field transaction with
      | None | Some VNone => check_fields rest transaction
      | Some v =>
          if is_numeric then
            match py_int v with
            | Some val =>
                if py_eqb (VInt val) out_val then Some OUT
                else if py_eqb (VInt val) in_val then Some IN
                else check_fields rest transaction
            | None => check_fields rest transaction
            end
          else
            let val := strip (upper (py_str v)) in
            if String.eqb val (upper (py_str out_val)) then Some OUT
            else if String.eqb val (upper (py_str in_val)) then Some IN
            else check_fields rest transaction
      end
  end.

Definition out_indicators_lower : list string :=
  ["out"; "check out"; "checkout"; "چیک آؤٹ"].
Definition in_indicators_lower : list string :=
  ["in"; "check in"; "checkin"; "چیک ان"].

(** Third stage: the text of [punch_state_display]. *)
Definition check_display (transaction : dict) : option label :=
  let punch_state_display :=
    strip (lower (py_str (get_default "punch_state_display" (VStr "") transaction))) in
  if String.eqb punch_state_display "" then None
  else if any_in out_indicators_lower punch_state_display then Some OUT
  else if any_in in_indicators_lower punch_state_display then Some IN
  else None.

(** Last loop: fields whose name holds [punch], [state] or [type]. *)
Fixpoint scan_keys (items : dict) : option label :=
  match items with
  | [] => None
  | (key, v) :: rest =>
      if skipped v then scan_keys rest
      else
        let key_lower := lower key in
        if contains "punch" key_lower || contains "state" key_lower
           || contains "type" key_lower then
          let value_str := lower (py_str v) in
          if any_in out_indicators_lower value_str then Some OUT
          else if any_in in_indicators_lower value_str then Some IN
          else scan_keys rest
        else scan_keys rest
  end.

Definition detect_log_type (transaction : dict) : label :=
  match scan_values transaction with
  | Some l => l
  | None =>
      match check_fields field_checks transaction with
      | Some l => l
      | None =>
          match check_display transaction with
          | Some l => l
          | None =>
              match scan_keys transaction with
              | Some l => l
              | None => IN
              end
          end
      end
  end.

(** *** [adjust_checkin_sequence] *)

(** ['log_type' in t and t['log_type'] in ['IN', 'OUT']], with the label. *)
Definition existing_label (t : dict) : option label :=
  match dict_get "log_type" t with
  | Some v =>
      if py_eqb v (VStr "IN") then Some IN
      else if py_eqb v (VStr "OUT") then Some OUT
      else None
  | None => None
  end.

(** [t["log_type"] = l; t["_sequence_adjusted"] = True]. *)
Definition mark (l : label) (t : dict) : dict :=
  dict_set "_sequence_adjusted" (VBool true)
    (dict_set "log_type" (VStr (label_str l)) t).

(** The key of a punch's group and its parsed time; [None] when the
    punch is skipped. *)
Definition group_entry (E : py_env) (t : dict) : option ((value * Z) * datetime) :=
  let emp := py_or (get "emp_code" t) (get "employee_code" t) in
  let raw_time :=
    py_or (get "punch_time" t) (py_or (get "punchTime" t)
      (py_or (get "punchtime" t) (py_or (get "timestamp" t) (get "time" t)))) in
  if negb (truthy emp) || negb (truthy raw_time) then None
  else
    match get_datetime E raw_time with
    | Some dt => Some ((emp, date_key dt), dt)
    | None => None
    end.

(** Equality of the keys [(emp, date_key)]. *)
Definition key_eqb (a b : value * Z) : bool :=
  py_eqb (fst a) (fst b) && (snd a =? snd b).

(** The grouping loop; a punch is kept as its time and its position in
    [transactions] (the dict objects are shared with the list). *)
Fixpoint group_punches (E : py_env) (i : nat) (transactions : list dict)
    (grouped : list ((value * Z) * list (datetime * nat)))
    : list ((value * Z) * list (datetime * nat)) :=
  match transactions with
  | [] => grouped
  | t :: rest =>
      group_punches E (S i) rest
        match group_entry E t with
        | Some (k, dt) => group_add key_eqb k (dt, i) grouped
        | None => grouped
        end
  end.

(** [if ... not in ['IN', 'OUT']: punch["log_type"] = l; ...] on the
    punch at position [i]. *)
Definition set_unless_labelled (l : label) (i : nat) (transactions : list dict)
    : list dict :=
  alter (fun t => match existing_label t with Some _ => t | None => mark l t end)
    i transactions.

(** The loop over the middle punches, [prev] being [prev_type]. *)
Fixpoint alternate_middle (prev : label) (middle : list nat)
    (transactions : list dict) : list dict :=
  match middle with
  | [] => transactions
  | i :: rest =>
      match transactions !! i with
      | Some current =>
          match existing_label current with
          | Some l => alternate_middle l rest transactions
          | None =>
              let l := match prev with IN => OUT | OUT => IN end in
              alternate_middle l rest (alter (mark l) i transactions)
          end
      | None => alternate_middle prev rest transactions
      end
  end.

(** The body of the loop over the groups. *)
Definition process_group (punches : list (datetime * nat))
    (transactions : list dict) : list dict :=
  let punches := sort_by fst punches in
  match map snd punches with
  | [] => transactions
  | [only] => set_unless_labelled IN only transactions
  | first :: rest =>
      let transactions := set_unless_labelled IN first transactions in
      let transactions := set_unless_labelled OUT (List.last rest first) transactions in
      if (length punches =? 2)%nat then transactions
      else alternate_middle IN (removelast rest) transactions
  end.

(** [adjust_checkin_sequence(transactions)] on a list of dicts whose
    times [get_datetime] reads as naive date-times: the sort of a group
    then compares without raising and the function returns.  A group
    that mixes offset-aware and naive times, on which [punches.sort]
    raises [TypeError], is outside the model. *)
Definition adjust_checkin_sequence (E : py_env) (transactions : list dict)
    : list dict :=
  match transactions with
  | [] => transactions
  | _ =>
      fold_left (fun ts g => process_group (snd g) ts)
        (group_punches E 0 transactions []) transactions
  end.

(** *** [find_employee_by_code] *)

Definition find_employee_by_code (F : site) (emp_code : value) : option string :=
  let employee := get_employee_by emp_employee emp_code (employees F) in
  if found employee then employee
  else
    let employee := get_employee_by emp_user_id emp_code (employees F) in
    if found employee then employee
    else if has_attendance_device_id F then
      let employee :=
        get_employee_by emp_attendance_device_id emp_code (employees F) in
      if found employee then employee else None
    else None.

(** *** [create_employee_checkin] *)

Definition time_fields : list string :=
  ["punch_time"; "punchTime"; "punchtime"; "time";
   "timestamp"; "punchTimeStr"; "checktime"; "record_time"].

Definition time_formats : list string :=
  ["%Y-%m-%d %H:%M:%S"; "%Y-%m-%dT%H:%M:%S"; "%Y-%m-%d %H:%M"; "%Y-%m-%d";
   "%Y/%m/%d %H:%M:%S"; "%d-%m-%Y %H:%M:%S"; "%d/%m/%Y %H:%M:%S";
   "%Y%m%d%H%M%S"; "%Y%m%d"; "%d.%m.%Y %H:%M:%S"; "%b %d %Y %H:%M:%S";
   "%b %d %Y %H:%M:%S.%f"; "%Y-%m-%d %H:%M:%S.%f"; "%Y-%m-%d %H:%M:%S%z";
   "%Y-%m-%dT%H:%M:%S%z"].

(** The loop over [time_formats]: the first format that parses. *)
Fixpoint try_formats (E : py_env) (formats : list string) (v : string)
    : option datetime :=
  match formats with
  | [] => None
  | fmt :: rest =>
      match strptime E v fmt with
      | Some d => Some d
      | None => try_formats E rest v
      end
  end.

(** [float(value)] seconds, divided by 1000 above [1e12], in microseconds. *)
Definition timestamp_us (z : Z) : Z :=
  if z >? 1000000000000 then z * 1000 else z * us_per_second.

(** What the loop over [time_fields] ends with. *)
Inductive extracted : Type :=
| Parsed (punch_time : datetime)
| NoTime
| Failed.

(** The loop over [time_fields]. *)
Fixpoint extract_punch_time (E : py_env) (fields : list string)
    (transaction : dict) : extracted :=
  match fields with
  | [] => NoTime
  | field :: rest =>
      match dict_get field transaction with
      | None => extract_punch_time E rest transaction
      | Some v =>
          if negb (truthy v) then extract_punch_time E rest transaction
          else
            match v with
            | VNone => extract_punch_time E rest transaction
            | VStr s =>
                if String.eqb (strip s) "" then extract_punch_time E rest transaction
                else
                  match try_formats E time_formats (strip s) with
                  | Some d => Parsed d
                  | None => extract_punch_time E rest transaction
                  end
            | VInt z =>
                match fromtimestamp E (timestamp_us z) with
                | TsOk d => Parsed d
                | TsCaught => extract_punch_time E rest transaction
                | TsUncaught => Failed
                end
            | VBool b =>
                match fromtimestamp E (timestamp_us (int_of_bool b)) with
                | TsOk d => Parsed d
                | TsCaught => extract_punch_time E rest transaction
                | TsUncaught => Failed
                end
            | VDatetime d => Parsed d
            end
      end
  end.

(** The employee code read from the transaction. *)
Definition emp_code_of (transaction : dict) : value :=
  py_or (get "emp_code" transaction)
    (py_or (get "employee_code" transaction)
      (py_or (get "employee_no" transaction)
        (VStr (split_head "_" (py_str (get_default "id" (VStr "") transaction)))))).

(** The device identifier read from the transaction. *)
Definition device_id_of (transaction : dict) : value :=
  py_or (get "terminal_alias" transaction)
    (py_or (get "terminal_sn" transaction)
      (py_or (get "device_alias" transaction)
        (py_or (get "device_id" transaction)
          (py_or
             (VStr (py_str (get_default "ip_address" (VStr "") transaction) +:+ ":"
                    +:+ py_str (get_default "port" (VStr "") transaction)))
             (VStr "Unknown"))))).

Definition transaction_id_of (transaction : dict) : value :=
  py_or (get "id" transaction)
    (py_or (get "transaction_id" transaction)
      (py_or (get "uid" transaction) (VStr "unknown"))).

(** The label the check-in is stored with. *)
Definition log_type_of (transaction : dict) : value :=
  match get "_sequence_adjusted" transaction with
  | VNone => VStr (label_str (detect_log_type transaction))
  | _ =>
      if truthy (get "log_type" transaction) then get "log_type" transaction
      else VStr (label_str (detect_log_type transaction))
  end.

(** [unique_device_id] before the length check. *)
Definition unique_device_id_of (device_id transaction_id : value) : value :=
  if truthy device_id && truthy transaction_id then
    VStr (py_str device_id +:+ " (ZKTeco-" +:+ py_str transaction_id +:+ ")")
  else if truthy transaction_id then
    py_or device_id (VStr ("ZKTeco-" +:+ py_str transaction_id))
  else VStr "ZKTeco Device".

(** [(u[:135] + '...') if len(u) > 140 else u]. *)
Definition clip_device_id (u : string) : string :=
  if (140 <? py_len u)%nat then py_take 135 u +:+ "..." else u.

(** The filter of the existence check: employee, time, label and
    [device_id like %...%]. *)
Definition matches (employee : string) (checkin_time : datetime)
    (log_type : value) (device_id : value) (r : checkin) : bool :=
  String.eqb (ck_employee r) employee
  && (ck_time r =? checkin_time)
  && String.eqb (ck_log_type r) (py_str log_type)
  && contains (if truthy device_id then py_str device_id else "ZKTeco")
       (ck_device_id r).

(** [create_employee_checkin(transaction)] on the stored check-ins
    [store]; [now] and [current_time] are the two readings of
    [now_datetime()].  The result is what the call does and the
    check-ins stored after it. *)
Definition create_employee_checkin (F : site) (now current_time : datetime)
    (store : list checkin) (transaction : dict) : outcome * list checkin :=
  let emp_code := emp_code_of transaction in
  match extract_punch_time (py F) time_fields transaction with
  | NoTime | Failed => (Return false, store)
  | Parsed punch_time =>
      let device_id := device_id_of transaction in
      let transaction_id := transaction_id_of transaction in
      if negb (truthy emp_code) then (Return false, store)
      else if punch_time >? now + days 1 then (Return false, store)
      else if now - punch_time >? days 90 then (Return false, store)
      else
        match find_employee_by_code F emp_code with
        | None => (Return false, store)
        | Some employee =>
            let punch_datetime := punch_time in
            if punch_datetime >? current_time + minutes 5 then (Return false, store)
            else if punch_datetime <? current_time - days max_past_days
            then (Return false, store)
            else
              let log_type := log_type_of transaction in
              match unique_device_id_of device_id transaction_id with
              | VStr unique_device_id =>
                  let unique_device_id := clip_device_id unique_device_id in
                  let checkin_time := whole_seconds punch_datetime in
                  if existsb (matches employee checkin_time log_type device_id) store
                  then (Return true, store)
                  else
                    let row :=
                      {| ck_name := autoname F store;
                         ck_employee := employee;
                         ck_time := checkin_time;
                         ck_log_type := py_str log_type;
                         ck_device_id := unique_device_id |} in
                    match insert F store row with
                    | Stored => (Return true, store ++ [row])
                    | DuplicateEntryError =>
                        (* [except frappe.DuplicateEntryError:] then
                           [str(e)] with no [e] bound *)
                        (Raise "UnboundLocalError", store)
                    | OtherError => (Return false, store)
                    end
              | _ =>
                  (* [len()] of a non-string raises [TypeError], caught
                     by [except Exception] *)
                  (Return false, store)
              end
        end
  end.

(** *** [create_checkin_from_attendance_v2] *)

Definition create_checkin_from_attendance_v2 (F : site) (current_time : datetime)
    (store : list checkin) (transaction : dict) (device_id : string)
    : outcome * list checkin :=
  let emp_code := get "emp_code" transaction in
  if negb (truthy emp_code) then (Return false, store)
  else
    match find_employee_by_code F emp_code with
    | None => (Return false, store)
    | Some employee =>
        let punch_datetime :=
          py_or (get "punch_time" transaction) (get "timestamp" transaction) in
        if negb (truthy punch_datetime) then (Return false, store)
        else
          match punch_datetime with
          | VDatetime punch_datetime =>
              if punch_datetime >? current_time + minutes 5 then (Return false, store)
              else if punch_datetime <? current_time - days max_past_days
              then (Return false, store)
              else
                let log_type := get_default "log_type" (VStr "IN") transaction in
                if existsb
                     (fun r =>
                        String.eqb (ck_employee r) employee
                        && (ck_time r =? punch_datetime)
                        && String.eqb (ck_device_id r) device_id
                        && String.eqb (ck_log_type r) (py_str log_type))
                     store
                then (Return true, store)
                else
                  let row :=
                    {| ck_name := autoname F store;
                       ck_employee := employee;
                       ck_time := punch_datetime;
                       ck_log_type := py_str log_type;
                       ck_device_id := device_id |} in
                  match insert F store row with
                  | Stored => (Return true, store ++ [row])
                  | DuplicateEntryError | OtherError => (Return false, store)
                  end
          | _ =>
              (* comparing a non-datetime with a datetime raises
                 [TypeError], caught by [except Exception] *)
              (Return false, store)
          end
    end.

(** *** The loops of [sync_zkteco_transactions] and [device_mode_sync] *)

(** [for transaction in transactions: ...] of [sync_zkteco_transactions]:
    the counters [processed_count], [error_count] and the store.
    [clock i] holds the two readings of [now_datetime()] made by the call
    on the [i]-th transaction. *)
Fixpoint checkin_loop (F : site) (clock : nat -> datetime * datetime) (i : nat)
    (transactions : list dict) (processed_count error_count : nat)
    (store : list checkin) : nat * nat * list checkin :=
  match transactions with
  | [] => (processed_count, error_count, store)
  | transaction :: rest =>
      let '(r, store') :=
        create_employee_checkin F (fst (clock i)) (snd (clock i)) store transaction in
      match r with
      | Return true =>
          checkin_loop F clock (S i) rest (S processed_count) error_count store'
      | Return false | Raise _ =>
          checkin_loop F clock (S i) rest processed_count (S error_count) store'
      end
  end.

(** [sync_zkteco_transactions] from the fetched transactions on. *)
Definition sync_zkteco_transactions (F : site) (clock : nat -> datetime * datetime)
    (store : list checkin) (fetched : list dict) : nat * nat * list checkin :=
  checkin_loop F clock 0 (adjust_checkin_sequence (py F) fetched) 0 0 store.

(** [for transaction in transactions: ...] of [device_mode_sync]: the
    counter [created] and the store. An exception escaping
    [create_checkin_from_attendance_v2] would end the loop; the model of
    that function never raises. *)
Fixpoint attendance_loop (F : site) (clock : nat -> datetime) (i : nat)
    (transactions : list dict) (device_id : string) (created : nat)
    (store : list checkin) : nat * list checkin :=
  match transactions with
  | [] => (created, store)
  | transaction :: rest =>
      let '(r, store') :=
        create_checkin_from_attendance_v2 F (clock i) store transaction device_id in
      match r with
      | Return true => attendance_loop F clock (S i) rest device_id (S created) store'
      | _ => attendance_loop F clock (S i) rest device_id created store'
      end
  end.

(** *** [fix_existing_checkins] *)

(** [for idx, checkin in enumerate(daily_checkins)]: [prev] is
    [daily_checkins[idx - 1]] as the loop left it, [updates] the list
    being built. *)
Fixpoint label_loop (len idx : nat) (prev : option fix_entry)
    (daily_checkins : list fix_entry) (updates : list (string * string))
    : list (string * string) :=
  match daily_checkins with
  | [] => updates
  | checkin :: rest =>
      let correct :=
        if (idx =? 0)%nat then "IN"
        else if (idx =? len - 1)%nat then "OUT"
        else
          let prev :=
            match prev with
            | Some p =>
                match fe_correct p with Some c => c | None => fe_current p end
            | None => ""
            end in
          if String.eqb prev "IN" then "OUT" else "IN" in
      label_loop len (S idx) (Some (with_correct correct checkin)) rest
        (if negb (String.eqb (fe_current checkin) correct)
         then updates ++ [(fe_name checkin, correct)] else updates)
  end.

(** [for (emp, date), daily_checkins in grouped.items()]. *)
Fixpoint group_loop (grouped : list ((string * Z) * list fix_entry))
    (updates : list (string * string)) : list (string * string) :=
  match grouped with
  | [] => updates
  | (_, daily_checkins) :: rest =>
      let daily_checkins := sort_by fe_time daily_checkins in
      group_loop rest (label_loop (length daily_checkins) 0 None daily_checkins updates)
  end.

(** The [updates] the pass computes from the stored check-ins. *)
Definition compute_updates (store : list checkin) : list (string * string) :=
  let checkins := get_all_checkins (fun r => contains ":4370" (ck_device_id r)) store in
  match checkins with
  | [] => []
  | _ => group_loop (group_checkins checkins []) []
  end.

(** [for name, log_type in updates: frappe.db.set_value(...)]. *)
Definition apply_updates (updates : list (string * string)) (store : list checkin)
    : list checkin :=
  fold_left (fun st u => set_log_type (fst u) (snd u) st) updates store.

(** [fix_existing_checkins()]: [updated_count] and the store after it. *)
Definition fix_existing_checkins (store : list checkin) : nat * list checkin :=
  let updates := compute_updates store in
  (length updates, apply_updates updates store).

(** *** [build_api_url] *)

(** [build_api_url(server_ip, server_port, endpoint, use_https)];
    [use_https] is [None] for the default (the protocol is read off the
    port) and [Some b] for a flag.  The result [None] stands for the
    [ValueError] of [int()] on a port that is not a number. *)
Definition build_api_url (server_ip server_port : value) (endpoint : string)
    (use_https : option bool) : option string :=
  let use_https :=
    match use_https with
    | None =>
        match int_of_string (strip (py_str server_port)) with
        | Some port_int => Some ((port_int =? 443) || (port_int =? 8443))
        | None => None
        end
    | Some b => Some b
    end in
  match use_https with
  | None => None
  | Some use_https =>
      let protocol := if use_https then "https" else "http" in
      let base_url :=
        protocol +:+ "://" +:+ py_str server_ip +:+ ":" +:+ py_str server_port in
      if negb (String.eqb endpoint "") then
        let endpoint :=
          if negb (starts_with "/" endpoint) then "/" +:+ endpoint else endpoint in
        Some (base_url +:+ endpoint)
      else Some base_url
  end.

(** *** [fetch_zkteco_transactions] *)

(** The transactions and the [next] link read from one response. *)
Definition page_content (data : body) : list dict * value :=
  match data with
  | BodyDict next data results transactions =>
      (match data with
       | Some l => l
       | None =>
           match results with
           | Some l => l
           | None => match transactions with Some l => l | None => [] end
           end
       end, next)
  | BodyList l => (l, VNone)
  | BodyOther => ([], VNone)
  end.

(** [for page_num in range(max_pages)] with [pages] iterations left: the
    transactions gathered and the URLs requested so far.  A request that
    raises ends the loop with what was gathered; so does a [next] link
    that is not a string, which [requests] refuses. *)
Fixpoint fetch_pages (N : network) (params : datetime * datetime) (pages page_num : nat)
    (current_url : string) (all_transactions : list dict) (requested : list string)
    : list dict * list string :=
  match pages with
  | O => (all_transactions, requested)
  | S pages' =>
      let requested := requested ++ [current_url] in
      match http_get N current_url (if (page_num =? 0)%nat then Some params else None) with
      | None => (all_transactions, requested)
      | Some data =>
          let '(transactions, next_url) := page_content data in
          let all_transactions := all_transactions ++ transactions in
          if negb (truthy next_url) then (all_transactions, requested)
          else
            match next_url with
            | VStr next_url =>
                fetch_pages N params pages' (S page_num) next_url all_transactions requested
            | _ => (all_transactions, requested)
            end
      end
  end.

Definition max_pages : nat := 100.

(** [fetch_zkteco_transactions(cfg, start_time, end_time)]: the
    transactions and the URLs requested; [None] when [build_api_url]
    raises. *)
Definition fetch_zkteco_transactions (N : network) (c : config)
    (start_time end_time : datetime) : option (list dict * list string) :=
  match build_api_url (cfg_server_ip c) (cfg_server_port c)
          "/iclock/api/transactions/" None with
  | None => None
  | Some base_url =>
      Some (fetch_pages N (whole_seconds start_time, whole_seconds end_time)
              max_pages 0 base_url [] [])
  end.

(** *** [sync_zkteco_transactions], with its lock and its checks *)

(** [sync_zkteco_transactions()] as a whole.  [now] is the reading of
    [now_datetime()] used when [last_sync] is not set, [current_time] the
    next one, [clock] the readings of the calls of
    [create_employee_checkin].  The fetched list is one on which
    [adjust_checkin_sequence] returns (see there); when that call raises,
    the code leaves through [except] and [finally] and writes neither
    [last_sync] nor [total_synced_records]. *)
Definition run_sync_zkteco_transactions (F : site) (N : network)
    (now current_time : datetime) (clock : nat -> datetime * datetime) (w : world)
    : world :=
  let lock_key := "zkteco_sync_lock" in
  if truthy (get lock_key (w_cache w)) then w
  else
    let locked := dict_set lock_key (VStr "locked") (w_cache w) in
    let released := dict_del lock_key locked in
    let c := w_cfg w in
    if String.eqb (strip (py_str (cfg_server_port c))) "4370" then with_cache released w
    else if negb (cfg_enable_sync c) then with_cache released w
    else if negb (truthy (cfg_token c)) then with_cache released w
    else
      let last_sync :=
        if truthy (cfg_last_sync c) then get_datetime (py F) (cfg_last_sync c)
        else Some (now - 60 * us_per_minute) in
      match last_sync with
      | None => with_cache released w
      | Some last_sync =>
          match fetch_zkteco_transactions N c last_sync current_time with
          | None => with_cache released w
          | Some (transactions, _) =>
              let '(processed_count, _, store) :=
                sync_zkteco_transactions F clock (w_store w) transactions in
              {| w_cache := released;
                 w_cfg := set_sync_stats current_time
                            (cfg_total_synced_records c + Z.of_nat processed_count) c;
                 w_store := store |}
          end
      end.

(** *** [device_mode_sync] *)

(** The transaction built from an attendance record. *)
Definition attendance_transaction (emp_code : string) (punch_datetime : value)
    (punch_val : Z) : dict :=
  [ ("emp_code", VStr emp_code); ("punch_time", punch_datetime);
    ("punch", VInt punch_val); ("timestamp", punch_datetime);
    ("_device_mode", VBool true) ].

(** [for att in records or []: ...]; [None] when [int()] raises on a
    [punch]. *)
Fixpoint attendance_transactions (records : list attendance) (transactions : list dict)
    : option (list dict) :=
  match records with
  | [] => Some transactions
  | att :: rest =>
      let emp_code := strip (py_str (py_or (att_user_id att) (VStr ""))) in
      let punch_datetime := att_timestamp att in
      match py_int (att_punch att) with
      | None => None
      | Some punch_val =>
          attendance_transactions rest
            (if negb (String.eqb emp_code "") && truthy punch_datetime
             then transactions ++ [attendance_transaction emp_code punch_datetime punch_val]
             else transactions)
      end
  end.

(** [device_mode_sync()]: what it returns and what it leaves.  [clock]
    holds the readings of [now_datetime()] of the calls of
    [create_checkin_from_attendance_v2], [now] the one stored as
    [last_sync]. *)
Definition device_mode_sync (F : site) (N : network) (clock : nat -> datetime)
    (now : datetime) (w : world) : sync_result * world :=
  let lock_key := "zkteco_device_sync_lock" in
  if truthy (get lock_key (w_cache w)) then (SyncRefused "Device sync already running", w)
  else
    let locked := dict_set lock_key (VStr "locked") (w_cache w) in
    let released := dict_del lock_key locked in
    let c := w_cfg w in
    let ip := cfg_server_ip c in
    match int_of_string (strip (py_str (py_or (cfg_server_port c) (VStr "4370")))) with
    | None => (SyncError, with_cache released w)
    | Some port =>
        if negb (port =? 4370)
        then (SyncRefused "Device mode only supports port 4370", with_cache released w)
        else if negb (zk_library N)
        then (SyncRefused "Device library not available", with_cache released w)
        else
          match get_attendance N ip port with
          | None => (SyncError, with_cache released w)
          | Some records =>
              match attendance_transactions records [] with
              | None => (SyncError, with_cache released w)
              | Some transactions =>
                  let transactions := adjust_checkin_sequence (py F) transactions in
                  let '(created, store) :=
                    attendance_loop F clock 0 transactions
                      (py_str ip +:+ ":" +:+ str_of_int port) 0 (w_store w) in
                  (SyncCreated created,
                   {| w_cache := released;
                      w_cfg := set_sync_stats now
                                 (cfg_total_synced_records c + Z.of_nat created) c;
                      w_store := store |})
              end
          end
    end.

(** *** [create_checkin_from_attendance] *)

Definition create_checkin_from_attendance (F : site) (current_time : datetime)
    (store : list checkin) (att : attendance) (device_id : string)
    : outcome * list checkin :=
  let emp_code := strip (py_str (py_or (att_user_id att) (VStr ""))) in
  if String.eqb emp_code "" then (Return false, store)
  else
    match find_employee_by_code F (VStr emp_code) with
    | None => (Return false, store)
    | Some employee =>
        let punch_datetime := att_timestamp att in
        if negb (truthy punch_datetime) then (Return false, store)
        else
          match punch_datetime with
          | VDatetime punch_datetime =>
              if punch_datetime >? current_time + minutes 5 then (Return false, store)
              else if punch_datetime <? current_time - days max_past_days
              then (Return false, store)
              else
                let log_type :=
                  match py_int (att_punch att) with
                  | Some punch_val => if punch_val =? 1 then "OUT" else "IN"
                  | None => "IN"
                  end in
                if existsb
                     (fun r =>
                        String.eqb (ck_employee r) employee
                        && (ck_time r =? punch_datetime)
                        && String.eqb (ck_device_id r) device_id
                        && String.eqb (ck_log_type r) log_type)
                     store
                then (Return true, store)
                else
                  let row :=
                    {| ck_name := autoname F store;
                       ck_employee := employee;
                       ck_time := punch_datetime;
                       ck_log_type := log_type;
                       ck_device_id := device_id |} in
                  match insert F store row with
                  | Stored => (Return true, store ++ [row])
                  | DuplicateEntryError | OtherError => (Return false, store)
                  end
          | _ =>
              (* comparing a non-datetime with a datetime raises
                 [TypeError], caught by [except Exception] *)
              (Return false, store)
          end
    end.

(** *** [remove_duplicate_checkins] *)

(** The key [(checkin.employee, str(checkin.time), checkin.log_type)]. *)
Definition duplicate_key (r : checkin) : string * string * string :=
  (ck_employee r, str_of_datetime (ck_time r), ck_log_type r).

Definition duplicate_key_eqb (a b : string * string * string) : bool :=
  String.eqb (fst (fst a)) (fst (fst b))
  && String.eqb (snd (fst a)) (snd (fst b))
  && String.eqb (snd a) (snd b).

(** [for checkin in checkins: ...]: the dict [seen] and the list
    [to_delete]. *)
Fixpoint duplicates_loop (checkins : list checkin)
    (seen : list ((string * string * string) * string)) (to_delete : list string)
    : list string :=
  match checkins with
  | [] => to_delete
  | r :: rest =>
      let key := duplicate_key r in
      if existsb (fun kv => duplicate_key_eqb key (fst kv)) seen
      then duplicates_loop rest seen (to_delete ++ [ck_name r])
      else duplicates_loop rest (seen ++ [(key, ck_name r)]) to_delete
  end.

(** [frappe.delete_doc("Employee Checkin", name, ...)], the deletion
    succeeding. *)
Definition delete_doc (name : string) (store : list checkin) : list checkin :=
  List.filter (fun r => negb (String.eqb (ck_name r) name)) store.

(** [remove_duplicate_checkins()]: [deleted_count] and the store after
    it.  The query orders by [employee asc, time asc, creation asc]; the
    store lists its rows in the order of their creation, which the sort
    keeps among rows of equal employee and time. *)
Definition remove_duplicate_checkins (store : list checkin) : nat * list checkin :=
  let checkins :=
    get_all_checkins (fun r => contains ":4370" (ck_device_id r)) store in
  let to_delete := duplicates_loop checkins [] [] in
  (length to_delete, fold_left (fun st name => delete_doc name st) to_delete store).

(** *** [manual_sync] *)

(** What [manual_sync] returns: what [device_mode_sync] returned, or
    [{"success": True, "message": "Sync completed successfully"}]. *)
Inductive manual_result : Type :=
| ManualDevice (result : sync_result)
| ManualCompleted.

(** [manual_sync()]: what it returns and what it leaves.  [device_clock]
    and [device_now] are the readings of the clock of [device_mode_sync];
    [now], [current_time] and [clock] those of
    [sync_zkteco_transactions]. *)
Definition manual_sync (F : site) (N : network) (device_clock : nat -> datetime)
    (device_now now current_time : datetime) (clock : nat -> datetime * datetime)
    (w : world) : manual_result * world :=
  if String.eqb (strip (py_str (cfg_server_port (w_cfg w)))) "4370"
  then
    let '(result, w) := device_mode_sync F N device_clock device_now w in
    (ManualDevice result, w)
  else
    (ManualCompleted, run_sync_zkteco_transactions F N now current_time clock w).

End ConfigApp.

(** ** The repair script: [fix_existing_checkins.py] *)

Module FixScript.

(** An entry of [updates_needed]: [name] and [correct]. *)
Definition update : Type := (string * string)%type.

(** The branch for groups of several punches. *)
Fixpoint label_loop (len idx : nat) (prev : option fix_entry)
    (daily_checkins : list fix_entry) (updates_needed : list update)
    (no_change_needed : nat) : list update * nat :=
  match daily_checkins with
  | [] => (updates_needed, no_change_needed)
  | checkin :: rest =>
      let correct_log_type :=
        if (idx =? 0)%nat then "IN"
        else if (idx =? len - 1)%nat then "OUT"
        else
          let prev_type :=
            match prev with
            | Some p =>
                match fe_correct p with
                | Some c => if String.eqb c "" then fe_current p else c
                | None => fe_current p
                end
            | None => ""
            end in
          if String.eqb prev_type "IN" then "OUT" else "IN" in
      let prev' := Some (with_correct correct_log_type checkin) in
      if negb (String.eqb (fe_current checkin) correct_log_type)
      then label_loop len (S idx) prev' rest
             (updates_needed ++ [(fe_name checkin, correct_log_type)]) no_change_needed
      else label_loop len (S idx) prev' rest updates_needed (S no_change_needed)
  end.

(** [for (emp, date), daily_checkins in grouped.items()]. *)
Fixpoint group_loop (grouped : list ((string * Z) * list fix_entry))
    (updates_needed : list update) (no_change_needed : nat) : list update * nat :=
  match grouped with
  | [] => (updates_needed, no_change_needed)
  | (_, daily_checkins) :: rest =>
      let daily_checkins := sort_by fe_time daily_checkins in
      match daily_checkins with
      | [only] =>
          if negb (String.eqb (fe_current only) "IN")
          then group_loop rest (updates_needed ++ [(fe_name only, "IN")]) no_change_needed
          else group_loop rest updates_needed (S no_change_needed)
      | _ =>
          let '(updates_needed, no_change_needed) :=
            label_loop (length daily_checkins) 0 None daily_checkins
              updates_needed no_change_needed in
          group_loop rest updates_needed no_change_needed
      end
  end.

(** ["time": [">=", "2025-09-01"]]. *)
Definition since : datetime := days (days_from_civil 2025 9 1).

(** The filters of the query. *)
Definition filters (r : checkin) : bool :=
  contains "111.88.28.220:4370" (ck_device_id r) && (since <=? ck_time r).

(** [updates_needed] and [no_change_needed] as computed before the
    summary. *)
Definition analyse (store : list checkin) : list update * nat :=
  match get_all_checkins filters store with
  | [] => ([], O)
  | checkins => group_loop (group_checkins checkins []) [] O
  end.

(** [for update in updates_needed: frappe.db.set_value(...)], every call
    succeeding. *)
Definition apply_updates (updates_needed : list update) (store : list checkin)
    : list checkin :=
  fold_left (fun st u => set_log_type (fst u) (snd u) st) updates_needed store.

(** What [fix_all_checkins(dry_run)] reports and leaves stored:
    the number of updates needed, [no_change_needed], the store. *)
Definition fix_all_checkins (dry_run : bool) (store : list checkin)
    : nat * nat * list checkin :=
  let '(updates_needed, no_change_needed) := analyse store in
  (length updates_needed, no_change_needed,
   if dry_run then store else apply_updates updates_needed store).

End FixScript.

(** ** The copy at the top of the repository: [zkteco_checkin_sync/doctype/zkteco_config/zkteco_config.py] *)

Module ConfigTop.

(** *** [detect_log_type] *)

Definition out_indicators : list string :=
  ["OUT"; "CHECK OUT"; "CHECKOUT"; "CHK OUT"; "CHKOUT"; "OUTGOING"; "EXIT"].
Definition in_indicators : list string :=
  ["IN"; "CHECK IN"; "CHECKIN"; "CHK IN"; "CHKIN"; "ENTRY"].

(** [if not value and value not in [0, False]: continue]. *)
Definition skipped (v : value) : bool :=
  negb (truthy v) && negb (py_eqb v (VInt 0) || py_eqb v (VBool false)).

(** First loop: any field value holding an indicator, OUT before IN. *)
Fixpoint scan_values (items : dict) : option label :=
  match items with
  | [] => None
  | (_, v) :: rest =>
      if skipped v then scan_values rest
      else
        let value_str := strip (upper (py_str v)) in
        if any_in out_indicators value_str then Some OUT
        else if any_in in_indicators value_str then Some IN
        else scan_values rest
  end.

(** [(field_name, is_numeric, out_value, in_value)]. *)
Definition field_checks : list (string * bool * value * value) :=
  [ ("log_type", false, VStr "OUT", VStr "IN");
    ("punch_state", true, VInt 1, VInt 0);
    ("punch", true, VInt 1, VInt 0);
    ("punchtype", true, VInt 1, VInt 0);
    ("type", false, VStr "OUT", VStr "IN");
    ("direction", false, VStr "OUT", VStr "IN");
    ("status", false, VStr "OUT", VStr "IN");
    ("verify_type", true, VInt 1, VInt 0) ].

(** Second loop: the known fields; a failing [int()] is caught and the
    next field is tried. *)
Fixpoint check_fields (checks : list (string * bool * value * value))
    (transaction : dict) : option label :=
  match checks with
  | [] => None
  | (field, is_numeric, out_val, in_val) :: rest =>
      match dict_get field transaction with
      | None | Some VNone => check_fields rest transaction
      | Some v =>
          if is_numeric then
            match py_int v with
            | Some val =>
                if py_eqb (VInt val) out_val then Some OUT
                else if py_eqb (VInt val) in_val then Some IN
                else check_fields rest transaction
            | None => check_fields rest transaction
            end
          else
            let val := strip (upper (py_str v)) in
            if String.eqb val (upper (py_str out_val)) then Some OUT
            else if String.eqb val (upper (py_str in_val)) then Some IN
            else check_fields rest transaction
      end
  end.

Definition out_indicators_lower : list string :=
  ["out"; "check out"; "checkout"; "چیک آؤٹ"].
Definition in_indicators_lower : list string :=
  ["in"; "check in"; "checkin"; "چیک ان"].

(** Third stage: the text of [punch_state_display]. *)
Definition check_display (transaction : dict) : option label :=
  let punch_state_display :=
    strip (lower (py_str (get_default "punch_state_display" (VStr "") transaction))) in
  if String.eqb punch_state_display "" then None
  else if any_in out_indicators_lower punch_state_display then Some OUT
  else if any_in in_indicators_lower punch_state_display then Some IN
  else None.

(** Last loop: fields whose name holds [punch], [state] or [type]. *)
Fixpoint scan_keys (items : dict) : option label :=
  match items with
  | [] => None
  | (key, v) :: rest =>
      if skipped v then scan_keys rest
      else
        let key_lower := lower key in
        if contains "punch" key_lower || contains "state" key_lower
           || contains "type" key_lower then
          let value_str := lower (py_str v) in
          if any_in out_indicators_lower value_str then Some OUT
          else if any_in in_indicators_lower value_str then Some IN
          else scan_keys rest
        else scan_keys rest
  end.

Definition detect_log_type (transaction : dict) : label :=
  match scan_values transaction with
  | Some l => l
  | None =>
      match check_fields field_checks transaction with
      | Some l => l
      | None =>
          match check_display transaction with
          | Some l => l
          | None =>
              match scan_keys transaction with
              | Some l => l
              | None => IN
              end
          end
      end
  end.

(** *** [adjust_checkin_sequence] *)

(** The grouping loop: by employee code only; the punch is kept with its
    sort key [_punch_time]. *)
Fixpoint group_by_employee (transactions : list dict)
    (emp_transactions : list (value * list dict)) : list (value * list dict) :=
  match transactions with
  | [] => emp_transactions
  | transaction :: rest =>
      let emp_code := get_default "emp_code" (VStr "unknown") transaction in
      let punch_time :=
        py_or (get "punch_time" transaction) (get "timestamp" transaction) in
      group_by_employee rest
        (if truthy punch_time && negb (py_eqb emp_code (VStr "unknown"))
         then group_add py_eqb emp_code
                (dict_set "_punch_time" punch_time transaction) emp_transactions
         else emp_transactions)
  end.

(** [for i, transaction in enumerate(emp_txns)]: IN at even positions,
    OUT at odd ones. *)
Fixpoint alternate (i : nat) (emp_txns : list dict) : list dict :=
  match emp_txns with
  | [] => []
  | transaction :: rest =>
      dict_set "_sequence_adjusted" (VBool true)
        (dict_set "log_type" (VStr (if Nat.even i then "IN" else "OUT")) transaction)
      :: alternate (S i) rest
  end.

(** The loop over the employees; [None] when a sort raises. *)
Fixpoint label_employees (emp_transactions : list (value * list dict))
    : option (list (list dict)) :=
  match emp_transactions with
  | [] => Some []
  | (_, emp_txns) :: rest =>
      match sort_values (get "_punch_time") emp_txns with
      | None => None
      | Some emp_txns =>
          option_map (cons (alternate 0 emp_txns)) (label_employees rest)
      end
  end.

(** The returned list, [None] when sorting raises [TypeError]. *)
Definition adjust_checkin_sequence (transactions : list dict) : option (list dict) :=
  match label_employees (group_by_employee transactions []) with
  | None => None
  | Some groups =>
      option_map (map (dict_del "_punch_time"))
        (sort_values (get "_punch_time") (concat groups))
  end.

(** *** [find_employee_by_code] *)

Definition find_employee_by_code (F : site) (emp_code : value) : option string :=
  let employee := get_employee_by emp_employee emp_code (employees F) in
  if found employee then employee
  else
    let employee := get_employee_by emp_user_id emp_code (employees F) in
    if found employee then employee
    else if has_attendance_device_id F then
      let employee :=
        get_employee_by emp_attendance_device_id emp_code (employees F) in
      if found employee then employee else None
    else None.

(** *** [create_employee_checkin] *)

Definition time_fields : list string :=
  ["punch_time"; "punchTime"; "timestamp"; "datetime";
   "date_time"; "check_time"; "time"; "created_at"].

Definition time_formats : list string :=
  ["%Y-%m-%d %H:%M:%S"; "%Y-%m-%d %H:%M:%S.%f"; "%Y-%m-%d %H:%M:%S%z";
   "%Y-%m-%dT%H:%M:%S"; "%Y-%m-%dT%H:%M:%S.%f"; "%Y-%m-%dT%H:%M:%S%z";
   "%Y-%m-%dT%H:%M:%SZ"; "%Y-%m-%d"; "%Y-%m-%d %H:%M"; "%m/%d/%Y %H:%M:%S";
   "%m/%d/%Y %H:%M"; "%d/%m/%Y %H:%M:%S"; "%d/%m/%Y %H:%M"].

(** The loop over [time_formats]: the first format that parses. *)
Fixpoint try_formats (E : py_env) (formats : list string) (v : string)
    : option datetime :=
  match formats with
  | [] => None
  | fmt :: rest =>
      match strptime E v fmt with
      | Some d => Some d
      | None => try_formats E rest v
      end
  end.

(** [float(value)] seconds, divided by 1000 above [1e12], in microseconds. *)
Definition timestamp_us (z : Z) : Z :=
  if z >? 1000000000000 then z * 1000 else z * us_per_second.

(** What the loop over [time_fields] ends with. *)
Inductive extracted : Type :=
| Parsed (punch_time : datetime)
| NoTime
| Failed.

(** The loop over [time_fields]. *)
Fixpoint extract_punch_time (E : py_env) (fields : list string)
    (transaction : dict) : extracted :=
  match fields with
  | [] => NoTime
  | field :: rest =>
      match dict_get field transaction with
      | None => extract_punch_time E rest transaction
      | Some v =>
          if negb (truthy v) then extract_punch_time E rest transaction
          else
            match v with
            | VNone => extract_punch_time E rest transaction
            | VStr s =>
                if String.eqb (strip s) "" then extract_punch_time E rest transaction
                else
                  match try_formats E time_formats (strip s) with
                  | Some d => Parsed d
                  | None => extract_punch_time E rest transaction
                  end
            | VInt z =>
                match fromtimestamp E (timestamp_us z) with
                | TsOk d => Parsed d
                | TsCaught => extract_punch_time E rest transaction
                | TsUncaught => Failed
                end
            | VBool b =>
                match fromtimestamp E (timestamp_us (int_of_bool b)) with
                | TsOk d => Parsed d
                | TsCaught => extract_punch_time E rest transaction
                | TsUncaught => Failed
                end
            | VDatetime d => Parsed d
            end
      end
  end.

(** The employee code read from the transaction. *)
Definition emp_code_of (transaction : dict) : value :=
  py_or (get "emp_code" transaction)
    (py_or (get "user_id" transaction)
      (py_or (get "pin" transaction)
        (py_or (get "employee_code" transaction) (get "id" transaction)))).

(** The device identifier read from the transaction. *)
Definition device_id_of (transaction : dict) : value :=
  py_or (get "terminal_alias" transaction)
    (py_or (get "terminal_sn" transaction)
      (py_or (get "device_alias" transaction)
        (py_or (get "device_id" transaction)
          (py_or
             (VStr (py_str (get_default "ip_address" (VStr "") transaction) +:+ ":"
                    +:+ py_str (get_default "port" (VStr "") transaction)))
             (VStr "Unknown"))))).

Definition transaction_id_of (transaction : dict) : value :=
  py_or (get "id" transaction)
    (py_or (get "transaction_id" transaction)
      (py_or (get "uid" transaction) (VStr "unknown"))).

(** The label the check-in is stored with. *)
Definition log_type_of (transaction : dict) : value :=
  match get "_sequence_adjusted" transaction with
  | VNone => VStr (label_str (detect_log_type transaction))
  | _ =>
      if truthy (get "log_type" transaction) then get "log_type" transaction
      else VStr (label_str (detect_log_type transaction))
  end.

(** [unique_device_id] before the length check. *)
Definition unique_device_id_of (device_id transaction_id : value) : value :=
  if truthy device_id && truthy transaction_id then
    VStr (py_str device_id +:+ " (ZKTeco-" +:+ py_str transaction_id +:+ ")")
  else if truthy transaction_id then
    py_or device_id (VStr ("ZKTeco-" +:+ py_str transaction_id))
  else VStr "ZKTeco Device".

(** [(u[:135] + '...') if len(u) > 140 else u]. *)
Definition clip_device_id (u : string) : string :=
  if (140 <? py_len u)%nat then py_take 135 u +:+ "..." else u.

(** The filter of the existence check. *)
Definition matches (employee : string) (checkin_time : datetime)
    (log_type : value) (device_id : value) (r : checkin) : bool :=
  String.eqb (ck_employee r) employee
  && (ck_time r =? checkin_time)
  && String.eqb (ck_log_type r) (py_str log_type)
  && contains (if truthy device_id then py_str device_id else "ZKTeco")
       (ck_device_id r).

(** [create_employee_checkin(transaction)], as in the app module: the
    whole body is in one [try]. *)
Definition create_employee_checkin (F : site) (now current_time : datetime)
    (store : list checkin) (transaction : dict) : outcome * list checkin :=
  let emp_code := emp_code_of transaction in
  if negb (truthy emp_code) then (Return false, store)
  else
    match extract_punch_time (py F) time_fields transaction with
    | NoTime | Failed => (Return false, store)
    | Parsed punch_time =>
        let device_id := device_id_of transaction in
        let transaction_id := transaction_id_of transaction in
        if punch_time >? now + days 1 then (Return false, store)
        else if now - punch_time >? days 90 then (Return false, store)
        else
          match find_employee_by_code F emp_code with
          | None => (Return false, store)
          | Some employee =>
              let punch_datetime := punch_time in
              if punch_datetime >? current_time + minutes 5 then (Return false, store)
              else if punch_datetime <? current_time - days max_past_days
              then (Return false, store)
              else
                let log_type := log_type_of transaction in
                match unique_device_id_of device_id transaction_id with
                | VStr unique_device_id =>
                    let unique_device_id := clip_device_id unique_device_id in
                    let checkin_time := whole_seconds punch_datetime in
                    if existsb (matches employee checkin_time log_type device_id) store
                    then (Return true, store)
                    else
                      let row :=
                        {| ck_name := autoname F store;
                           ck_employee := employee;
                           ck_time := checkin_time;
                           ck_log_type := py_str log_type;
                           ck_device_id := unique_device_id |} in
                      match insert F store row with
                      | Stored => (Return true, store ++ [row])
                      | DuplicateEntryError =>
                          (* [except frappe.DuplicateEntryError as e:]
                             log, roll back, [return True] *)
                          (Return true, store)
                      | OtherError => (Return false, store)
                      end
                | _ => (Return false, store)
                end
          end
    end.

(** *** [ZKTecoConfig.validate] and [get_all_devices] *)

(** A row of the child table [multi_ip].  [None] in [ie_device_name] or
    [ie_enable_sync] stands for a row that has no such attribute (a site
    not migrated yet). *)
Record ip_entry : Type := {
  ie_idx : Z;
  ie_ip : value;
  ie_port : value;
  ie_user : value;
  ie_password : value;
  ie_device_name : option value;
  ie_enable_sync : option value
}.

Definition with_device_name (n : value) (e : ip_entry) : ip_entry :=
  {| ie_idx := ie_idx e; ie_ip := ie_ip e; ie_port := ie_port e;
     ie_user := ie_user e; ie_password := ie_password e;
     ie_device_name := Some n; ie_enable_sync := ie_enable_sync e |}.

(** The document [ZKTeco Config], with the fields the two functions
    read. *)
Record config_doc : Type := {
  cd_server_ip : value;
  cd_server_port : value;
  cd_username : value;
  cd_password : value;
  cd_token : value;
  cd_enable_sync : value;
  cd_multi_ip : list ip_entry
}.

Definition with_multi_ip (multi_ip : list ip_entry) (c : config_doc) : config_doc :=
  {| cd_server_ip := cd_server_ip c; cd_server_port := cd_server_port c;
     cd_username := cd_username c; cd_password := cd_password c;
     cd_token := cd_token c; cd_enable_sync := cd_enable_sync c;
     cd_multi_ip := multi_ip |}.

(** One of the dicts [get_all_devices] returns. *)
Record device : Type := {
  dev_ip : value;
  dev_port : value;
  dev_device_name : value;
  dev_user : value;
  dev_password : value;
  dev_token : value;
  dev_enable_sync : value
}.

(** [for ip_entry in self.multi_ip: ...]: the rows as the loop leaves
    them, or the message of the first [frappe.throw]. *)
Fixpoint validate_entries (multi_ip : list ip_entry) : string + list ip_entry :=
  match multi_ip with
  | [] => inr []
  | ip_entry :: rest =>
      if negb (truthy (ie_ip ip_entry))
      then inl ("IP address is required for device " +:+ str_of_int (ie_idx ip_entry))
      else if negb (truthy (ie_port ip_entry))
      then inl ("Port is required for device " +:+ str_of_int (ie_idx ip_entry))
      else
        let ip_entry :=
          match ie_device_name ip_entry with
          | Some device_name =>
              if negb (truthy device_name)
              then with_device_name
                     (VStr ("Device-" +:+ str_of_int (ie_idx ip_entry))) ip_entry
              else ip_entry
          | None => ip_entry
          end in
        match validate_entries rest with
        | inl message => inl message
        | inr rest => inr (ip_entry :: rest)
        end
  end.

(** [validate(self)]: the document as it is left, or the message
    thrown. *)
Definition validate (self : config_doc) : string + config_doc :=
  match cd_multi_ip self with
  | _ :: _ =>
      match validate_entries (cd_multi_ip self) with
      | inl message => inl message
      | inr multi_ip => inr (with_multi_ip multi_ip self)
      end
  | [] =>
      if truthy (cd_enable_sync self) && negb (truthy (cd_server_ip self))
      then inl "Server IP is required when multi-IP configuration is not used"
      else inr self
  end.

(** The loop of [get_all_devices] over the rows of [multi_ip]. *)
Fixpoint multi_ip_devices (config : config_doc) (multi_ip : list ip_entry)
    : list device :=
  match multi_ip with
  | [] => []
  | ip_entry :: rest =>
      let enable_sync :=
        match ie_enable_sync ip_entry with Some v => v | None => VInt 1 end in
      let device_name :=
        py_or (match ie_device_name ip_entry with Some v => v | None => VNone end)
          (VStr ("Device-" +:+ str_of_int (ie_idx ip_entry))) in
      if truthy enable_sync
      then {| dev_ip := ie_ip ip_entry; dev_port := ie_port ip_entry;
              dev_device_name := device_name; dev_user := ie_user ip_entry;
              dev_password := ie_password ip_entry; dev_token := cd_token config;
              dev_enable_sync := enable_sync |}
           :: multi_ip_devices config rest
      else multi_ip_devices config rest
  end.

(** [get_all_devices()] on the document [config]. *)
Definition get_all_devices (config : config_doc) : list device :=
  match cd_multi_ip config with
  | [] =>
      if truthy (cd_server_ip config) && truthy (cd_server_port config)
      then [ {| dev_ip := cd_server_ip config; dev_port := cd_server_port config;
                dev_device_name := VStr "Primary Device";
                dev_user := cd_username config; dev_password := cd_password config;
                dev_token := cd_token config;
                dev_enable_sync := cd_enable_sync config |} ]
      else []
  | _ :: _ => multi_ip_devices config (cd_multi_ip config)
  end.

End ConfigTop.

(** ** A concrete site, for evaluating the code on examples *)

(** The number written by a string of decimal digits. *)
Fixpoint number_of_digits (s : string) (acc : Z) : option Z :=
  match s with
  | EmptyString => Some acc
  | String c s' =>
      if is_digit c then number_of_digits s' (10 * acc + digit_value c) else None
  end.

Definition is_leap (y : Z) : bool :=
  ((y mod 4 =? 0) && negb (y mod 100 =? 0)) || (y mod 400 =? 0).

Definition days_in_month (y m : Z) : Z :=
  if m =? 2 then (if is_leap y then 29 else 28)
  else if (m =? 4) || (m =? 6) || (m =? 9) || (m =? 11) then 30
  else 31.

(** A time written [YYYY-MM-DD HH:MM:SS], as [strptime] with the format
    [%Y-%m-%d %H:%M:%S] and [get_datetime] read it. *)
Definition parse_iso (s : string) : option datetime :=
  if negb (String.length s =? 19)%nat then None
  else
    match number_of_digits (substring 0 4 s) 0, number_of_digits (substring 5 2 s) 0,
          number_of_digits (substring 8 2 s) 0, number_of_digits (substring 11 2 s) 0,
          number_of_digits (substring 14 2 s) 0, number_of_digits (substring 17 2 s) 0 with
    | Some y, Some m, Some d, Some hh, Some mm, Some ss =>
        if String.eqb (substring 4 1 s) "-" && String.eqb (substring 7 1 s) "-"
           && String.eqb (substring 10 1 s) " " && String.eqb (substring 13 1 s) ":"
           && String.eqb (substring 16 1 s) ":"
           && (1 <=? y) && (1 <=? m) && (m <=? 12) && (1 <=? d)
           && (d <=? days_in_month y m) && (hh <? 24) && (mm <? 60) && (ss <? 60)
        then Some (days (days_from_civil y m d)
                   + (hh * 3600 + mm * 60 + ss) * us_per_second)
        else None
    | _, _, _, _, _, _ => None
    end.

(** Library functions that read the ISO form only, in a UTC time zone. *)
Definition iso_env : py_env :=
  {| strptime := fun v fmt =>
       if String.eqb fmt "%Y-%m-%d %H:%M:%S" then parse_iso v else None;
     parse_datetime := parse_iso;
     fromtimestamp := fun us => TsOk us |}.

(** Names [CHK-0], [CHK-1], ... in the order of insertion. *)
Definition count_name (store : list checkin) : string :=
  "CHK-" +:+ str_of_int (Z.of_nat (length store)).

(** A site with two employees whose inserts always succeed. *)
Definition demo_site : site :=
  {| py := iso_env;
     employees :=
       [ {| emp_name := "HR-EMP-1"; emp_employee := "E1"; emp_user_id := "";
            emp_attendance_device_id := "" |};
         {| emp_name := "HR-EMP-2"; emp_employee := "E2"; emp_user_id := "";
            emp_attendance_device_id := "" |} ];
     has_attendance_device_id := false;
     autoname := count_name;
     insert := always_stored |}.

(** The same site with a store that answers every insert with
    [DuplicateEntryError]. *)
Definition duplicate_site : site :=
  {| py := iso_env;
     employees := employees demo_site;
     has_attendance_device_id := false;
     autoname := count_name;
     insert := fun _ _ => DuplicateEntryError |}.

(** A transaction as the vendor API sends it: identifier, employee code,
    punch time and terminal. *)
Definition api_punch (id : Z) (emp_code punch_time : string) : dict :=
  [ ("id", VInt id); ("emp_code", VStr emp_code); ("punch_time", VStr punch_time);
    ("terminal_sn", VStr "T1") ].

(** The values of [log_type] in a list of transactions. *)
Definition labels (transactions : list dict) : list value :=
  map (get "log_type") transactions.

(** * Notions used in the statements *)

(** The fields of a record other than the two the Normalizer writes. *)
Definition other_fields (t : dict) : dict :=
  List.filter (fun kv => negb (String.eqb (fst kv) "log_type"
                          || String.eqb (fst kv) "_sequence_adjusted")) t.

(** The records at the positions [idxs], in that order. *)
Fixpoint gather (idxs : list nat) (ts : list dict) : list dict :=
  match idxs with
  | [] => []
  | i :: rest =>
      match ts !! i with
      | Some t => t :: gather rest ts
      | None => gather rest ts
      end
  end.

(** What the first and the last punch of a group become. *)
Definition keep_or (l : label) (t : dict) : dict :=
  match ConfigApp.existing_label t with Some _ => t | None => ConfigApp.mark l t end.

(** What the middle punches become, [prev] being the label before them. *)
Fixpoint resolve_middle (prev : label) (ds : list dict) : list dict :=
  match ds with
  | [] => []
  | d :: rest =>
      match ConfigApp.existing_label d with
      | Some l => d :: resolve_middle l rest
      | None => ConfigApp.mark (opposite prev) d :: resolve_middle (opposite prev) rest
      end
  end.

(** What the punches of one group, in chronological order, become. *)
Definition resolve_group (ds : list dict) : list dict :=
  match ds with
  | [] => []
  | [d] => [keep_or IN d]
  | d :: rest =>
      keep_or IN d :: resolve_middle IN (removelast rest) ++ [keep_or OUT (List.last rest d)]
  end.

(** The positions of a group in chronological order. *)
Definition sorted_indices (ps : list (datetime * nat)) : list nat :=
  map snd (sort_by fst ps).

Abbreviation groups := (list ((value * Z) * list (datetime * nat))).

(** All the positions held by the groups. *)
Definition all_indices (G : groups) : list nat :=
  concat (map (fun g => map snd (snd g)) G).

(** The loop over the groups. *)
Definition process_groups (G : groups) (ts : list dict) : list dict :=
  fold_left (fun ts g => ConfigApp.process_group (snd g) ts) G ts.

(** The groups of a batch, as the grouping loop builds them. *)
Definition groups_of (E : py_env) (ts : list dict) : groups :=
  ConfigApp.group_punches E 0 ts [].

(** A value with [True] and [False] read as [1] and [0]. *)
Definition as_key (v : value) : value :=
  match v with VBool b => VInt (int_of_bool b) | _ => v end.


(** The times and positions (counted from [i]) of the records of the
    group of key [k]. *)
Fixpoint entries_of (E : py_env) (k : value * Z) (i : nat) (ts : list dict)
    : list (datetime * nat) :=
  match ts with
  | [] => []
  | t :: rest =>
      match ConfigApp.group_entry E t with
      | Some (k', dt) =>
          if ConfigApp.key_eqb k' k then (dt, i) :: entries_of E k (S i) rest
          else entries_of E k (S i) rest
      | None => entries_of E k (S i) rest
      end
  end.

(** The invariant of the grouping loop after the records [pre]. *)
Record grouped_ok (E : py_env) (pre : list dict) (G : groups) : Prop := {
  ok_distinct :
    forall a b ka pa kb pb, G !! a = Some (ka, pa) -> G !! b = Some (kb, pb) ->
      ConfigApp.key_eqb ka kb = true -> a = b;
  ok_entries :
    forall k ps, (k, ps) ∈ G -> ps = entries_of E k 0 pre;
  ok_present :
    forall t k dt, t ∈ pre -> ConfigApp.group_entry E t = Some (k, dt) ->
      exists k' ps, (k', ps) ∈ G /\ ConfigApp.key_eqb k k' = true
}.

(** [n] labels that alternate, the first being [l]. *)
Fixpoint alternating_from (l : label) (n : nat) : list label :=
  match n with
  | O => []
  | S n' => l :: alternating_from (opposite l) n'
  end.

Definition label_value (l : label) : value := VStr (label_str l).

(** The label a first or last punch ends with. *)
Definition label_or (l : label) (t : dict) : value :=
  match ConfigApp.existing_label t with
  | Some l' => label_value l'
  | None => label_value l
  end.


(** The records of a group in chronological order. *)
Definition group_records (ps : list (datetime * nat)) (ts : list dict) : list dict :=
  gather (sorted_indices ps) ts.

(** A record unlabelled before the pass. *)
Definition unlabelled (t : dict) : Prop := ConfigApp.existing_label t = None.


(** Four punches of employee [E1] on one day, as the vendor API sends
    them, and the first three of them. *)
Definition day4 : list dict :=
  [ api_punch 1 "E1" "2025-01-01 09:00:00"; api_punch 2 "E1" "2025-01-01 13:00:00";
    api_punch 3 "E1" "2025-01-01 13:30:00"; api_punch 4 "E1" "2025-01-01 18:00:00" ].

Definition day3 : list dict := firstn 3 day4.

(** Two punches of one day that already carry labels, OUT then IN. *)
Definition labelled_pair : list dict :=
  [ api_punch 1 "E1" "2025-01-01 09:00:00" ++ [("log_type", VStr "OUT")];
    api_punch 2 "E1" "2025-01-01 18:00:00" ++ [("log_type", VStr "IN")] ].



(** Two punches of one day, the later one first in the batch. *)
Definition late_first : list dict :=
  [ api_punch 1 "E1" "2025-01-01 18:00:00"; api_punch 2 "E1" "2025-01-01 09:00:00" ].

(** The correct label of each punch of a day, [prev] being the correct
    label of the punch before. *)
Fixpoint audit_from (len idx : nat) (prev : string) (daily : list fix_entry)
    : list (fix_entry * string) :=
  match daily with
  | [] => []
  | c :: rest =>
      let correct :=
        if (idx =? 0)%nat then "IN"
        else if (idx =? len - 1)%nat then "OUT"
        else if String.eqb prev "IN" then "OUT" else "IN" in
      (c, correct) :: audit_from len (S idx) correct rest
  end.

(** The punches of a day in chronological order with their correct labels. *)
Definition audit_day (daily : list fix_entry) : list (fix_entry * string) :=
  let daily := sort_by fe_time daily in
  audit_from (length daily) 0 "" daily.

(** All the examined punches with their correct labels. *)
Definition audit (checkins : list checkin) : list (fix_entry * string) :=
  concat (map (fun g => audit_day (snd g)) (group_checkins checkins [])).

(** The update instructions an audit calls for. *)
Definition mismatches (a : list (fix_entry * string)) : list (string * string) :=
  map (fun ck => (fe_name (fst ck), snd ck))
    (List.filter (fun ck => negb (String.eqb (fe_current (fst ck)) (snd ck))) a).

(** The examined punches that are already correct. *)
Definition already_correct (a : list (fix_entry * string)) : nat :=
  length (List.filter (fun ck => String.eqb (fe_current (fst ck)) (snd ck)) a).

(** The label a row named [n] ends with when the updates [U] are applied. *)
Definition relabel (U : list (string * string)) (n cur : string) : string :=
  fold_left (fun cur u => if String.eqb n (fst u) then snd u else cur) U cur.

Definition relabel_row (U : list (string * string)) (r : checkin) : checkin :=
  {| ck_name := ck_name r; ck_employee := ck_employee r; ck_time := ck_time r;
     ck_log_type := relabel U (ck_name r) (ck_log_type r);
     ck_device_id := ck_device_id r |}.

Definition relabel_entry (U : list (string * string)) (e : fix_entry) : fix_entry :=
  {| fe_name := fe_name e; fe_time := fe_time e;
     fe_current := relabel U (fe_name e) (fe_current e);
     fe_correct := fe_correct e |}.

(** The entry the repair passes make of a row. *)
Definition entry_of (c : checkin) : fix_entry :=
  {| fe_name := ck_name c; fe_time := ck_time c;
     fe_current := ck_log_type c; fe_correct := None |}.

Definition prev_label (prev : option fix_entry) : string :=
  match prev with
  | Some p => match fe_correct p with Some c => c | None => fe_current p end
  | None => ""
  end.

Definition script_prev_label (prev : option fix_entry) : string :=
  match prev with
  | Some p =>
      match fe_correct p with
      | Some c => if String.eqb c "" then fe_current p else c
      | None => fe_current p
      end
  | None => ""
  end.

Definition relabel_groups (U : list (string * string))
    (G : list ((string * Z) * list fix_entry)) : list ((string * Z) * list fix_entry) :=
  map (fun g => (fst g, map (relabel_entry U) (snd g))) G.

(** A call was rejected: it returned [False] and stored nothing. *)
Definition rejected (store : list checkin) (r : outcome * list checkin) : Prop :=
  r = (Return false, store).

(** A call was accepted: it returned [True] and the store then holds an
    event of [employee] at [time] with the label [log_type]. *)
Definition accepted (employee : string) (time : datetime) (log_type : string)
    (r : outcome * list checkin) : Prop :=
  exists store',
    r = (Return true, store')
    /\ exists row, row ∈ store' /\ ck_employee row = employee
                   /\ ck_time row = time /\ ck_log_type row = log_type.

(** 2025-01-01 20:00:00, the time of the examples. *)
Definition evening : datetime := days (days_from_civil 2025 1 1) + 20 * 3600 * us_per_second.

(** What [create_employee_checkin] works out before it looks at the
    store: the employee, the time, the label and the device identifier,
    or nothing when the punch is rejected. *)
Definition app_resolve (F : site) (now current_time : datetime) (t : dict)
    : option (string * datetime) :=
  match ConfigApp.extract_punch_time (py F) ConfigApp.time_fields t with
  | ConfigApp.Parsed d =>
      if negb (truthy (ConfigApp.emp_code_of t)) then None
      else if d >? now + days 1 then None
      else if now - d >? days 90 then None
      else
        match ConfigApp.find_employee_by_code F (ConfigApp.emp_code_of t) with
        | Some e =>
            if d >? current_time + minutes 5 then None
            else if d <? current_time - days max_past_days then None
            else Some (e, d)
        | None => None
        end
  | _ => None
  end.

(** The row [create_employee_checkin] inserts for a punch. *)
Definition app_row (F : site) (store : list checkin) (e : string) (d : datetime)
    (t : dict) : checkin :=
  {| ck_name := autoname F store;
     ck_employee := e;
     ck_time := whole_seconds d;
     ck_log_type := py_str (ConfigApp.log_type_of t);
     ck_device_id :=
       ConfigApp.clip_device_id
         (py_str (ConfigApp.device_id_of t) +:+ " (ZKTeco-"
          +:+ py_str (ConfigApp.transaction_id_of t) +:+ ")") |}.

(** The same for [create_checkin_from_attendance_v2]. *)
Definition v2_resolve (F : site) (current_time : datetime) (t : dict)
    : option (string * datetime) :=
  if negb (truthy (get "emp_code" t)) then None
  else
    match ConfigApp.find_employee_by_code F (get "emp_code" t) with
    | Some e =>
        match py_or (get "punch_time" t) (get "timestamp" t) with
        | VDatetime d =>
            if d >? current_time + minutes 5 then None
            else if d <? current_time - days max_past_days then None
            else Some (e, d)
        | _ => None
        end
    | None => None
    end.

Definition v2_matches (e : string) (d : datetime) (device_id : string) (t : dict)
    (r : checkin) : bool :=
  String.eqb (ck_employee r) e && (ck_time r =? d)
  && String.eqb (ck_device_id r) device_id
  && String.eqb (ck_log_type r) (py_str (get_default "log_type" (VStr "IN") t)).

Definition v2_row (F : site) (store : list checkin) (e : string) (d : datetime)
    (device_id : string) (t : dict) : checkin :=
  {| ck_name := autoname F store;
     ck_employee := e;
     ck_time := d;
     ck_log_type := py_str (get_default "log_type" (VStr "IN") t);
     ck_device_id := device_id |}.

(** A string of [n] letters [A]. *)
Fixpoint letters (n : nat) : string :=
  match n with
  | O => ""
  | S n' => String "A" (letters n')
  end.

(** A punch whose terminal alias has 136 characters. *)
Definition long_alias_punch : dict :=
  [ ("id", VInt 1); ("emp_code", VStr "E1"); ("punch_time", VStr "2025-01-01 09:00:00");
    ("terminal_alias", VStr (letters 136)) ].

(** A string of [n] letters [e] with an acute accent (two bytes each). *)
Fixpoint accented (n : nat) : string :=
  match n with
  | O => ""
  | S n' => String (ascii_of_nat 195) (String (ascii_of_nat 169) (accented n'))
  end.

(** A punch whose terminal alias has 100 accented letters. *)
Definition accented_alias_punch : dict :=
  [ ("id", VInt 1); ("emp_code", VStr "E1"); ("punch_time", VStr "2025-01-01 09:00:00");
    ("terminal_alias", VStr (accented 100)) ].

(** A loop of calls over a batch: [step i s t] is the store the [i]-th
    call leaves when it starts from [s]. *)
Fixpoint run (step : nat -> list checkin -> dict -> list checkin)
    (i : nat) (ts : list dict) (s : list checkin) : list checkin :=
  match ts with
  | [] => s
  | t :: rest => run step (S i) rest (step i s t)
  end.

(** The labels of the stored events of an employee on a day, in
    chronological order. *)
Definition day_labels (employee : string) (day : Z) (store : list checkin) : list string :=
  map ck_log_type
    (sort_by ck_time
       (List.filter
          (fun r => String.eqb (ck_employee r) employee && (date_key (ck_time r) =? day))
          store)).

(** Two batches fetched by two successive passes: the morning punch of an
    employee, then the evening punch of the same day. *)
Definition morning_batch : list dict := [ api_punch 1 "E1" "2025-01-01 09:00:00" ].
Definition evening_batch : list dict := [ api_punch 2 "E1" "2025-01-01 18:00:00" ].

(** A record the pass has labelled. *)
Definition marked (l : label) (t : dict) : Prop := exists d, t = ConfigApp.mark l d.

(** The group of the four punches of [day4]: its key and its entries. *)
Definition day4_key : value * Z := (VStr "E1", days_from_civil 2025 1 1).

Definition day4_entries : list (datetime * nat) := Eval vm_compute in entries_of iso_env day4_key 0 day4.

(** The two first punches of [day4]. *)
Definition day2 : list dict := firstn 2 day4.

Definition day2_entries : list (datetime * nat) := Eval vm_compute in entries_of iso_env day4_key 0 day2.

(** A punch four minutes after [evening]. *)
Definition soon_punch : dict := api_punch 7 "E1" "2025-01-01 20:04:00".

(** Three stored events of one day of a device on port 4370, all
    labelled IN. *)
Definition stored_day : list checkin :=
  [ {| ck_name := "CHK-0"; ck_employee := "HR-EMP-1";
       ck_time := days (days_from_civil 2025 10 1) + 9 * 3600 * us_per_second;
       ck_log_type := "IN"; ck_device_id := "111.88.28.220:4370" |};
    {| ck_name := "CHK-1"; ck_employee := "HR-EMP-1";
       ck_time := days (days_from_civil 2025 10 1) + 13 * 3600 * us_per_second;
       ck_log_type := "IN"; ck_device_id := "111.88.28.220:4370" |};
    {| ck_name := "CHK-2"; ck_employee := "HR-EMP-1";
       ck_time := days (days_from_civil 2025 10 1) + 18 * 3600 * us_per_second;
       ck_log_type := "IN"; ck_device_id := "111.88.28.220:4370" |} ].

(** A record that carries a valid label. *)
Definition labelled (t : dict) : Prop := exists l, ConfigApp.existing_label t = Some l.

(** A record the grouping loop keeps: it has an employee code and a time
    that [get_datetime] reads. *)
Definition grouped (E : py_env) (t : dict) : Prop :=
  exists k dt, ConfigApp.group_entry E t = Some (k, dt).

(** A row of [Employee] one of whose identifier fields holds the code;
    the field [attendance_device_id] counts when the table has it. *)
Definition code_matches (F : site) (emp_code : value) (r : employee_row) : Prop :=
  emp_employee r = py_str emp_code
  \/ emp_user_id r = py_str emp_code
  \/ (has_attendance_device_id F = true /\ emp_attendance_device_id r = py_str emp_code).

(** A record whose stored label is [IN] or [OUT]. *)
Definition stores_in_or_out (t : dict) : Prop :=
  py_str (ConfigApp.log_type_of t) = "IN" \/ py_str (ConfigApp.log_type_of t) = "OUT".

(** Two rows that differ at most in their label. *)
Definition same_but_label (r r' : checkin) : Prop :=
  ck_name r' = ck_name r /\ ck_employee r' = ck_employee r
  /\ ck_time r' = ck_time r /\ ck_device_id r' = ck_device_id r.

(** The filter of [fix_existing_checkins]. *)
Definition port_4370 (r : checkin) : bool := contains ":4370" (ck_device_id r).

(** The store a repair pass leaves when it examines the rows passing [P]. *)
Definition repaired (P : checkin -> bool) (store : list checkin) : list checkin :=
  fold_left (fun st u => set_log_type (fst u) (snd u) st)
    (mismatches (audit (get_all_checkins P store))) store.

(** A string without white space. *)
Fixpoint no_space (s : string) : bool :=
  match s with
  | EmptyString => true
  | String c s' => negb (is_space c) && no_space s'
  end.

Abbreviation dkey := (string * string * string)%type.

(** The rows of [checkins] whose key was met before them, [seen] being the
    keys met before [checkins]; and the other rows. *)
Fixpoint later_copies (seen : list dkey) (checkins : list checkin) : list checkin :=
  match checkins with
  | [] => []
  | r :: rest =>
      if existsb (ConfigApp.duplicate_key_eqb (ConfigApp.duplicate_key r)) seen
      then r :: later_copies seen rest
      else later_copies (seen ++ [ConfigApp.duplicate_key r]) rest
  end.

Fixpoint first_copies (seen : list dkey) (checkins : list checkin) : list checkin :=
  match checkins with
  | [] => []
  | r :: rest =>
      if existsb (ConfigApp.duplicate_key_eqb (ConfigApp.duplicate_key r)) seen
      then first_copies seen rest
      else r :: first_copies (seen ++ [ConfigApp.duplicate_key r]) rest
  end.

(** The rows [remove_duplicate_checkins] leaves of a store. *)
Definition deduplicated (store : list checkin) : list checkin :=
  snd (ConfigApp.remove_duplicate_checkins store).

(** Whether a row is named in [to_delete]. *)
Definition named_in (to_delete : list string) (r : checkin) : bool :=
  existsb (String.eqb (ck_name r)) to_delete.

(** The transactions of the pages at [urls], the first of them being
    page [page_num]; a request that fails brings nothing. *)
Fixpoint pages_content (N : network) (params : datetime * datetime) (page_num : nat)
    (urls : list string) : list dict :=
  match urls with
  | [] => []
  | url :: rest =>
      match http_get N url (if (page_num =? 0)%nat then Some params else None) with
      | Some data => fst (ConfigApp.page_content data)
      | None => []
      end ++ pages_content N params (S page_num) rest
  end.

(** The cache once a job has taken its lock and released it. *)
Definition after_lock (lock_key : string) (cache : dict) : dict :=
  dict_del lock_key (dict_set lock_key (VStr "locked") cache).

(** The pass stops at one of its three checks: the port is 4370, the
    sync is disabled or no token is set. *)
Definition sync_skipped (c : config) : Prop :=
  strip (py_str (cfg_server_port c)) = "4370"
  \/ cfg_enable_sync c = false
  \/ truthy (cfg_token c) = false.

(** The label [create_checkin_from_attendance_v2] stores for a
    transaction. *)
Definition v2_label (t : dict) : string := py_str (get_default "log_type" (VStr "IN") t).

(** The transactions [device_mode_sync] builds. *)
Definition device_transaction (t : dict) : Prop :=
  exists emp_code punch_datetime punch_val,
    t = ConfigApp.attendance_transaction emp_code punch_datetime punch_val.

(** Two transactions that differ at most in their field [punch]. *)
Definition same_but_punch (t t' : dict) : Prop :=
  forall k, k <> "punch" -> dict_get k t = dict_get k t'.

(** Two attendance records that differ at most in their [punch], which
    [int()] reads in both. *)
Definition same_punch_apart (a a' : attendance) : Prop :=
  att_user_id a' = att_user_id a /\ att_timestamp a' = att_timestamp a
  /\ py_int (att_punch a) <> None /\ py_int (att_punch a') <> None.

(** The label [create_checkin_from_attendance] reads off an attendance
    record. *)
Definition punch_label (att : attendance) : string :=
  match py_int (att_punch att) with
  | Some 1 => "OUT"
  | _ => "IN"
  end.

(** The rows of port 4370 of an employee on a day, in chronological
    order (rows of equal time in the order of the table). *)
Definition day_rows (employee : string) (day : Z) (store : list checkin) : list checkin :=
  sort_by ck_time
    (List.filter
       (fun r => contains ":4370" (ck_device_id r)
                 && (String.eqb (ck_employee r) employee && (date_key (ck_time r) =? day)))
       store).

(** The labels of a repaired day of [n] rows: [IN] alone, or labels that
    alternate from [IN] on the first [n - 1] rows and [OUT] on the last. *)
Definition repaired_labels (n : nat) : list string :=
  match n with
  | O => []
  | S O => ["IN"]
  | S n' => map label_str (alternating_from IN n') ++ ["OUT"]
  end.

(** Whether a row belongs to the group of key [k]. *)
Definition in_day (k : string * Z) (r : checkin) : bool :=
  day_key_eqb (ck_employee r, date_key (ck_time r)) k.

(** The entries grouped under the key [k]. *)
Definition day_group (k : string * Z) (G : list ((string * Z) * list fix_entry))
    : list fix_entry :=
  match List.find (fun g => day_key_eqb k (fst g)) G with
  | Some g => snd g
  | None => []
  end.

(** The time the copy sorts a record by. *)
Definition top_punch_time (t : dict) : value :=
  py_or (get "punch_time" t) (get "timestamp" t).

(** The records the grouping loop keeps: a punch time and an employee
    code other than [unknown]. *)
Definition top_kept (t : dict) : bool :=
  truthy (top_punch_time t)
  && negb (py_eqb (get_default "emp_code" (VStr "unknown") t) (VStr "unknown")).

(** The fields of a record other than the three the copy writes. *)
Definition payload (t : dict) : dict :=
  List.filter (fun kv => negb (String.eqb (fst kv) "log_type"
                          || String.eqb (fst kv) "_sequence_adjusted"
                          || String.eqb (fst kv) "_punch_time")) t.

Definition is_str (v : value) : Prop := exists s, v = VStr s.

(** A record the copy has labelled. *)
Definition top_labelled (t : dict) : Prop :=
  (get "log_type" t = VStr "IN" \/ get "log_type" t = VStr "OUT")
  /\ get "_sequence_adjusted" t = VBool true.

(** A device with an address, a port and a name. *)
Definition usable (d : ConfigTop.device) : Prop :=
  truthy (ConfigTop.dev_ip d) = true
  /\ truthy (ConfigTop.dev_port d) = true
  /\ truthy (ConfigTop.dev_device_name d) = true.

(** The device [get_all_devices] lists for a row of [multi_ip], and
    whether it lists it. *)
Definition listed_device (c : ConfigTop.config_doc) (e : ConfigTop.ip_entry)
    : ConfigTop.device :=
  {| ConfigTop.dev_ip := ConfigTop.ie_ip e; ConfigTop.dev_port := ConfigTop.ie_port e;
     ConfigTop.dev_device_name :=
       py_or (match ConfigTop.ie_device_name e with Some v => v | None => VNone end)
         (VStr ("Device-" +:+ str_of_int (ConfigTop.ie_idx e)));
     ConfigTop.dev_user := ConfigTop.ie_user e;
     ConfigTop.dev_password := ConfigTop.ie_password e;
     ConfigTop.dev_token := ConfigTop.cd_token c;
     ConfigTop.dev_enable_sync :=
       match ConfigTop.ie_enable_sync e with Some v => v | None => VInt 1 end |}.

Definition listed (e : ConfigTop.ip_entry) : bool :=
  truthy (match ConfigTop.ie_enable_sync e with Some v => v | None => VInt 1 end).

(** The first punch of [day4]. *)
Definition first_punch : dict := api_punch 1 "E1" "2025-01-01 09:00:00".

(** The first record of [labelled_pair]. *)
Definition out_punch : dict :=
  api_punch 1 "E1" "2025-01-01 09:00:00" ++ [("log_type", VStr "OUT")].

(** The row [create_employee_checkin] stores for [soon_punch]. *)
Definition soon_row : checkin :=
  app_row demo_site [] "HR-EMP-1" (evening + minutes 4) soon_punch.

(** The clock of the examples: every reading is [evening]. *)
Definition evening_clock : nat -> datetime * datetime := fun _ => (evening, evening).

(** The rows of [stored_day] and a row of another device. *)
Definition other_device_row : checkin :=
  {| ck_name := "CHK-9"; ck_employee := "HR-EMP-1";
     ck_time := days (days_from_civil 2025 10 1) + 10 * 3600 * us_per_second;
     ck_log_type := "OUT"; ck_device_id := "Gate (ZKTeco-7)" |}.

Definition mixed_store : list checkin := stored_day ++ [other_device_row].

(** A row of port 4370 stored twice under two names, and a row of another
    device. *)
Definition twice_row (name : string) : checkin :=
  {| ck_name := name; ck_employee := "HR-EMP-1";
     ck_time := days (days_from_civil 2025 10 1) + 9 * 3600 * us_per_second;
     ck_log_type := "IN"; ck_device_id := "10.0.0.5:4370" |}.

Definition twice_store : list checkin :=
  [ twice_row "CHK-0"; twice_row "CHK-1"; other_device_row ].

(** A configuration for the vendor API, and one for a device. *)
Definition api_config : config :=
  {| cfg_server_ip := VStr "10.0.0.5"; cfg_server_port := VStr "80";
     cfg_token := VStr "secret"; cfg_enable_sync := true; cfg_seconds := VNone;
     cfg_last_sync := VNone; cfg_total_synced_records := 0 |}.

Definition device_config : config :=
  {| cfg_server_ip := VStr "10.0.0.5"; cfg_server_port := VStr "4370";
     cfg_token := VNone; cfg_enable_sync := true; cfg_seconds := VNone;
     cfg_last_sync := VNone; cfg_total_synced_records := 0 |}.

Definition api_world : world := {| w_cache := []; w_cfg := api_config; w_store := [] |}.

Definition device_world : world :=
  {| w_cache := []; w_cfg := device_config; w_store := [] |}.

(** Two attendance records of one employee, and the same records with the
    punch values exchanged. *)
Definition device_records (first_punch_val second_punch_val : Z) : list attendance :=
  [ {| att_user_id := VStr "E1";
       att_timestamp := VDatetime (evening - 60 * us_per_minute);
       att_punch := VInt first_punch_val |};
    {| att_user_id := VStr "E1"; att_timestamp := VDatetime evening;
       att_punch := VInt second_punch_val |} ].

(** A vendor API that answers every request with the four punches of
    [day4] and no [next] link, and a device that holds [records]. *)
Definition demo_network (records : list attendance) : network :=
  {| http_get := fun _ _ => Some (BodyDict VNone (Some day4) None None);
     zk_library := true;
     get_attendance := fun _ _ => Some records |}.

(** A network on which every request fails and no device answers. *)
Definition dead_network : network :=
  {| http_get := fun _ _ => None; zk_library := true;
     get_attendance := fun _ _ => None |}.

(** The row [create_checkin_from_attendance] stores for an attendance
    record with [punch = 1]. *)
Definition out_attendance : attendance :=
  {| att_user_id := VStr " E1 "; att_timestamp := VDatetime evening;
     att_punch := VStr "1" |}.

Definition out_attendance_row : checkin :=
  {| ck_name := "CHK-0"; ck_employee := "HR-EMP-1"; ck_time := evening;
     ck_log_type := "OUT"; ck_device_id := "10.0.0.5:4370" |}.

(** Two punches of an employee and a record with no punch time. *)
Definition with_untimed : list dict :=
  [ api_punch 1 "E1" "2025-01-01 18:00:00"; [("emp_code", VStr "E2")];
    api_punch 2 "E1" "2025-01-01 09:00:00" ].


(** A configuration with two rows in [multi_ip], the second one without a
    name and switched off. *)
Definition two_devices : ConfigTop.config_doc :=
  {| ConfigTop.cd_server_ip := VNone; ConfigTop.cd_server_port := VNone;
     ConfigTop.cd_username := VNone; ConfigTop.cd_password := VNone;
     ConfigTop.cd_token := VStr "secret"; ConfigTop.cd_enable_sync := VInt 1;
     ConfigTop.cd_multi_ip :=
       [ {| ConfigTop.ie_idx := 1; ConfigTop.ie_ip := VStr "10.0.0.5";
            ConfigTop.ie_port := VStr "4370"; ConfigTop.ie_user := VNone;
            ConfigTop.ie_password := VNone;
            ConfigTop.ie_device_name := Some (VStr "");
            ConfigTop.ie_enable_sync := Some (VInt 1) |};
         {| ConfigTop.ie_idx := 2; ConfigTop.ie_ip := VStr "10.0.0.6";
            ConfigTop.ie_port := VStr "80"; ConfigTop.ie_user := VNone;
            ConfigTop.ie_password := VNone;
            ConfigTop.ie_device_name := Some VNone;
            ConfigTop.ie_enable_sync := Some (VInt 0) |} ] |}.

Definition two_devices_validated : ConfigTop.config_doc :=
  match ConfigTop.validate two_devices with
  | inr config => config
  | inl _ => two_devices
  end.

(** * Properties *)

(** ** The Label Detector *)

Lemma scan_values_copies (items : dict) :
  ConfigTop.scan_values items = ConfigApp.scan_values items.
Proof.
  induction items as [|[k v] rest IH]; simpl; [reflexivity|].
  rewrite IH. reflexivity.
Qed.

Lemma check_fields_copies checks (t : dict) :
  ConfigTop.check_fields checks t = ConfigApp.check_fields checks t.
Proof.
  induction checks as [|[[[field is_numeric] out_val] in_val] rest IH]; simpl;
    [reflexivity|].
  rewrite IH. reflexivity.
Qed.

Lemma scan_keys_copies (items : dict) :
  ConfigTop.scan_keys items = ConfigApp.scan_keys items.
Proof.
  induction items as [|[k v] rest IH]; simpl; [reflexivity|].
  rewrite IH. reflexivity.
Qed.

(** C10: the two copies of [detect_log_type] return the same label on
    every transaction. *)
Theorem detect_log_type_copies_agree (transaction : dict) :
  ConfigTop.detect_log_type transaction = ConfigApp.detect_log_type transaction.
Proof.
  unfold ConfigTop.detect_log_type, ConfigApp.detect_log_type.
  rewrite scan_values_copies, check_fields_copies, scan_keys_copies.
  reflexivity.
Qed.

(** ** Dictionaries *)

Lemma dict_get_set_eq (k : string) (v : value) (d : dict) :
  dict_get k (dict_set k v d) = Some v.
Proof.
  induction d as [|[k' v'] d IH]; simpl.
  - rewrite String.eqb_refl. reflexivity.
  - destruct (String.eqb k k') eqn:Hk; simpl; rewrite Hk; [reflexivity | exact IH].
Qed.

Lemma dict_get_set_ne (k k' : string) (v : value) (d : dict) :
  k <> k' -> dict_get k' (dict_set k v d) = dict_get k' d.
Proof.
  intros Hne. induction d as [|[k0 v0] d IH]; simpl.
  - destruct (String.eqb k' k) eqn:Hk; [|reflexivity].
    apply String.eqb_eq in Hk. congruence.
  - destruct (String.eqb k k0) eqn:Hk; simpl.
    + apply String.eqb_eq in Hk. subst k0.
      destruct (String.eqb k' k) eqn:Hk'; [|reflexivity].
      apply String.eqb_eq in Hk'. congruence.
    + rewrite IH. reflexivity.
Qed.

Lemma get_set_ne (k k' : string) (v : value) (d : dict) :
  k <> k' -> get k' (dict_set k v d) = get k' d.
Proof. intros H. unfold get. rewrite dict_get_set_ne by exact H. reflexivity. Qed.

Lemma get_log_type_mark (l : label) (t : dict) :
  get "log_type" (ConfigApp.mark l t) = VStr (label_str l).
Proof.
  unfold ConfigApp.mark, get.
  rewrite dict_get_set_ne by discriminate.
  rewrite dict_get_set_eq. reflexivity.
Qed.

Lemma existing_label_mark (l : label) (t : dict) :
  ConfigApp.existing_label (ConfigApp.mark l t) = Some l.
Proof.
  unfold ConfigApp.existing_label, ConfigApp.mark.
  rewrite dict_get_set_ne by discriminate.
  rewrite dict_get_set_eq. destruct l; reflexivity.
Qed.

Lemma get_mark_other (k : string) (l : label) (t : dict) :
  k <> "log_type" -> k <> "_sequence_adjusted" ->
  get k (ConfigApp.mark l t) = get k t.
Proof.
  intros H1 H2. unfold ConfigApp.mark.
  rewrite !get_set_ne by congruence. reflexivity.
Qed.

Lemma group_entry_mark (E : py_env) (l : label) (t : dict) :
  ConfigApp.group_entry E (ConfigApp.mark l t) = ConfigApp.group_entry E t.
Proof.
  unfold ConfigApp.group_entry.
  rewrite !get_mark_other by discriminate. reflexivity.
Qed.

Lemma other_fields_set (k : string) (v : value) (t : dict) :
  k = "log_type" \/ k = "_sequence_adjusted" ->
  other_fields (dict_set k v t) = other_fields t.
Proof.
  intros Hk. unfold other_fields.
  induction t as [|[k' v'] t IH]; simpl.
  - destruct Hk; subst k; reflexivity.
  - destruct (String.eqb k k') eqn:Hkk.
    + apply String.eqb_eq in Hkk. subst k'.
      simpl.
      destruct Hk; subst k; reflexivity.
    + simpl. rewrite IH. reflexivity.
Qed.

Lemma other_fields_mark (l : label) (t : dict) :
  other_fields (ConfigApp.mark l t) = other_fields t.
Proof.
  unfold ConfigApp.mark. rewrite !other_fields_set by auto. reflexivity.
Qed.

(** ** Sorting *)

Section SortFacts.
Context {A : Type} (leb : A -> A -> bool).

Lemma insert_sorted_perm (x : A) (l : list A) :
  insert_sorted leb x l ≡ₚ x :: l.
Proof.
  induction l as [|y l IH]; simpl; [reflexivity|].
  destruct (leb x y); [reflexivity|].
  rewrite IH. apply Permutation_swap.
Qed.

Lemma sort_leb_perm (l : list A) : sort_leb leb l ≡ₚ l.
Proof.
  induction l as [|x l IH]; simpl; [reflexivity|].
  rewrite insert_sorted_perm, IH. reflexivity.
Qed.

Lemma sort_leb_length (l : list A) : length (sort_leb leb l) = length l.
Proof. apply Permutation_length, sort_leb_perm. Qed.
End SortFacts.

Section SortMap.
Context {A B : Type} (lebA : A -> A -> bool) (lebB : B -> B -> bool) (f : A -> B).
Hypothesis leb_f : forall x y, lebB (f x) (f y) = lebA x y.

Lemma insert_sorted_map (x : A) (l : list A) :
  insert_sorted lebB (f x) (map f l) = map f (insert_sorted lebA x l).
Proof.
  induction l as [|y l IH]; simpl; [reflexivity|].
  rewrite leb_f. destruct (lebA x y); simpl; [reflexivity|].
  rewrite IH. reflexivity.
Qed.

Lemma sort_leb_map (l : list A) :
  sort_leb lebB (map f l) = map f (sort_leb lebA l).
Proof.
  induction l as [|x l IH]; simpl; [reflexivity|].
  rewrite IH. apply insert_sorted_map.
Qed.
End SortMap.

(** ** One group of the Normalizer *)

Lemma gather_app (l1 l2 : list nat) (ts : list dict) :
  gather (l1 ++ l2) ts = gather l1 ts ++ gather l2 ts.
Proof.
  induction l1 as [|i l1 IH]; simpl; [reflexivity|].
  rewrite IH. destruct (ts !! i); reflexivity.
Qed.

Lemma gather_ext (idxs : list nat) (ts ts' : list dict) :
  (forall i, i ∈ idxs -> ts' !! i = ts !! i) -> gather idxs ts' = gather idxs ts.
Proof.
  induction idxs as [|i rest IH]; intros H; simpl; [reflexivity|].
  rewrite H by (left). rewrite IH; [reflexivity|].
  intros j Hj. apply H. right. exact Hj.
Qed.

Lemma gather_length (idxs : list nat) (ts : list dict) :
  (forall i, i ∈ idxs -> (i < length ts)%nat) -> length (gather idxs ts) = length idxs.
Proof.
  induction idxs as [|i rest IH]; intros H; simpl; [reflexivity|].
  destruct (lookup_lt_is_Some_2 ts i (H i ltac:(left))) as [t Ht].
  rewrite Ht. simpl. rewrite IH; [reflexivity|].
  intros j Hj. apply H. right. exact Hj.
Qed.

Lemma gather_lookup (idxs : list nat) (ts : list dict) (p i : nat) :
  (forall i, i ∈ idxs -> (i < length ts)%nat) ->
  idxs !! p = Some i -> gather idxs ts !! p = ts !! i.
Proof.
  revert p. induction idxs as [|j rest IH]; intros p H Hp; [discriminate|].
  simpl. destruct (lookup_lt_is_Some_2 ts j (H j ltac:(left))) as [t Ht].
  rewrite Ht. destruct p as [|p]; simpl in *.
  - injection Hp as ->. symmetry. exact Ht.
  - apply IH; [|exact Hp]. intros k Hk. apply H. right. exact Hk.
Qed.

Lemma resolve_group_snoc (d e : dict) (mids : list dict) :
  resolve_group (d :: mids ++ [e])
  = keep_or IN d :: resolve_middle IN mids ++ [keep_or OUT e].
Proof.
  destruct mids as [|m mids]; [reflexivity|].
  change (resolve_group (d :: (m :: mids) ++ [e]))
    with (keep_or IN d :: resolve_middle IN (removelast ((m :: mids) ++ [e]))
            ++ [keep_or OUT (List.last ((m :: mids) ++ [e]) d)]).
  rewrite removelast_last, last_last. reflexivity.
Qed.

Lemma resolve_middle_length (prev : label) (ds : list dict) :
  length (resolve_middle prev ds) = length ds.
Proof.
  revert prev. induction ds as [|d ds IH]; intros prev; simpl; [reflexivity|].
  destruct (ConfigApp.existing_label d); simpl; rewrite IH; reflexivity.
Qed.

Lemma resolve_group_length (ds : list dict) :
  length (resolve_group ds) = length ds.
Proof.
  destruct ds as [|d [|e rest]]; [reflexivity..|].
  destruct (exists_last (l := e :: rest)) as [mids [z Hz]]; [discriminate|].
  rewrite Hz, resolve_group_snoc. simpl.
  rewrite !length_app, resolve_middle_length. reflexivity.
Qed.

Lemma alternate_middle_length (mids : list nat) (prev : label) (ts : list dict) :
  length (ConfigApp.alternate_middle prev mids ts) = length ts.
Proof.
  revert prev ts. induction mids as [|i rest IH]; intros prev ts; simpl; [reflexivity|].
  destruct (ts !! i) as [current|]; [|apply IH].
  destruct (ConfigApp.existing_label current); rewrite IH; [reflexivity|].
  apply length_alter.
Qed.

Lemma alternate_middle_frame (mids : list nat) (prev : label) (ts : list dict) (i : nat) :
  i ∉ mids -> ConfigApp.alternate_middle prev mids ts !! i = ts !! i.
Proof.
  revert prev ts. induction mids as [|j rest IH]; intros prev ts Hi; simpl; [reflexivity|].
  apply not_elem_of_cons in Hi as [Hij Hi].
  destruct (ts !! j) as [current|]; [|apply IH; exact Hi].
  destruct (ConfigApp.existing_label current); rewrite IH by exact Hi; [reflexivity|].
  apply list_lookup_alter_ne. congruence.
Qed.

Lemma alternate_middle_gather (mids : list nat) (prev : label) (ts : list dict) :
  NoDup mids -> (forall i, i ∈ mids -> (i < length ts)%nat) ->
  gather mids (ConfigApp.alternate_middle prev mids ts)
  = resolve_middle prev (gather mids ts).
Proof.
  revert prev ts. induction mids as [|i rest IH]; intros prev ts Hnd Hlt; [reflexivity|].
  apply NoDup_cons in Hnd as [Hi Hnd].
  destruct (lookup_lt_is_Some_2 ts i (Hlt i ltac:(left))) as [current Hc].
  assert (Hrest : forall j, j ∈ rest -> (j < length ts)%nat)
    by (intros j Hj; apply Hlt; right; exact Hj).
  cbn [ConfigApp.alternate_middle gather]. rewrite Hc.
  cbn [resolve_middle].
  destruct (ConfigApp.existing_label current) as [l|] eqn:Hl.
  - rewrite alternate_middle_frame by exact Hi. rewrite Hc.
    rewrite IH by assumption. reflexivity.
  - replace (match prev with IN => OUT | OUT => IN end) with (opposite prev)
      by (destruct prev; reflexivity).
    rewrite alternate_middle_frame by exact Hi.
    rewrite list_lookup_alter_eq, Hc. cbn [fmap option_fmap option_map].
    rewrite IH; [|exact Hnd|intros j Hj; rewrite length_alter; auto].
    f_equal. f_equal. apply gather_ext.
    intros j Hj. apply list_lookup_alter_ne. intros ->. contradiction.
Qed.

Lemma set_unless_labelled_length (l : label) (i : nat) (ts : list dict) :
  length (ConfigApp.set_unless_labelled l i ts) = length ts.
Proof. apply length_alter. Qed.

Lemma set_unless_labelled_ne (l : label) (i j : nat) (ts : list dict) :
  i <> j -> ConfigApp.set_unless_labelled l i ts !! j = ts !! j.
Proof. apply list_lookup_alter_ne. Qed.

Lemma set_unless_labelled_eq (l : label) (i : nat) (ts : list dict) :
  ConfigApp.set_unless_labelled l i ts !! i = keep_or l <$> ts !! i.
Proof. apply list_lookup_alter_eq. Qed.

Lemma process_group_length (ps : list (datetime * nat)) (ts : list dict) :
  length (ConfigApp.process_group ps ts) = length ts.
Proof.
  unfold ConfigApp.process_group.
  destruct (map snd (sort_by fst ps)) as [|first [|r rest]]; [reflexivity|..].
  - apply set_unless_labelled_length.
  - destruct (length (sort_by fst ps) =? 2)%nat;
      rewrite ?alternate_middle_length, !set_unless_labelled_length; reflexivity.
Qed.

Lemma sorted_indices_perm (ps : list (datetime * nat)) :
  sorted_indices ps ≡ₚ map snd ps.
Proof. unfold sorted_indices, sort_by. rewrite sort_leb_perm. reflexivity. Qed.

Lemma last_elem_of {A : Type} (l : list A) (d : A) :
  l <> [] -> List.last l d ∈ l.
Proof.
  intros Hl. destruct (exists_last Hl) as [m [z Hz]]. subst l.
  rewrite last_last. apply elem_of_app. right. left.
Qed.

Lemma removelast_elem_of {A : Type} (l : list A) (x : A) :
  x ∈ removelast l -> x ∈ l.
Proof.
  destruct l as [|y l]; [intros H; exact H|].
  destruct (exists_last (l := y :: l)) as [m [z Hz]]; [discriminate|].
  rewrite Hz, removelast_last. intros H. apply elem_of_app. left. exact H.
Qed.

Lemma process_group_frame (ps : list (datetime * nat)) (ts : list dict) (i : nat) :
  i ∉ map snd ps -> ConfigApp.process_group ps ts !! i = ts !! i.
Proof.
  intros Hi. rewrite <- sorted_indices_perm in Hi.
  unfold ConfigApp.process_group. unfold sorted_indices in Hi.
  destruct (map snd (sort_by fst ps)) as [|first [|r rest]] eqn:Hidx; [reflexivity|..].
  - apply set_unless_labelled_ne. intros ->. apply Hi. left.
  - assert (Hlast : List.last (r :: rest) first <> i).
    { intros Heq. apply Hi. rewrite <- Heq. right. apply last_elem_of. discriminate. }
    assert (Hmid : i ∉ removelast (r :: rest)).
    { intros Hin. apply Hi. right. apply removelast_elem_of. exact Hin. }
    assert (Hfirst : first <> i) by (intros ->; apply Hi; left).
    destruct (length (sort_by fst ps) =? 2)%nat;
      rewrite ?alternate_middle_frame by exact Hmid;
      rewrite !set_unless_labelled_ne by assumption; reflexivity.
Qed.

Lemma process_group_gather (ps : list (datetime * nat)) (ts : list dict) :
  NoDup (map snd ps) -> (forall i, i ∈ map snd ps -> (i < length ts)%nat) ->
  gather (sorted_indices ps) (ConfigApp.process_group ps ts)
  = resolve_group (gather (sorted_indices ps) ts).
Proof.
  intros Hnd Hlt.
  rewrite <- sorted_indices_perm in Hnd.
  assert (Hlt' : forall i, i ∈ sorted_indices ps -> (i < length ts)%nat).
  { intros i Hi. apply Hlt. rewrite <- sorted_indices_perm. exact Hi. }
  clear Hlt.
  assert (Hlen : length (sort_by fst ps) = length (sorted_indices ps))
    by (unfold sorted_indices; rewrite length_map; reflexivity).
  unfold ConfigApp.process_group.
  fold (sorted_indices ps). rewrite Hlen.
  destruct (sorted_indices ps) as [|first [|r rest]] eqn:Hidx; [reflexivity|..].
  - destruct (lookup_lt_is_Some_2 ts first (Hlt' first ltac:(left))) as [d Hd].
    cbn [gather]. rewrite set_unless_labelled_eq, Hd. reflexivity.
  - destruct (exists_last (l := r :: rest)) as [mids [z Hz]]; [discriminate|].
    rewrite Hz in *. clear Hz r rest.
    rewrite last_last, removelast_last.
    apply NoDup_cons in Hnd as [Hfirst Hnd].
    apply NoDup_app in Hnd as (Hmids & Hdisj & _).
    assert (Hfz : first <> z).
    { intros ->. apply Hfirst. apply elem_of_app. right. left. }
    assert (Hzm : z ∉ mids).
    { intros Hin. apply (Hdisj z Hin). left. }
    assert (Hfm : first ∉ mids).
    { intros Hin. apply Hfirst. apply elem_of_app. left. exact Hin. }
    destruct (lookup_lt_is_Some_2 ts first (Hlt' first ltac:(left))) as [d Hd].
    destruct (lookup_lt_is_Some_2 ts z (Hlt' z ltac:(right; apply elem_of_app; right; left)))
      as [e He].
    set (ts2 := ConfigApp.set_unless_labelled OUT z
                  (ConfigApp.set_unless_labelled IN first ts)).
    assert (Hres : (if (length (first :: mids ++ [z]) =? 2)%nat then ts2
                    else ConfigApp.alternate_middle IN mids ts2)
                   = ConfigApp.alternate_middle IN mids ts2).
    { destruct mids as [|m mids]; [reflexivity|].
      replace (length (first :: (m :: mids) ++ [z]) =? 2)%nat with false; [reflexivity|].
      symmetry. apply Nat.eqb_neq. simpl. rewrite length_app. simpl. lia. }
    rewrite Hres. clear Hres.
    assert (H2first : ts2 !! first = Some (keep_or IN d)).
    { unfold ts2. rewrite set_unless_labelled_ne by congruence.
      rewrite set_unless_labelled_eq, Hd. reflexivity. }
    assert (H2z : ts2 !! z = Some (keep_or OUT e)).
    { unfold ts2. rewrite set_unless_labelled_eq.
      rewrite set_unless_labelled_ne by congruence. rewrite He. reflexivity. }
    assert (H2mids : gather mids ts2 = gather mids ts).
    { apply gather_ext. intros j Hj. unfold ts2.
      rewrite !set_unless_labelled_ne; [reflexivity|..]; intros ->; contradiction. }
    assert (Hlen2 : length ts2 = length ts)
      by (unfold ts2; rewrite !set_unless_labelled_length; reflexivity).
    change (gather (first :: mids ++ [z]) ?x)
      with (match x !! first with
            | Some t => t :: gather (mids ++ [z]) x
            | None => gather (mids ++ [z]) x end).
    rewrite alternate_middle_frame by exact Hfm. rewrite H2first, Hd.
    rewrite !gather_app. cbn [gather].
    rewrite alternate_middle_frame by exact Hzm. rewrite H2z, He.
    rewrite alternate_middle_gather;
      [|exact Hmids|intros j Hj; rewrite Hlen2; apply Hlt'; right; apply elem_of_app; left; exact Hj].
    rewrite H2mids, resolve_group_snoc. reflexivity.
Qed.

(** ** The groups of a batch *)

Lemma group_add_indices (k : value * Z) (dt : datetime) (i : nat) (G : groups) :
  all_indices (group_add ConfigApp.key_eqb k (dt, i) G) ≡ₚ i :: all_indices G.
Proof.
  unfold all_indices.
  induction G as [|[k' xs] G IH]; simpl; [reflexivity|].
  destruct (ConfigApp.key_eqb k k'); simpl.
  - rewrite map_app. simpl.
    rewrite <- app_assoc. simpl.
    rewrite <- Permutation_middle. reflexivity.
  - rewrite IH. rewrite <- Permutation_middle. reflexivity.
Qed.

Lemma group_punches_bound (E : py_env) (ts : list dict) (i : nat) (G : groups) :
  (forall j, j ∈ all_indices G -> (j < i)%nat) ->
  forall j, j ∈ all_indices (ConfigApp.group_punches E i ts G) -> (j < i + length ts)%nat.
Proof.
  revert i G. induction ts as [|t ts IH]; intros i G HG j Hj; simpl in *.
  - specialize (HG j Hj). lia.
  - replace (i + S (length ts))%nat with (S i + length ts)%nat by lia.
    eapply IH; [|exact Hj].
    intros j' Hj'. destruct (ConfigApp.group_entry E t) as [[k dt]|].
    + rewrite group_add_indices in Hj'.
      apply elem_of_cons in Hj' as [->|Hj']; [lia|].
      specialize (HG j' Hj'). lia.
    + specialize (HG j' Hj'). lia.
Qed.

Lemma group_punches_NoDup (E : py_env) (ts : list dict) (i : nat) (G : groups) :
  NoDup (all_indices G) -> (forall j, j ∈ all_indices G -> (j < i)%nat) ->
  NoDup (all_indices (ConfigApp.group_punches E i ts G)).
Proof.
  revert i G. induction ts as [|t ts IH]; intros i G Hnd HG; simpl; [exact Hnd|].
  apply IH.
  - destruct (ConfigApp.group_entry E t) as [[k dt]|]; [|exact Hnd].
    rewrite group_add_indices. apply NoDup_cons. split; [|exact Hnd].
    intros Hin. specialize (HG i Hin). lia.
  - intros j Hj. destruct (ConfigApp.group_entry E t) as [[k dt]|].
    + rewrite group_add_indices in Hj.
      apply elem_of_cons in Hj as [->|Hj]; [lia|].
      specialize (HG j Hj). lia.
    + specialize (HG j Hj). lia.
Qed.

Lemma elem_of_all_indices (G : groups) (k : value * Z) (ps : list (datetime * nat)) (i : nat) :
  (k, ps) ∈ G -> i ∈ map snd ps -> i ∈ all_indices G.
Proof.
  intros HG Hi. unfold all_indices. apply list_elem_of_In, in_concat.
  exists (map snd ps). split; [|apply list_elem_of_In; exact Hi].
  apply in_map_iff. exists (k, ps). split; [reflexivity|].
  apply list_elem_of_In. exact HG.
Qed.

Lemma process_groups_length (G : groups) (ts : list dict) :
  length (process_groups G ts) = length ts.
Proof.
  revert ts. induction G as [|g G IH]; intros ts; simpl; [reflexivity|].
  unfold process_groups in *. simpl. rewrite IH. apply process_group_length.
Qed.

Lemma process_groups_frame (G : groups) (ts : list dict) (i : nat) :
  i ∉ all_indices G -> process_groups G ts !! i = ts !! i.
Proof.
  revert ts. induction G as [|g G IH]; intros ts Hi; [reflexivity|].
  unfold process_groups in *. simpl.
  unfold all_indices in Hi. simpl in Hi.
  apply not_elem_of_app in Hi as [Hg HG].
  rewrite IH by exact HG. apply process_group_frame. exact Hg.
Qed.

Lemma process_groups_gather (G : groups) (ts : list dict)
    (k : value * Z) (ps : list (datetime * nat)) :
  NoDup (all_indices G) -> (forall j, j ∈ all_indices G -> (j < length ts)%nat) ->
  (k, ps) ∈ G ->
  gather (sorted_indices ps) (process_groups G ts)
  = resolve_group (gather (sorted_indices ps) ts).
Proof.
  revert ts. induction G as [|g G IH]; intros ts Hnd Hlt Hin.
  - apply elem_of_nil in Hin. contradiction.
  - unfold all_indices in Hnd, Hlt. simpl in Hnd, Hlt.
    apply NoDup_app in Hnd as (Hg & Hdisj & HG).
    unfold process_groups. simpl. fold (process_groups G (ConfigApp.process_group (snd g) ts)).
    apply elem_of_cons in Hin as [Heq|Hin].
    + subst g. simpl in *.
      rewrite (gather_ext _ (ConfigApp.process_group ps ts)).
      * apply process_group_gather; [exact Hg|].
        intros j Hj. apply Hlt. apply elem_of_app. left. exact Hj.
      * intros j Hj. apply process_groups_frame.
        apply Hdisj. rewrite <- sorted_indices_perm. exact Hj.
    + rewrite IH; [|exact HG| |exact Hin].
      * f_equal. apply gather_ext. intros j Hj.
        apply process_group_frame. intros Hjg.
        apply (Hdisj j Hjg).
        eapply elem_of_all_indices; [exact Hin|].
        rewrite <- sorted_indices_perm. exact Hj.
      * intros j Hj. rewrite process_group_length. apply Hlt.
        apply elem_of_app. right. exact Hj.
Qed.

Lemma adjust_is_process_groups (E : py_env) (ts : list dict) :
  ConfigApp.adjust_checkin_sequence E ts = process_groups (groups_of E ts) ts.
Proof. destruct ts; reflexivity. Qed.

Lemma groups_of_NoDup (E : py_env) (ts : list dict) :
  NoDup (all_indices (groups_of E ts)).
Proof.
  apply group_punches_NoDup; [constructor|].
  intros j Hj. apply elem_of_nil in Hj. contradiction.
Qed.

Lemma groups_of_bound (E : py_env) (ts : list dict) (j : nat) :
  j ∈ all_indices (groups_of E ts) -> (j < length ts)%nat.
Proof.
  intros Hj. apply (group_punches_bound E ts 0 []) in Hj; [exact Hj|].
  intros j' Hj'. apply elem_of_nil in Hj'. contradiction.
Qed.

Lemma adjust_length (E : py_env) (ts : list dict) :
  length (ConfigApp.adjust_checkin_sequence E ts) = length ts.
Proof. rewrite adjust_is_process_groups. apply process_groups_length. Qed.

Lemma adjust_frame (E : py_env) (ts : list dict) (i : nat) :
  i ∉ all_indices (groups_of E ts) ->
  ConfigApp.adjust_checkin_sequence E ts !! i = ts !! i.
Proof. rewrite adjust_is_process_groups. apply process_groups_frame. Qed.

(** The records of a group in chronological order, after the pass, are
    the resolution of the records before it. *)
Lemma adjust_gather (E : py_env) (ts : list dict)
    (k : value * Z) (ps : list (datetime * nat)) :
  (k, ps) ∈ groups_of E ts ->
  gather (sorted_indices ps) (ConfigApp.adjust_checkin_sequence E ts)
  = resolve_group (gather (sorted_indices ps) ts).
Proof.
  intros Hin. rewrite adjust_is_process_groups.
  apply process_groups_gather with (k := k); [apply groups_of_NoDup| |exact Hin].
  intros j Hj. apply (groups_of_bound E). exact Hj.
Qed.

(** ** Equality of group keys *)

Lemma py_eqb_as_key (a b : value) : py_eqb a b = true <-> as_key a = as_key b.
Proof.
  destruct a as [|x|x|x|x], b as [|y|y|y|y]; simpl; split; intros H;
    try reflexivity; try discriminate;
    try (apply Z.eqb_eq in H; congruence);
    try (apply String.eqb_eq in H; congruence);
    try (injection H as H; apply Z.eqb_eq; exact H);
    try (injection H as H; apply String.eqb_eq; exact H).
  - destruct x, y; simpl in *; congruence.
  - destruct x, y; simpl in *; try reflexivity; discriminate.
Qed.

Lemma key_eqb_spec (a b : value * Z) :
  ConfigApp.key_eqb a b = true <-> as_key (fst a) = as_key (fst b) /\ snd a = snd b.
Proof.
  unfold ConfigApp.key_eqb. rewrite andb_true_iff, py_eqb_as_key, Z.eqb_eq.
  reflexivity.
Qed.

Lemma key_eqb_refl (a : value * Z) : ConfigApp.key_eqb a a = true.
Proof. apply key_eqb_spec. split; reflexivity. Qed.

Lemma key_eqb_sym (a b : value * Z) :
  ConfigApp.key_eqb a b = ConfigApp.key_eqb b a.
Proof.
  destruct (ConfigApp.key_eqb a b) eqn:H1, (ConfigApp.key_eqb b a) eqn:H2;
    try reflexivity.
  - apply key_eqb_spec in H1 as [H H']. rewrite <- H2. symmetry.
    apply key_eqb_spec. split; congruence.
  - apply key_eqb_spec in H2 as [H H']. rewrite <- H1.
    apply key_eqb_spec. split; congruence.
Qed.

Lemma key_eqb_trans_l (a b c : value * Z) :
  ConfigApp.key_eqb a b = true -> ConfigApp.key_eqb a c = ConfigApp.key_eqb b c.
Proof.
  intros Hab. apply key_eqb_spec in Hab as [H H'].
  destruct (ConfigApp.key_eqb a c) eqn:H1, (ConfigApp.key_eqb b c) eqn:H2;
    try reflexivity.
  - apply key_eqb_spec in H1 as [G G']. rewrite <- H2. symmetry.
    apply key_eqb_spec. split; congruence.
  - apply key_eqb_spec in H2 as [G G']. rewrite <- H1.
    apply key_eqb_spec. split; congruence.
Qed.


(** ** The members of a group *)

Lemma entries_of_app (E : py_env) (k : value * Z) (i : nat) (l1 l2 : list dict) :
  entries_of E k i (l1 ++ l2)
  = entries_of E k i l1 ++ entries_of E k (i + length l1) l2.
Proof.
  revert i. induction l1 as [|t l1 IH]; intros i; simpl.
  - rewrite Nat.add_0_r. reflexivity.
  - rewrite IH. replace (S i + length l1)%nat with (i + S (length l1))%nat by lia.
    destruct (ConfigApp.group_entry E t) as [[k' dt]|]; [|reflexivity].
    destruct (ConfigApp.key_eqb k' k); reflexivity.
Qed.


Lemma group_add_hit (k : value * Z) (x : datetime * nat) (G : groups) (a : nat)
    (ka : value * Z) (pa : list (datetime * nat)) :
  G !! a = Some (ka, pa) -> ConfigApp.key_eqb k ka = true ->
  (forall b kb pb, G !! b = Some (kb, pb) -> ConfigApp.key_eqb k kb = true -> a = b) ->
  group_add ConfigApp.key_eqb k x G = <[a := (ka, pa ++ [x])]> G.
Proof.
  revert a. induction G as [|[k0 p0] G IH]; intros a Ha Hk Huniq; [discriminate|].
  simpl. destruct (ConfigApp.key_eqb k k0) eqn:Hk0.
  - assert (a = 0)%nat as -> by (apply (Huniq 0%nat k0 p0); [reflexivity|exact Hk0]).
    simpl in Ha. injection Ha as -> ->. reflexivity.
  - destruct a as [|a]; simpl in Ha.
    + injection Ha as -> ->. congruence.
    + simpl. f_equal. apply IH; [exact Ha|exact Hk|].
      intros b kb pb Hb Hkb.
      specialize (Huniq (S b) kb pb Hb Hkb). lia.
Qed.

Lemma group_add_miss (k : value * Z) (x : datetime * nat) (G : groups) :
  (forall kb pb, (kb, pb) ∈ G -> ConfigApp.key_eqb k kb = false) ->
  group_add ConfigApp.key_eqb k x G = G ++ [(k, [x])].
Proof.
  induction G as [|[k0 p0] G IH]; intros Hmiss; [reflexivity|].
  simpl. rewrite (Hmiss k0 p0) by left.
  f_equal. apply IH. intros kb pb Hin. apply (Hmiss kb pb). right. exact Hin.
Qed.

Lemma find_group (k : value * Z) (G : groups) :
  (exists a ka pa, G !! a = Some (ka, pa) /\ ConfigApp.key_eqb k ka = true)
  \/ (forall kb pb, (kb, pb) ∈ G -> ConfigApp.key_eqb k kb = false).
Proof.
  induction G as [|[k0 p0] G IH].
  - right. intros kb pb Hin. apply elem_of_nil in Hin. contradiction.
  - destruct (ConfigApp.key_eqb k k0) eqn:Hk0.
    + left. exists 0%nat, k0, p0. split; [reflexivity|exact Hk0].
    + destruct IH as [(a & ka & pa & Ha & Hk)|Hmiss].
      * left. exists (S a), ka, pa. split; assumption.
      * right. intros kb pb Hin. apply elem_of_cons in Hin as [Heq|Hin].
        -- injection Heq as -> ->. exact Hk0.
        -- apply (Hmiss kb pb Hin).
Qed.

Lemma entries_of_none (E : py_env) (k : value * Z) (i : nat) (ts : list dict) :
  (forall t k' dt, t ∈ ts -> ConfigApp.group_entry E t = Some (k', dt) ->
     ConfigApp.key_eqb k' k = false) ->
  entries_of E k i ts = [].
Proof.
  revert i. induction ts as [|t ts IH]; intros i H; simpl; [reflexivity|].
  rewrite IH by (intros t' k' dt Hin; apply H; right; exact Hin).
  destruct (ConfigApp.group_entry E t) as [[k' dt]|] eqn:Ht; [|reflexivity].
  rewrite (H t k' dt) by (left || exact Ht). reflexivity.
Qed.

Lemma grouped_ok_step (E : py_env) (pre : list dict) (G : groups) (t : dict) :
  grouped_ok E pre G ->
  grouped_ok E (pre ++ [t])
    match ConfigApp.group_entry E t with
    | Some (k, dt) => group_add ConfigApp.key_eqb k (dt, length pre) G
    | None => G
    end.
Proof.
  intros [Hd He Hp].
  destruct (ConfigApp.group_entry E t) as [[k dt]|] eqn:Ht.
  - destruct (find_group k G) as [(a & ka & pa & Ha & Hk)|Hmiss].
    + assert (Huniq : forall b kb pb, G !! b = Some (kb, pb) ->
                ConfigApp.key_eqb k kb = true -> a = b).
      { intros b kb pb Hb Hkb. apply (Hd a b ka pa kb pb Ha Hb).
        rewrite <- (key_eqb_trans_l k ka kb Hk). exact Hkb. }
      rewrite (group_add_hit k (dt, length pre) G a ka pa Ha Hk Huniq).
      assert (Hlook : forall b kb pb,
                <[a := (ka, pa ++ [(dt, length pre)])]> G !! b = Some (kb, pb) ->
                exists pb0, G !! b = Some (kb, pb0)
                  /\ pb = if decide (a = b) then pb0 ++ [(dt, length pre)] else pb0).
      { intros b kb pb Hb. destruct (decide (a = b)) as [<-|Hne].
        - rewrite list_lookup_insert_eq in Hb by (eapply lookup_lt_Some; exact Ha).
          injection Hb as <- <-. exists pa. split; [exact Ha|reflexivity].
        - rewrite list_lookup_insert_ne in Hb by exact Hne.
          exists pb. split; [exact Hb|reflexivity]. }
      split.
      * intros x y kx px ky py Hx Hy Hxy.
        apply Hlook in Hx as (px0 & Hx & _). apply Hlook in Hy as (py0 & Hy & _).
        apply (Hd x y kx px0 ky py0 Hx Hy Hxy).
      * intros k2 ps2 Hin. apply list_elem_of_lookup in Hin as [b Hb].
        apply Hlook in Hb as (pb0 & Hb & ->).
        rewrite entries_of_app. simpl. rewrite Ht, ?Nat.add_0_l.
        rewrite <- (He k2 pb0) by (apply list_elem_of_lookup; exists b; exact Hb).
        destruct (decide (a = b)) as [<-|Hne].
        -- rewrite Ha in Hb. injection Hb as <- <-. rewrite Hk. reflexivity.
        -- destruct (ConfigApp.key_eqb k k2) eqn:Hk2.
           ++ exfalso. apply Hne. apply (Huniq b k2 pb0 Hb Hk2).
           ++ rewrite app_nil_r. reflexivity.
      * intros t' k' dt' Hin Ht'. apply elem_of_app in Hin as [Hin|Hin].
        -- destruct (Hp t' k' dt' Hin Ht') as (k2 & ps2 & Hin2 & Hk2).
           apply list_elem_of_lookup in Hin2 as [b Hb].
           destruct (decide (a = b)) as [<-|Hne].
           ++ rewrite Ha in Hb. injection Hb as <- <-.
              exists ka, (pa ++ [(dt, length pre)]). split; [|exact Hk2].
              apply list_elem_of_lookup. exists a.
              apply list_lookup_insert_eq. eapply lookup_lt_Some. exact Ha.
           ++ exists k2, ps2. split; [|exact Hk2].
              apply list_elem_of_lookup. exists b.
              rewrite list_lookup_insert_ne by exact Hne. exact Hb.
        -- apply list_elem_of_singleton in Hin. subst t'.
           rewrite Ht in Ht'. injection Ht' as <- <-.
           exists ka, (pa ++ [(dt, length pre)]). split; [|exact Hk].
           apply list_elem_of_lookup. exists a.
           apply list_lookup_insert_eq. eapply lookup_lt_Some. exact Ha.
    + rewrite (group_add_miss k (dt, length pre) G Hmiss).
      split.
      * intros x y kx px ky py Hx Hy Hxy.
        destruct (decide (x < length G)%nat) as [Hxl|Hxl],
                 (decide (y < length G)%nat) as [Hyl|Hyl].
        -- rewrite lookup_app_l in Hx, Hy by assumption.
           apply (Hd x y kx px ky py Hx Hy Hxy).
        -- exfalso. rewrite lookup_app_l in Hx by assumption.
           rewrite lookup_app_r in Hy by lia.
           destruct (y - length G)%nat; [|discriminate].
           injection Hy as <- <-.
           rewrite key_eqb_sym in Hxy.
           rewrite (Hmiss kx px) in Hxy; [discriminate|].
           apply list_elem_of_lookup. exists x. exact Hx.
        -- exfalso. rewrite lookup_app_l in Hy by assumption.
           rewrite lookup_app_r in Hx by lia.
           destruct (x - length G)%nat; [|discriminate].
           injection Hx as <- <-.
           rewrite (Hmiss ky py) in Hxy; [discriminate|].
           apply list_elem_of_lookup. exists y. exact Hy.
        -- rewrite lookup_app_r in Hx, Hy by lia.
           destruct (x - length G)%nat eqn:Ex; [|discriminate].
           destruct (y - length G)%nat eqn:Ey; [|discriminate]. lia.
      * intros k2 ps2 Hin. rewrite entries_of_app. simpl. rewrite Ht, ?Nat.add_0_l.
        apply elem_of_app in Hin as [Hin|Hin].
        -- rewrite <- (He k2 ps2 Hin). rewrite (Hmiss k2 ps2 Hin).
           rewrite app_nil_r. reflexivity.
        -- apply list_elem_of_singleton in Hin. injection Hin as -> ->.
           rewrite key_eqb_refl. rewrite entries_of_none; [reflexivity|].
           intros t' k' dt' Hin' Ht'.
           destruct (Hp t' k' dt' Hin' Ht') as (k2 & ps2 & Hin2 & Hk2).
           destruct (ConfigApp.key_eqb k' k) eqn:Hk'; [|reflexivity].
           rewrite <- (Hmiss k2 ps2 Hin2).
           rewrite <- Hk2. symmetry. apply key_eqb_trans_l.
           rewrite key_eqb_sym. exact Hk'.
      * intros t' k' dt' Hin Ht'. apply elem_of_app in Hin as [Hin|Hin].
        -- destruct (Hp t' k' dt' Hin Ht') as (k2 & ps2 & Hin2 & Hk2).
           exists k2, ps2. split; [|exact Hk2]. apply elem_of_app. left. exact Hin2.
        -- apply list_elem_of_singleton in Hin. subst t'.
           rewrite Ht in Ht'. injection Ht' as <- <-.
           exists k, [(dt, length pre)]. split; [|apply key_eqb_refl].
           apply elem_of_app. right. left.
  - split.
    + exact Hd.
    + intros k ps Hin. rewrite entries_of_app. simpl. rewrite Ht, app_nil_r.
      apply He. exact Hin.
    + intros t' k' dt' Hin Ht'. apply elem_of_app in Hin as [Hin|Hin].
      * apply (Hp t' k' dt' Hin Ht').
      * apply list_elem_of_singleton in Hin. subst t'. congruence.
Qed.

Lemma group_punches_ok (E : py_env) (rest pre : list dict) (G : groups) :
  grouped_ok E pre G ->
  grouped_ok E (pre ++ rest) (ConfigApp.group_punches E (length pre) rest G).
Proof.
  revert pre G. induction rest as [|t rest IH]; intros pre G Hok; simpl.
  - rewrite app_nil_r. exact Hok.
  - replace (pre ++ t :: rest) with ((pre ++ [t]) ++ rest)
      by (rewrite <- app_assoc; reflexivity).
    replace (S (length pre)) with (length (pre ++ [t]))
      by (rewrite length_app; simpl; lia).
    apply IH. apply grouped_ok_step. exact Hok.
Qed.

Lemma groups_of_ok (E : py_env) (ts : list dict) : grouped_ok E ts (groups_of E ts).
Proof.
  apply (group_punches_ok E ts [] []). split.
  - intros a b ka pa kb pb Ha. discriminate.
  - intros k ps Hin. apply elem_of_nil in Hin. contradiction.
  - intros t k dt Hin. apply elem_of_nil in Hin. contradiction.
Qed.

(** ** What the pass leaves untouched *)

Lemma map_alter_same {A B : Type} (g : A -> B) (f : A -> A) (i : nat) (l : list A) :
  (forall x, g (f x) = g x) -> map g (alter f i l) = map g l.
Proof.
  intros H. revert i. induction l as [|x l IH]; intros [|i]; simpl; [reflexivity..| |].
  - rewrite H. reflexivity.
  - change (map g (alter f i l)) with (map g (alter f i l)). f_equal. apply IH.
Qed.

Section Preserved.
Context {B : Type} (g : dict -> B).
Hypothesis g_mark : forall l t, g (ConfigApp.mark l t) = g t.

Lemma set_unless_labelled_preserves (l : label) (i : nat) (ts : list dict) :
  map g (ConfigApp.set_unless_labelled l i ts) = map g ts.
Proof.
  apply map_alter_same. intros t.
  destruct (ConfigApp.existing_label t); [reflexivity|apply g_mark].
Qed.

Lemma alternate_middle_preserves (mids : list nat) (prev : label) (ts : list dict) :
  map g (ConfigApp.alternate_middle prev mids ts) = map g ts.
Proof.
  revert prev ts. induction mids as [|i rest IH]; intros prev ts; simpl; [reflexivity|].
  destruct (ts !! i) as [current|]; [|apply IH].
  destruct (ConfigApp.existing_label current); rewrite IH; [reflexivity|].
  apply map_alter_same. intros t. apply g_mark.
Qed.

Lemma process_group_preserves (ps : list (datetime * nat)) (ts : list dict) :
  map g (ConfigApp.process_group ps ts) = map g ts.
Proof.
  unfold ConfigApp.process_group.
  destruct (map snd (sort_by fst ps)) as [|first [|r rest]]; [reflexivity|..].
  - apply set_unless_labelled_preserves.
  - destruct (length (sort_by fst ps) =? 2)%nat;
      rewrite ?alternate_middle_preserves, !set_unless_labelled_preserves; reflexivity.
Qed.

Lemma process_groups_preserves (G : groups) (ts : list dict) :
  map g (process_groups G ts) = map g ts.
Proof.
  revert ts. induction G as [|gr G IH]; intros ts; [reflexivity|].
  unfold process_groups in *. simpl. rewrite IH. apply process_group_preserves.
Qed.

Lemma adjust_preserves (E : py_env) (ts : list dict) :
  map g (ConfigApp.adjust_checkin_sequence E ts) = map g ts.
Proof. rewrite adjust_is_process_groups. apply process_groups_preserves. Qed.
End Preserved.

(** ** The labels of a resolved group *)

Lemma alternating_from_snoc (l : label) (n : nat) :
  alternating_from l (S n)
  = alternating_from l n ++ [if Nat.even n then l else opposite l].
Proof.
  revert l. induction n as [|n IH]; intros l; [reflexivity|].
  change (alternating_from l (S (S n)))
    with (l :: alternating_from (opposite l) (S n)).
  rewrite IH. simpl alternating_from at 2.
  rewrite Nat.even_succ, <- Nat.negb_even.
  destruct (Nat.even n), l; reflexivity.
Qed.

Lemma existing_label_get (t : dict) (l : label) :
  ConfigApp.existing_label t = Some l -> get "log_type" t = label_value l.
Proof.
  unfold ConfigApp.existing_label, get.
  destruct (dict_get "log_type" t) as [v|]; [|discriminate].
  destruct v as [|b|z|s|d]; simpl; try discriminate.
  destruct (String.eqb s "IN") eqn:E1.
  - apply String.eqb_eq in E1. subst s. intros [= <-]. reflexivity.
  - destruct (String.eqb s "OUT") eqn:E2; [|discriminate].
    apply String.eqb_eq in E2. subst s. intros [= <-]. reflexivity.
Qed.

Lemma get_keep_or (l : label) (t : dict) :
  get "log_type" (keep_or l t) = label_or l t.
Proof.
  unfold keep_or, label_or.
  destruct (ConfigApp.existing_label t) as [l'|] eqn:H.
  - apply existing_label_get. exact H.
  - apply get_log_type_mark.
Qed.

Lemma labels_resolve_middle (prev : label) (ds : list dict) :
  Forall (fun t => ConfigApp.existing_label t = None) ds ->
  labels (resolve_middle prev ds)
  = map label_value (alternating_from (opposite prev) (length ds)).
Proof.
  revert prev. induction ds as [|d ds IH]; intros prev H; [reflexivity|].
  apply Forall_cons in H as [Hd H].
  simpl. rewrite Hd. simpl. rewrite get_log_type_mark.
  unfold labels in IH. rewrite IH by exact H. reflexivity.
Qed.

Lemma labels_resolve_group (ds : list dict) :
  (2 <= length ds)%nat ->
  Forall (fun t => ConfigApp.existing_label t = None) ds ->
  labels (resolve_group ds)
  = map label_value (alternating_from IN (length ds - 1) ++ [OUT]).
Proof.
  intros Hlen H.
  destruct ds as [|d [|e rest]]; simpl in Hlen; try lia.
  destruct (exists_last (l := e :: rest)) as [mids [z Hz]]; [discriminate|].
  rewrite Hz in *. clear Hz e rest Hlen.
  rewrite resolve_group_snoc.
  apply Forall_cons in H as [Hd H]. apply Forall_app in H as [Hm Hz].
  apply Forall_cons in Hz as [Hz _].
  unfold labels. simpl. rewrite map_app. simpl.
  rewrite !get_keep_or. unfold label_or. rewrite Hd, Hz.
  fold (labels (resolve_middle IN mids)). rewrite labels_resolve_middle by exact Hm.
  rewrite length_app. simpl.
  replace (length mids + 1 - 0)%nat with (S (length mids)) by lia.
  simpl. rewrite map_app. reflexivity.
Qed.

Lemma gather_perm (idxs idxs' : list nat) (ts : list dict) :
  idxs ≡ₚ idxs' -> gather idxs ts ≡ₚ gather idxs' ts.
Proof.
  induction 1 as [|x l l' _ IH|x y l|l l' l'' _ IH1 _ IH2]; simpl.
  - reflexivity.
  - destruct (ts !! x); [constructor|]; exact IH.
  - destruct (ts !! x), (ts !! y); try reflexivity. apply Permutation_swap.
  - etransitivity; eassumption.
Qed.

(** ** A group on its own and inside a batch *)








Section GroupAlone.
Context (E : py_env) (k : value * Z).










End GroupAlone.

(** ** The Punch Normalizer *)

Lemma group_records_length (E : py_env) (ts : list dict) (k : value * Z)
    (ps : list (datetime * nat)) :
  (k, ps) ∈ groups_of E ts -> length (group_records ps ts) = length ps.
Proof.
  intros Hg. unfold group_records. rewrite gather_length.
  - unfold sorted_indices. rewrite length_map. apply sort_leb_length.
  - intros i Hi. apply (groups_of_bound E).
    eapply elem_of_all_indices; [exact Hg|].
    rewrite <- sorted_indices_perm. exact Hi.
Qed.

Lemma alternating_from_length (l : label) (n : nat) :
  length (alternating_from l n) = n.
Proof. revert l. induction n as [|n IH]; intros l; simpl; [|rewrite IH]; reflexivity. Qed.

(** C2 (as amended): in the app module, a group of [N >= 3] punches
    without valid labels gets, in chronological order, alternating labels
    IN, OUT, ... on its first [N-1] punches and OUT on the last one; the
    whole sequence alternates exactly when [N] is even. *)
Theorem app_unlabelled_group_labels (E : py_env) (ts : list dict)
    (k : value * Z) (ps : list (datetime * nat)) :
  (k, ps) ∈ groups_of E ts ->
  (3 <= length ps)%nat ->
  Forall unlabelled (group_records ps ts) ->
  let out := labels (group_records ps (ConfigApp.adjust_checkin_sequence E ts)) in
  out = map label_value (alternating_from IN (length ps - 1) ++ [OUT])
  /\ (Nat.even (length ps) = true ->
      out = map label_value (alternating_from IN (length ps)))
  /\ (Nat.even (length ps) = false ->
      out <> map label_value (alternating_from IN (length ps))).
Proof.
  intros Hg Hlen Hun out.
  assert (Hout : out = map label_value (alternating_from IN (length ps - 1) ++ [OUT])).
  { unfold out, group_records. rewrite (adjust_gather E ts k ps Hg).
    fold (group_records ps ts).
    rewrite labels_resolve_group; [|rewrite (group_records_length E ts k ps Hg); lia|exact Hun].
    rewrite (group_records_length E ts k ps Hg). reflexivity. }
  destruct (length ps) as [|n] eqn:En; [lia|].
  replace (S n - 1)%nat with n in Hout by lia.
  split; [replace (S n - 1)%nat with n by lia; exact Hout|].
  rewrite alternating_from_snoc. rewrite Nat.even_succ, <- Nat.negb_even.
  split; intros Hev; rewrite Hout.
  - apply negb_true_iff in Hev. rewrite Hev. reflexivity.
  - apply negb_false_iff in Hev. rewrite Hev.
    rewrite !map_app. simpl. intros Heq. apply app_inj_tail in Heq as [_ Heq].
    discriminate.
Qed.

(** C2, counterexample: three unlabelled punches of one day come out as
    IN, OUT, OUT, which does not alternate. *)
Lemma app_three_punches_do_not_alternate :
  labels (ConfigApp.adjust_checkin_sequence iso_env day3)
  = [VStr "IN"; VStr "OUT"; VStr "OUT"]
  /\ labels (ConfigApp.adjust_checkin_sequence iso_env day3)
     <> map label_value (alternating_from IN 3).
Proof. split; [vm_compute; reflexivity|vm_compute; discriminate]. Qed.

(** C3 (as amended): in the app module, in a group of exactly two punches
    each punch that already carries IN or OUT keeps it; otherwise the
    earlier punch gets IN and the later one OUT. *)
Theorem app_pair_labels (E : py_env) (ts : list dict)
    (k : value * Z) (ps : list (datetime * nat)) :
  (k, ps) ∈ groups_of E ts ->
  length ps = 2%nat ->
  exists d0 d1,
    group_records ps ts = [d0; d1]
    /\ labels (group_records ps (ConfigApp.adjust_checkin_sequence E ts))
       = [label_or IN d0; label_or OUT d1]
    /\ (unlabelled d0 -> unlabelled d1 ->
        labels (group_records ps (ConfigApp.adjust_checkin_sequence E ts))
        = [VStr "IN"; VStr "OUT"]).
Proof.
  intros Hg Hlen.
  pose proof (group_records_length E ts k ps Hg) as Hl. rewrite Hlen in Hl.
  destruct (group_records ps ts) as [|d0 [|d1 [|d2 r]]] eqn:Hr; try discriminate.
  exists d0, d1. split; [reflexivity|].
  assert (Hout : labels (group_records ps (ConfigApp.adjust_checkin_sequence E ts))
                 = [label_or IN d0; label_or OUT d1]).
  { unfold group_records in *. rewrite (adjust_gather E ts k ps Hg), Hr.
    unfold labels. simpl. rewrite !get_keep_or. reflexivity. }
  split; [exact Hout|].
  intros H0 H1. rewrite Hout. unfold label_or. rewrite H0, H1. reflexivity.
Qed.

(** C3, counterexample: two punches already labelled OUT and IN keep
    their labels. *)
Lemma app_labelled_pair_kept :
  labels (ConfigApp.adjust_checkin_sequence iso_env labelled_pair)
  = [VStr "OUT"; VStr "IN"]
  /\ labels (ConfigApp.adjust_checkin_sequence iso_env labelled_pair)
     <> [VStr "IN"; VStr "OUT"].
Proof. split; [vm_compute; reflexivity|vm_compute; discriminate]. Qed.





(** C5 (as amended): the app module returns the list it was given, each
    record in its place, with no field touched but [log_type] and
    [_sequence_adjusted]. *)
Theorem app_adjust_keeps_input_order (E : py_env) (ts : list dict) :
  length (ConfigApp.adjust_checkin_sequence E ts) = length ts
  /\ map other_fields (ConfigApp.adjust_checkin_sequence E ts) = map other_fields ts.
Proof.
  split; [apply adjust_length|].
  apply adjust_preserves. apply other_fields_mark.
Qed.

(** C5, counterexample: the copy at the top of the repository returns the
    punches sorted by time, the second input record first. *)
Lemma top_adjust_sorts_by_time :
  option_map (map (get "id")) (ConfigTop.adjust_checkin_sequence late_first)
  = Some [VInt 2; VInt 1]
  /\ map (get "id") late_first = [VInt 1; VInt 2].
Proof. split; vm_compute; reflexivity. Qed.

(** ** The repair passes *)

(** *** The loops compute the mismatches of the audit *)

Lemma mismatches_cons_app (updates : list (string * string)) (c : fix_entry)
    (k : string) (a : list (fix_entry * string)) :
  updates ++ mismatches ((c, k) :: a)
  = (if negb (String.eqb (fe_current c) k) then updates ++ [(fe_name c, k)] else updates)
    ++ mismatches a.
Proof.
  unfold mismatches. simpl.
  destruct (String.eqb (fe_current c) k); simpl; [reflexivity|].
  rewrite <- app_assoc. reflexivity.
Qed.

Lemma app_label_loop_audit (len : nat) (daily : list fix_entry) (idx : nat)
    (prev : option fix_entry) (updates : list (string * string)) :
  ConfigApp.label_loop len idx prev daily updates
  = updates ++ mismatches (audit_from len idx (prev_label prev) daily).
Proof.
  revert idx prev updates.
  induction daily as [|c rest IH]; intros idx prev updates.
  - simpl. rewrite app_nil_r. reflexivity.
  - cbn [ConfigApp.label_loop audit_from]. fold (prev_label prev).
    rewrite IH. rewrite mismatches_cons_app. reflexivity.
Qed.

Lemma app_group_loop_audit (grouped : list ((string * Z) * list fix_entry))
    (updates : list (string * string)) :
  ConfigApp.group_loop grouped updates
  = updates ++ mismatches (concat (map (fun g => audit_day (snd g)) grouped)).
Proof.
  revert updates. induction grouped as [|[k daily] rest IH]; intros updates.
  - simpl. rewrite app_nil_r. reflexivity.
  - cbn [ConfigApp.group_loop]. rewrite IH, app_label_loop_audit.
    simpl. unfold mismatches at 3. rewrite List.filter_app, map_app.
    rewrite <- app_assoc. reflexivity.
Qed.

Lemma app_compute_updates_audit (store : list checkin) :
  ConfigApp.compute_updates store
  = mismatches (audit (get_all_checkins
                         (fun r => contains ":4370" (ck_device_id r)) store)).
Proof.
  unfold ConfigApp.compute_updates, audit.
  destruct (get_all_checkins _ store) as [|c rest]; [reflexivity|].
  rewrite app_group_loop_audit. reflexivity.
Qed.

Lemma already_correct_cons (c : fix_entry) (k : string) (a : list (fix_entry * string)) :
  already_correct ((c, k) :: a)
  = ((if String.eqb (fe_current c) k then 1 else 0) + already_correct a)%nat.
Proof.
  unfold already_correct. simpl. destruct (String.eqb (fe_current c) k); reflexivity.
Qed.

Lemma script_label_loop_audit (len : nat) (daily : list fix_entry) (idx : nat)
    (prev : option fix_entry) (updates : list (string * string)) (n : nat) :
  FixScript.label_loop len idx prev daily updates n
  = (updates ++ mismatches (audit_from len idx (script_prev_label prev) daily),
     (n + already_correct (audit_from len idx (script_prev_label prev) daily))%nat).
Proof.
  revert idx prev updates n.
  induction daily as [|c rest IH]; intros idx prev updates n.
  - simpl. rewrite app_nil_r, Nat.add_0_r. reflexivity.
  - cbn [FixScript.label_loop audit_from]. fold (script_prev_label prev).
    set (correct := if (idx =? 0)%nat then "IN"
                    else if (idx =? len - 1)%nat then "OUT"
                    else if String.eqb (script_prev_label prev) "IN" then "OUT" else "IN").
    assert (Hprev : script_prev_label (Some (with_correct correct c)) = correct).
    { unfold correct. destruct (idx =? 0)%nat; [reflexivity|].
      destruct (idx =? len - 1)%nat; [reflexivity|].
      destruct (String.eqb (script_prev_label prev) "IN"); reflexivity. }
    rewrite mismatches_cons_app, already_correct_cons.
    destruct (String.eqb (fe_current c) correct) eqn:Hc; simpl negb; cbv iota;
      rewrite IH, Hprev; f_equal; lia.
Qed.

Lemma script_group_loop_audit (grouped : list ((string * Z) * list fix_entry))
    (updates : list (string * string)) (n : nat) :
  FixScript.group_loop grouped updates n
  = (updates ++ mismatches (concat (map (fun g => audit_day (snd g)) grouped)),
     (n + already_correct (concat (map (fun g => audit_day (snd g)) grouped)))%nat).
Proof.
  revert updates n. induction grouped as [|[k daily] rest IH]; intros updates n.
  - simpl. rewrite app_nil_r, Nat.add_0_r. reflexivity.
  - cbn [FixScript.group_loop map concat snd].
    assert (Hsplit : forall a b : list (fix_entry * string),
               mismatches (a ++ b) = mismatches a ++ mismatches b
               /\ already_correct (a ++ b) = (already_correct a + already_correct b)%nat).
    { intros a b. unfold mismatches, already_correct.
      rewrite !List.filter_app, map_app, length_app. split; reflexivity. }
    destruct (Hsplit (audit_day daily)
                (concat (map (fun g => audit_day (snd g)) rest))) as [-> ->].
    unfold audit_day at 1 3.
    destruct (sort_by fe_time daily) as [|only [|second more]] eqn:Hs.
    + rewrite script_label_loop_audit, IH. simpl.
      rewrite ?app_nil_r, ?Nat.add_0_r. reflexivity.
    + unfold mismatches at 1, already_correct at 1. simpl.
      destruct (String.eqb (fe_current only) "IN"); simpl; rewrite IH.
      * f_equal. lia.
      * rewrite <- app_assoc. reflexivity.
    + rewrite script_label_loop_audit, IH.
      rewrite <- app_assoc. change (script_prev_label None) with "".
      rewrite Nat.add_assoc. reflexivity.
Qed.

Lemma script_analyse_audit (store : list checkin) :
  FixScript.analyse store
  = (mismatches (audit (get_all_checkins FixScript.filters store)),
     already_correct (audit (get_all_checkins FixScript.filters store))).
Proof.
  unfold FixScript.analyse, audit.
  destruct (get_all_checkins FixScript.filters store) as [|c rest]; [reflexivity|].
  rewrite script_group_loop_audit. reflexivity.
Qed.

(** *** Applying the updates relabels the rows *)

Lemma relabel_row_nil (r : checkin) : relabel_row [] r = r.
Proof. destruct r. reflexivity. Qed.

Lemma set_log_type_relabel (n l : string) (store : list checkin) :
  set_log_type n l store = map (relabel_row [(n, l)]) store.
Proof.
  unfold set_log_type. apply map_ext. intros r.
  unfold relabel_row, relabel. simpl.
  destruct (String.eqb (ck_name r) n); [reflexivity|destruct r; reflexivity].
Qed.

Lemma relabel_row_cons (u : string * string) (U : list (string * string)) (r : checkin) :
  relabel_row (u :: U) r = relabel_row U (relabel_row [u] r).
Proof. reflexivity. Qed.

Lemma apply_updates_relabel (U : list (string * string)) (store : list checkin) :
  fold_left (fun st u => set_log_type (fst u) (snd u) st) U store
  = map (relabel_row U) store.
Proof.
  revert store. induction U as [|[n l] U IH]; intros store; simpl.
  - rewrite (map_ext _ id) by apply relabel_row_nil. rewrite map_id. reflexivity.
  - rewrite IH, set_log_type_relabel, map_map. reflexivity.
Qed.

(** *** The audit does not look at the labels *)

Lemma filter_map_same {A : Type} (P : A -> bool) (f : A -> A) (l : list A) :
  (forall x, P (f x) = P x) -> List.filter P (map f l) = map f (List.filter P l).
Proof.
  intros H. induction l as [|x l IH]; [reflexivity|].
  simpl. rewrite H. destruct (P x); simpl; rewrite IH; reflexivity.
Qed.

Section Relabelled.
Context (U : list (string * string)).

Lemma get_all_checkins_relabel (P : checkin -> bool) (store : list checkin) :
  (forall r, P (relabel_row U r) = P r) ->
  get_all_checkins P (map (relabel_row U) store)
  = map (relabel_row U) (get_all_checkins P store).
Proof.
  intros HP. unfold get_all_checkins.
  rewrite filter_map_same by exact HP.
  apply sort_leb_map. reflexivity.
Qed.

Lemma group_add_relabel (k : string * Z) (e : fix_entry)
    (G : list ((string * Z) * list fix_entry)) :
  group_add day_key_eqb k (relabel_entry U e) (relabel_groups U G)
  = relabel_groups U (group_add day_key_eqb k e G).
Proof.
  induction G as [|[k' es] G IH]; [reflexivity|].
  change (relabel_groups U ((k', es) :: G))
    with ((k', map (relabel_entry U) es) :: relabel_groups U G).
  cbn [group_add]. destruct (day_key_eqb k k').
  - unfold relabel_groups. simpl. rewrite map_app. reflexivity.
  - rewrite IH. reflexivity.
Qed.

Lemma group_checkins_relabel (rows : list checkin)
    (G : list ((string * Z) * list fix_entry)) :
  group_checkins (map (relabel_row U) rows) (relabel_groups U G)
  = relabel_groups U (group_checkins rows G).
Proof.
  revert G. induction rows as [|c rows IH]; intros G; [reflexivity|].
  simpl. rewrite <- IH. f_equal.
  apply (group_add_relabel _ (entry_of c)).
Qed.

Lemma audit_from_relabel (len : nat) (daily : list fix_entry) (idx : nat) (prev : string) :
  audit_from len idx prev (map (relabel_entry U) daily)
  = map (fun ck => (relabel_entry U (fst ck), snd ck)) (audit_from len idx prev daily).
Proof.
  revert idx prev. induction daily as [|c rest IH]; intros idx prev; [reflexivity|].
  simpl. rewrite IH. reflexivity.
Qed.

Lemma audit_day_relabel (daily : list fix_entry) :
  audit_day (map (relabel_entry U) daily)
  = map (fun ck => (relabel_entry U (fst ck), snd ck)) (audit_day daily).
Proof.
  unfold audit_day, sort_by.
  rewrite (sort_leb_map (fun x y => fe_time x <=? fe_time y)
             (fun x y => fe_time x <=? fe_time y) (relabel_entry U))
    by reflexivity.
  rewrite length_map. apply audit_from_relabel.
Qed.

Lemma audit_relabel (rows : list checkin) :
  audit (map (relabel_row U) rows)
  = map (fun ck => (relabel_entry U (fst ck), snd ck)) (audit rows).
Proof.
  unfold audit.
  change (@nil ((string * Z) * list fix_entry)) with (relabel_groups U []) at 1.
  rewrite group_checkins_relabel. unfold relabel_groups.
  rewrite map_map. simpl.
  induction (group_checkins rows []) as [|g G IH]; [reflexivity|].
  simpl. rewrite map_app, audit_day_relabel, IH. reflexivity.
Qed.
End Relabelled.

(** *** After the updates every label is the correct one *)

Lemma relabel_absent (U : list (string * string)) (n cur : string) :
  n ∉ map fst U -> relabel U n cur = cur.
Proof.
  revert cur. induction U as [|[m l] U IH]; intros cur Hn; [reflexivity|].
  simpl in *. apply not_elem_of_cons in Hn as [Hnm Hn].
  unfold relabel. simpl.
  destruct (String.eqb n m) eqn:E; [apply String.eqb_eq in E; contradiction|].
  apply IH. exact Hn.
Qed.

Lemma mismatches_names (a : list (fix_entry * string)) (n : string) :
  n ∈ map fst (mismatches a) -> n ∈ map (fun ck => fe_name (fst ck)) a.
Proof.
  unfold mismatches. rewrite map_map. simpl.
  intros H. apply list_elem_of_In, in_map_iff in H as (ck & <- & Hin).
  apply filter_In in Hin as [Hin _].
  apply list_elem_of_In, in_map_iff. exists ck. split; [reflexivity|exact Hin].
Qed.

Lemma relabel_mismatches (a : list (fix_entry * string)) (c : fix_entry) (k : string) :
  NoDup (map (fun ck => fe_name (fst ck)) a) ->
  (c, k) ∈ a ->
  relabel (mismatches a) (fe_name c) (fe_current c) = k.
Proof.
  induction a as [|[c0 k0] a IH]; intros Hnd Hin.
  - apply elem_of_nil in Hin. contradiction.
  - simpl in Hnd. apply NoDup_cons in Hnd as [Hc0 Hnd].
    assert (Hstep : forall cur,
              relabel (mismatches ((c0, k0) :: a)) (fe_name c) cur
              = relabel (mismatches a) (fe_name c)
                  (if negb (String.eqb (fe_current c0) k0) && String.eqb (fe_name c) (fe_name c0)
                   then k0 else cur)).
    { intros cur. unfold mismatches. simpl.
      destruct (String.eqb (fe_current c0) k0); simpl; [reflexivity|].
      unfold relabel. simpl. reflexivity. }
    rewrite Hstep. apply elem_of_cons in Hin as [Heq|Hin].
    + injection Heq as -> ->. rewrite String.eqb_refl, andb_true_r.
      rewrite relabel_absent.
      * destruct (String.eqb (fe_current c0) k0) eqn:E; simpl; [|reflexivity].
        apply String.eqb_eq in E. exact E.
      * intros Hn. apply Hc0. apply mismatches_names. exact Hn.
    + destruct (String.eqb (fe_name c) (fe_name c0)) eqn:E.
      * exfalso. apply String.eqb_eq in E. apply Hc0. rewrite <- E.
        apply list_elem_of_In, in_map_iff. exists (c, k).
        split; [reflexivity|apply list_elem_of_In; exact Hin].
      * rewrite andb_false_r. apply IH; assumption.
Qed.

Lemma all_correct (b : list (fix_entry * string)) :
  (forall ck, ck ∈ b -> fe_current (fst ck) = snd ck) ->
  mismatches b = [] /\ already_correct b = length b.
Proof.
  unfold mismatches, already_correct.
  induction b as [|ck b IH]; intros H; [split; reflexivity|].
  assert (Hck : String.eqb (fe_current (fst ck)) (snd ck) = true)
    by (apply String.eqb_eq, H; left).
  destruct IH as [IH1 IH2]; [intros x Hx; apply H; right; exact Hx|].
  cbn [List.filter]. rewrite Hck. simpl. split; [exact IH1|f_equal; exact IH2].
Qed.

Lemma mismatches_after_updates (a : list (fix_entry * string)) :
  NoDup (map (fun ck => fe_name (fst ck)) a) ->
  mismatches (map (fun ck => (relabel_entry (mismatches a) (fst ck), snd ck)) a) = []
  /\ already_correct (map (fun ck => (relabel_entry (mismatches a) (fst ck), snd ck)) a)
     = length a.
Proof.
  intros Hnd.
  rewrite <- (length_map (fun ck => (relabel_entry (mismatches a) (fst ck), snd ck)) a).
  apply all_correct. intros ck Hin.
  apply list_elem_of_In, in_map_iff in Hin as ([c k] & <- & Hin).
  simpl. apply relabel_mismatches; [exact Hnd|apply list_elem_of_In; exact Hin].
Qed.

(** *** The audit examines every row once *)

Lemma audit_from_fst (len : nat) (daily : list fix_entry) (idx : nat) (prev : string) :
  map fst (audit_from len idx prev daily) = daily.
Proof.
  revert idx prev. induction daily as [|c rest IH]; intros idx prev; [reflexivity|].
  simpl. rewrite IH. reflexivity.
Qed.

Lemma audit_day_perm (daily : list fix_entry) : map fst (audit_day daily) ≡ₚ daily.
Proof.
  unfold audit_day. rewrite audit_from_fst. unfold sort_by. apply sort_leb_perm.
Qed.

Lemma group_add_entries (k : string * Z) (e : fix_entry)
    (G : list ((string * Z) * list fix_entry)) :
  concat (map snd (group_add day_key_eqb k e G)) ≡ₚ e :: concat (map snd G).
Proof.
  induction G as [|[k' es] G IH]; simpl; [reflexivity|].
  destruct (day_key_eqb k k'); simpl.
  - rewrite <- app_assoc. simpl. rewrite <- Permutation_middle. reflexivity.
  - rewrite IH. rewrite <- Permutation_middle. reflexivity.
Qed.

Lemma group_checkins_entries (rows : list checkin)
    (G : list ((string * Z) * list fix_entry)) :
  concat (map snd (group_checkins rows G)) ≡ₚ concat (map snd G) ++ map entry_of rows.
Proof.
  revert G. induction rows as [|c rows IH]; intros G; simpl.
  - rewrite app_nil_r. reflexivity.
  - rewrite IH. rewrite (group_add_entries _ (entry_of c)).
    simpl. rewrite <- Permutation_middle. reflexivity.
Qed.

Lemma audit_perm (rows : list checkin) :
  map fst (audit rows) ≡ₚ map entry_of rows.
Proof.
  unfold audit. rewrite <- (group_checkins_entries rows []).
  induction (group_checkins rows []) as [|g G IH]; simpl; [reflexivity|].
  rewrite map_app, audit_day_perm, IH. reflexivity.
Qed.

Lemma audit_length (rows : list checkin) : length (audit rows) = length rows.
Proof.
  rewrite <- (length_map fst (audit rows)).
  rewrite (Permutation_length (audit_perm rows)). apply length_map.
Qed.

Lemma NoDup_map_filter {A B : Type} (f : A -> B) (P : A -> bool) (l : list A) :
  NoDup (map f l) -> NoDup (map f (List.filter P l)).
Proof.
  induction l as [|x l IH]; intros H; [exact H|].
  simpl in H. apply NoDup_cons in H as [Hx H]. simpl.
  destruct (P x); [|apply IH; exact H].
  simpl. apply NoDup_cons. split; [|apply IH; exact H].
  intros Hin. apply Hx.
  apply list_elem_of_In, in_map_iff in Hin as (y & Hy & Hin).
  apply filter_In in Hin as [Hin _].
  apply list_elem_of_In, in_map_iff. exists y. split; assumption.
Qed.

Lemma audit_names_NoDup (P : checkin -> bool) (store : list checkin) :
  NoDup (map ck_name store) ->
  NoDup (map (fun ck => fe_name (fst ck)) (audit (get_all_checkins P store))).
Proof.
  intros H.
  rewrite <- (map_map fst fe_name).
  rewrite (Permutation_map fe_name (audit_perm (get_all_checkins P store))).
  rewrite map_map. simpl. unfold get_all_checkins.
  rewrite (Permutation_map ck_name (sort_leb_perm by_employee_time (List.filter P store))).
  apply NoDup_map_filter. exact H.
Qed.

(** A second audit after the updates of a first one finds every label
    correct. *)
Lemma audit_after_updates (P : checkin -> bool) (store : list checkin) :
  (forall U r, P (relabel_row U r) = P r) ->
  NoDup (map ck_name store) ->
  let U := mismatches (audit (get_all_checkins P store)) in
  let store1 := fold_left (fun st u => set_log_type (fst u) (snd u) st) U store in
  mismatches (audit (get_all_checkins P store1)) = []
  /\ already_correct (audit (get_all_checkins P store1))
     = length (get_all_checkins P store1).
Proof.
  intros HP Hnd U store1. unfold store1.
  rewrite apply_updates_relabel.
  rewrite get_all_checkins_relabel by apply HP.
  rewrite audit_relabel, length_map, <- audit_length.
  apply mismatches_after_updates. apply audit_names_NoDup. exact Hnd.
Qed.

(** C9: once a repair pass has been applied, a second pass computes no
    update and reports every examined record as already correct; this
    holds for [fix_existing_checkins] and for the script [fix_all_checkins]. *)
Theorem repair_pass_idempotent (store : list checkin) :
  NoDup (map ck_name store) ->
  (let store1 := snd (ConfigApp.fix_existing_checkins store) in
   ConfigApp.compute_updates store1 = []
   /\ ConfigApp.fix_existing_checkins store1 = (0%nat, store1))
  /\ (let store1 := snd (FixScript.fix_all_checkins false store) in
      forall dry_run,
        fst (FixScript.analyse store1) = []
        /\ FixScript.fix_all_checkins dry_run store1
           = (0%nat, length (get_all_checkins FixScript.filters store1), store1)).
Proof.
  intros Hnd. split.
  - assert (E1 : snd (ConfigApp.fix_existing_checkins store)
                 = fold_left (fun st u => set_log_type (fst u) (snd u) st)
                     (mismatches (audit (get_all_checkins
                        (fun r => contains ":4370" (ck_device_id r)) store))) store).
    { unfold ConfigApp.fix_existing_checkins, ConfigApp.apply_updates. cbn [snd].
      rewrite app_compute_updates_audit. reflexivity. }
    cbn zeta. rewrite E1.
    destruct (audit_after_updates (fun r => contains ":4370" (ck_device_id r)) store
                ltac:(reflexivity) Hnd) as [H _].
    cbn zeta in H.
    assert (Hc : ConfigApp.compute_updates
                   (fold_left (fun st u => set_log_type (fst u) (snd u) st)
                      (mismatches (audit (get_all_checkins
                         (fun r => contains ":4370" (ck_device_id r)) store))) store) = []).
    { rewrite app_compute_updates_audit. exact H. }
    split; [exact Hc|].
    unfold ConfigApp.fix_existing_checkins, ConfigApp.apply_updates. rewrite Hc. reflexivity.
  - assert (E1 : snd (FixScript.fix_all_checkins false store)
                 = fold_left (fun st u => set_log_type (fst u) (snd u) st)
                     (mismatches (audit (get_all_checkins FixScript.filters store))) store).
    { unfold FixScript.fix_all_checkins, FixScript.apply_updates.
      rewrite script_analyse_audit. reflexivity. }
    cbn zeta. rewrite E1. intros dry_run.
    destruct (audit_after_updates FixScript.filters store ltac:(reflexivity) Hnd) as [H1 H2].
    cbn zeta in H1, H2.
    unfold FixScript.fix_all_checkins. rewrite script_analyse_audit.
    rewrite H1, H2. cbn [fst]. split; [reflexivity|].
    destruct dry_run; reflexivity.
Qed.

(** ** The Upsert Gate *)

(** *** Characters of a string *)

Lemma py_len_append (a b : string) : py_len (a +:+ b) = (py_len a + py_len b)%nat.
Proof.
  induction a as [|c a IH]; [reflexivity|].
  change (py_len (String c (a +:+ b)) = (py_len (String c a) + py_len b)%nat).
  cbn [py_len]. destruct (is_continuation c); rewrite IH; reflexivity.
Qed.

Lemma py_take_append (n : nat) (p s : string) :
  (py_len p <= n)%nat ->
  py_take n (p +:+ s) = p +:+ py_take (n - py_len p) s.
Proof.
  revert n. induction p as [|c p IH]; intros n Hn.
  - cbn [py_len]. rewrite Nat.sub_0_r. reflexivity.
  - change (py_take n (String c (p +:+ s))
            = String c (p +:+ py_take (n - py_len (String c p)) s)).
    cbn [py_len py_take] in *. destruct (is_continuation c).
    + rewrite IH by exact Hn. reflexivity.
    + destruct n as [|n]; [lia|]. rewrite IH by lia. reflexivity.
Qed.

Lemma py_len_take (n : nat) (s : string) : (py_len (py_take n s) <= n)%nat.
Proof.
  revert n. induction s as [|c s IH]; intros n; cbn [py_take py_len]; [lia|].
  destruct (is_continuation c) eqn:Hc.
  - cbn [py_len]. rewrite Hc. apply IH.
  - destruct n as [|n]; cbn [py_len]; [lia|]. rewrite Hc. specialize (IH n). lia.
Qed.

Lemma py_or_truthy_r (a b : value) : truthy b = true -> truthy (py_or a b) = true.
Proof. intros H. unfold py_or. destruct (truthy a) eqn:E; [exact E|exact H]. Qed.

Lemma app_device_id_truthy (t : dict) : truthy (ConfigApp.device_id_of t) = true.
Proof.
  unfold ConfigApp.device_id_of.
  repeat apply py_or_truthy_r. reflexivity.
Qed.

Lemma app_transaction_id_truthy (t : dict) : truthy (ConfigApp.transaction_id_of t) = true.
Proof.
  unfold ConfigApp.transaction_id_of. repeat apply py_or_truthy_r. reflexivity.
Qed.

Lemma app_unique_device_id (t : dict) :
  ConfigApp.unique_device_id_of (ConfigApp.device_id_of t) (ConfigApp.transaction_id_of t)
  = VStr (py_str (ConfigApp.device_id_of t) +:+ " (ZKTeco-"
          +:+ py_str (ConfigApp.transaction_id_of t) +:+ ")").
Proof.
  unfold ConfigApp.unique_device_id_of.
  rewrite app_device_id_truthy, app_transaction_id_truthy. reflexivity.
Qed.

Lemma app_create_spec (F : site) (now current_time : datetime)
    (store : list checkin) (t : dict) :
  ConfigApp.create_employee_checkin F now current_time store t
  = match app_resolve F now current_time t with
    | None => (Return false, store)
    | Some (e, d) =>
        if existsb (ConfigApp.matches e (whole_seconds d) (ConfigApp.log_type_of t)
                      (ConfigApp.device_id_of t)) store
        then (Return true, store)
        else
          match insert F store (app_row F store e d t) with
          | Stored => (Return true, store ++ [app_row F store e d t])
          | DuplicateEntryError => (Raise "UnboundLocalError", store)
          | OtherError => (Return false, store)
          end
    end.
Proof.
  unfold ConfigApp.create_employee_checkin, app_resolve.
  destruct (ConfigApp.extract_punch_time (py F) ConfigApp.time_fields t) as [d| |];
    try reflexivity.
  destruct (negb (truthy (ConfigApp.emp_code_of t))); [reflexivity|].
  destruct (d >? now + days 1); [reflexivity|].
  destruct (now - d >? days 90); [reflexivity|].
  destruct (ConfigApp.find_employee_by_code F (ConfigApp.emp_code_of t)) as [e|];
    [|reflexivity].
  destruct (d >? current_time + minutes 5); [reflexivity|].
  destruct (d <? current_time - days max_past_days); [reflexivity|].
  rewrite app_unique_device_id. reflexivity.
Qed.

Lemma v2_create_spec (F : site) (current_time : datetime)
    (store : list checkin) (t : dict) (device_id : string) :
  ConfigApp.create_checkin_from_attendance_v2 F current_time store t device_id
  = match v2_resolve F current_time t with
    | None => (Return false, store)
    | Some (e, d) =>
        if existsb (v2_matches e d device_id t) store then (Return true, store)
        else
          match insert F store (v2_row F store e d device_id t) with
          | Stored => (Return true, store ++ [v2_row F store e d device_id t])
          | _ => (Return false, store)
          end
    end.
Proof.
  unfold ConfigApp.create_checkin_from_attendance_v2, v2_resolve.
  destruct (negb (truthy (get "emp_code" t))); [reflexivity|].
  destruct (ConfigApp.find_employee_by_code F (get "emp_code" t)) as [e|]; [|reflexivity].
  destruct (py_or (get "punch_time" t) (get "timestamp" t)) as [|b|z|s|d] eqn:Hp;
    try (destruct (negb (truthy _)); reflexivity).
  change (negb (truthy (VDatetime d))) with false. cbv iota.
  destruct (d >? current_time + minutes 5); [reflexivity|].
  destruct (d <? current_time - days max_past_days); [reflexivity|].
  destruct (existsb _ store); [reflexivity|].
  destruct (insert F store _); reflexivity.
Qed.

Lemma existsb_matches_row (P : checkin -> bool) (store : list checkin) :
  existsb P store = true -> exists row, row ∈ store /\ P row = true.
Proof.
  intros H. apply existsb_exists in H as (row & Hin & HP).
  exists row. split; [apply list_elem_of_In; exact Hin|exact HP].
Qed.

Lemma app_accepts (F : site) (now0 now : datetime) (store : list checkin)
    (t : dict) (e : string) (d : datetime) :
  (forall s r, insert F s r = Stored) ->
  app_resolve F now0 now t = Some (e, d) ->
  accepted e (whole_seconds d) (py_str (ConfigApp.log_type_of t))
    (ConfigApp.create_employee_checkin F now0 now store t).
Proof.
  intros Hins Hres. rewrite app_create_spec, Hres.
  destruct (existsb _ store) eqn:Hex.
  - exists store. split; [reflexivity|].
    apply existsb_matches_row in Hex as (row & Hin & Hm).
    exists row. split; [exact Hin|].
    unfold ConfigApp.matches in Hm.
    apply andb_true_iff in Hm as [Hm _]. apply andb_true_iff in Hm as [Hm H3].
    apply andb_true_iff in Hm as [H1 H2].
    apply String.eqb_eq in H1, H3. apply Z.eqb_eq in H2. auto.
  - rewrite Hins. eexists. split; [reflexivity|].
    exists (app_row F store e d t). split; [|auto].
    apply elem_of_app. right. left.
Qed.

Lemma v2_accepts (F : site) (now : datetime) (store : list checkin)
    (t : dict) (device_id e : string) (d : datetime) :
  (forall s r, insert F s r = Stored) ->
  v2_resolve F now t = Some (e, d) ->
  accepted e d (py_str (get_default "log_type" (VStr "IN") t))
    (ConfigApp.create_checkin_from_attendance_v2 F now store t device_id).
Proof.
  intros Hins Hres. rewrite v2_create_spec, Hres.
  destruct (existsb _ store) eqn:Hex.
  - exists store. split; [reflexivity|].
    apply existsb_matches_row in Hex as (row & Hin & Hm).
    exists row. split; [exact Hin|].
    unfold v2_matches in Hm.
    apply andb_true_iff in Hm as [Hm H4]. apply andb_true_iff in Hm as [Hm _].
    apply andb_true_iff in Hm as [H1 H2].
    apply String.eqb_eq in H1, H4. apply Z.eqb_eq in H2. auto.
  - rewrite Hins. eexists. split; [reflexivity|].
    exists (v2_row F store e d device_id t). split; [|auto].
    apply elem_of_app. right. left.
Qed.

Lemma app_resolve_window (F : site) (now0 now : datetime) (t : dict) (d : datetime) :
  ConfigApp.extract_punch_time (py F) ConfigApp.time_fields t = ConfigApp.Parsed d ->
  (now + minutes 5 < d \/ d < now - days 90) ->
  app_resolve F now0 now t = None.
Proof.
  intros Hd Hw. unfold app_resolve. rewrite Hd.
  destruct (negb _); [reflexivity|].
  destruct (d >? now0 + days 1); [reflexivity|].
  destruct (now0 - d >? days 90); [reflexivity|].
  destruct (ConfigApp.find_employee_by_code _ _); [|reflexivity].
  destruct (Z.gtb_spec d (now + minutes 5)); [reflexivity|].
  destruct (Z.ltb_spec d (now - days max_past_days)); [reflexivity|].
  unfold max_past_days in *. lia.
Qed.

Lemma app_resolve_inside (F : site) (now0 now : datetime) (t : dict)
    (d : datetime) (e : string) :
  ConfigApp.extract_punch_time (py F) ConfigApp.time_fields t = ConfigApp.Parsed d ->
  truthy (ConfigApp.emp_code_of t) = true ->
  ConfigApp.find_employee_by_code F (ConfigApp.emp_code_of t) = Some e ->
  now0 <= now <= now0 + days 1 - minutes 5 ->
  now - days 90 <= d <= now + minutes 5 ->
  app_resolve F now0 now t = Some (e, d).
Proof.
  intros Hd Hemp He Hclock Hw. unfold app_resolve. rewrite Hd, Hemp, He. simpl negb.
  cbv iota.
  destruct (Z.gtb_spec d (now0 + days 1)); [lia|].
  destruct (Z.gtb_spec (now0 - d) (days 90)); [lia|].
  destruct (Z.gtb_spec d (now + minutes 5)); [lia|].
  destruct (Z.ltb_spec d (now - days max_past_days)); [unfold max_past_days in *; lia|].
  reflexivity.
Qed.

Lemma v2_resolve_window (F : site) (now : datetime) (t : dict) (d : datetime) :
  py_or (get "punch_time" t) (get "timestamp" t) = VDatetime d ->
  (now + minutes 5 < d \/ d < now - days 90) ->
  v2_resolve F now t = None.
Proof.
  intros Hd Hw. unfold v2_resolve. rewrite Hd.
  destruct (negb _); [reflexivity|].
  destruct (ConfigApp.find_employee_by_code _ _); [|reflexivity].
  destruct (Z.gtb_spec d (now + minutes 5)); [reflexivity|].
  destruct (Z.ltb_spec d (now - days max_past_days)); [reflexivity|].
  unfold max_past_days in *. lia.
Qed.

Lemma v2_resolve_inside (F : site) (now : datetime) (t : dict)
    (d : datetime) (e : string) :
  py_or (get "punch_time" t) (get "timestamp" t) = VDatetime d ->
  truthy (get "emp_code" t) = true ->
  ConfigApp.find_employee_by_code F (get "emp_code" t) = Some e ->
  now - days 90 <= d <= now + minutes 5 ->
  v2_resolve F now t = Some (e, d).
Proof.
  intros Hd Hemp He Hw. unfold v2_resolve. rewrite Hd, Hemp, He. simpl negb. cbv iota.
  destruct (Z.gtb_spec d (now + minutes 5)); [lia|].
  destruct (Z.ltb_spec d (now - days max_past_days)); [unfold max_past_days in *; lia|].
  reflexivity.
Qed.

(** C6: a punch timed more than 5 minutes after the current time or more
    than 90 days before it is rejected and nothing is stored, whatever else
    holds, by [create_employee_checkin] and by
    [create_checkin_from_attendance_v2]; a punch inside the window that
    meets the other conditions is accepted.  In particular now + 6 minutes
    and now - 91 days are rejected, now + 4 minutes and now - 89 days are
    accepted. *)
Theorem time_window_gate (F : site) (now0 now : datetime) (store : list checkin)
    (t : dict) (device_id : string) (d : datetime) :
  (ConfigApp.extract_punch_time (py F) ConfigApp.time_fields t = ConfigApp.Parsed d ->
   let result := ConfigApp.create_employee_checkin F now0 now store t in
   (now + minutes 5 < d \/ d < now - days 90 -> rejected store result)
   /\ (d = now + minutes 6 -> rejected store result)
   /\ (d = now - days 91 -> rejected store result)
   /\ forall e,
        truthy (ConfigApp.emp_code_of t) = true ->
        ConfigApp.find_employee_by_code F (ConfigApp.emp_code_of t) = Some e ->
        (forall s r, insert F s r = Stored) ->
        now0 <= now <= now0 + days 1 - minutes 5 ->
        let ok := accepted e (whole_seconds d) (py_str (ConfigApp.log_type_of t)) result in
        (now - days 90 <= d <= now + minutes 5 -> ok)
        /\ (d = now + minutes 4 -> ok)
        /\ (d = now - days 89 -> ok))
  /\ (py_or (get "punch_time" t) (get "timestamp" t) = VDatetime d ->
      let result := ConfigApp.create_checkin_from_attendance_v2 F now store t device_id in
      (now + minutes 5 < d \/ d < now - days 90 -> rejected store result)
      /\ (d = now + minutes 6 -> rejected store result)
      /\ (d = now - days 91 -> rejected store result)
      /\ forall e,
           truthy (get "emp_code" t) = true ->
           ConfigApp.find_employee_by_code F (get "emp_code" t) = Some e ->
           (forall s r, insert F s r = Stored) ->
           let ok := accepted e d (py_str (get_default "log_type" (VStr "IN") t)) result in
           (now - days 90 <= d <= now + minutes 5 -> ok)
           /\ (d = now + minutes 4 -> ok)
           /\ (d = now - days 89 -> ok)).
Proof.
  split.
  - intros Hd result.
    assert (Hrej : now + minutes 5 < d \/ d < now - days 90 -> rejected store result).
    { intros Hw. unfold rejected, result.
      rewrite app_create_spec, (app_resolve_window F now0 now t d Hd Hw). reflexivity. }
    split; [exact Hrej|].
    split; [intros ->; apply Hrej; left; unfold minutes, us_per_minute, us_per_second; lia|].
    split; [intros ->; apply Hrej; right; unfold days, us_per_day, us_per_second; lia|].
    intros e Hemp He Hins Hclock ok.
    assert (Hacc : now - days 90 <= d <= now + minutes 5 -> ok).
    { intros Hw. unfold ok, result. apply app_accepts; [exact Hins|].
      apply app_resolve_inside; assumption. }
    split; [exact Hacc|].
    split; intros ->; apply Hacc;
      unfold days, minutes, us_per_day, us_per_minute, us_per_second; lia.
  - intros Hd result.
    assert (Hrej : now + minutes 5 < d \/ d < now - days 90 -> rejected store result).
    { intros Hw. unfold rejected, result.
      rewrite v2_create_spec, (v2_resolve_window F now t d Hd Hw). reflexivity. }
    split; [exact Hrej|].
    split; [intros ->; apply Hrej; left; unfold minutes, us_per_minute, us_per_second; lia|].
    split; [intros ->; apply Hrej; right; unfold days, us_per_day, us_per_second; lia|].
    intros e Hemp He Hins ok.
    assert (Hacc : now - days 90 <= d <= now + minutes 5 -> ok).
    { intros Hw. unfold ok, result. apply v2_accepts; [exact Hins|].
      apply v2_resolve_inside; assumption. }
    split; [exact Hacc|].
    split; intros ->; apply Hacc;
      unfold days, minutes, us_per_day, us_per_minute, us_per_second; lia.
Qed.

(** C8, at the failing input: when the store answers the insert with
    [DuplicateEntryError], [create_employee_checkin] of the app module
    lets [UnboundLocalError] escape and the sync loop counts an error; the
    copy at the top of the repository returns [True]. *)
Theorem app_duplicate_entry_escapes :
  let punch := api_punch 1 "E1" "2025-01-01 09:00:00" in
  ConfigApp.create_employee_checkin duplicate_site evening evening [] punch
  = (Raise "UnboundLocalError", [])
  /\ ConfigApp.sync_zkteco_transactions duplicate_site (fun _ => (evening, evening)) [] [punch]
     = (0%nat, 1%nat, [])
  /\ ConfigTop.create_employee_checkin duplicate_site evening evening [] punch
     = (Return true, []).
Proof. repeat split; vm_compute; reflexivity. Qed.

(** *** Idempotence *)

Lemma starts_with_append (p s : string) : starts_with p (p +:+ s) = true.
Proof.
  induction p as [|c p IH]; [reflexivity|].
  simpl. rewrite Ascii.eqb_refl. exact IH.
Qed.

Lemma contains_append (p s : string) : contains p (p +:+ s) = true.
Proof. destruct (p +:+ s) eqn:E; simpl; rewrite <- E, starts_with_append; reflexivity. Qed.

Lemma string_append_assoc (a b c : string) : (a +:+ b) +:+ c = a +:+ (b +:+ c).
Proof.
  induction a as [|x a IH]; [reflexivity|].
  change (String x ((a +:+ b) +:+ c) = String x (a +:+ (b +:+ c))).
  rewrite IH. reflexivity.
Qed.

Lemma contains_clip (p s : string) :
  (py_len p <= 135)%nat ->
  contains p (ConfigApp.clip_device_id (p +:+ s)) = true.
Proof.
  intros Hp. unfold ConfigApp.clip_device_id.
  destruct (140 <? py_len (p +:+ s))%nat; [|apply contains_append].
  rewrite py_take_append by exact Hp.
  rewrite string_append_assoc. apply contains_append.
Qed.

Lemma app_row_matches (F : site) (store : list checkin) (e : string) (d : datetime)
    (t : dict) :
  (py_len (py_str (ConfigApp.device_id_of t)) <= 135)%nat ->
  ConfigApp.matches e (whole_seconds d) (ConfigApp.log_type_of t)
    (ConfigApp.device_id_of t) (app_row F store e d t) = true.
Proof.
  intros Hlen. unfold ConfigApp.matches, app_row. simpl.
  rewrite !String.eqb_refl, Z.eqb_refl, app_device_id_truthy. simpl.
  apply contains_clip. exact Hlen.
Qed.

Lemma v2_row_matches (F : site) (store : list checkin) (e : string) (d : datetime)
    (device_id : string) (t : dict) :
  v2_matches e d device_id t (v2_row F store e d device_id t) = true.
Proof.
  unfold v2_matches, v2_row. simpl.
  rewrite !String.eqb_refl, Z.eqb_refl. reflexivity.
Qed.

Section Rerun.
Context (step : nat -> list checkin -> dict -> list checkin).
Context (small : dict -> Prop).
Hypothesis step_grows : forall i s t, exists k, step i s t = s ++ k.
Hypothesis step_settled :
  forall i s t k, small t -> step i (step i s t ++ k) t = step i s t ++ k.

Lemma run_grows (ts : list dict) (i : nat) (s : list checkin) :
  exists k, run step i ts s = s ++ k.
Proof.
  revert i s. induction ts as [|t ts IH]; intros i s; simpl.
  - exists []. rewrite app_nil_r. reflexivity.
  - destruct (step_grows i s t) as [k1 Hk1].
    destruct (IH (S i) (step i s t)) as [k2 Hk2].
    exists (k1 ++ k2). rewrite Hk2, Hk1, app_assoc. reflexivity.
Qed.

Lemma run_settled (ts : list dict) (i : nat) (s : list checkin) (k : list checkin) :
  Forall small ts -> run step i ts (run step i ts s ++ k) = run step i ts s ++ k.
Proof.
  revert i s k. induction ts as [|t ts IH]; intros i s k Hs; [reflexivity|].
  apply Forall_cons in Hs as [Ht Hs]. simpl.
  destruct (run_grows ts (S i) (step i s t)) as [k1 Hk1].
  rewrite Hk1 at 1. rewrite <- app_assoc.
  rewrite step_settled by exact Ht.
  rewrite app_assoc, <- Hk1. apply IH. exact Hs.
Qed.

Lemma run_twice (ts : list dict) (s : list checkin) :
  Forall small ts -> run step 0 ts (run step 0 ts s) = run step 0 ts s.
Proof.
  intros Hs. pose proof (run_settled ts 0 s [] Hs) as H.
  rewrite !app_nil_r in H. exact H.
Qed.
End Rerun.

Lemma checkin_loop_run (F : site) (clock : nat -> datetime * datetime)
    (ts : list dict) (i p e : nat) (s : list checkin) :
  snd (ConfigApp.checkin_loop F clock i ts p e s)
  = run (fun i s t =>
           snd (ConfigApp.create_employee_checkin F (fst (clock i)) (snd (clock i)) s t))
      i ts s.
Proof.
  revert i p e s. induction ts as [|t ts IH]; intros i p e s; [reflexivity|].
  simpl.
  destruct (ConfigApp.create_employee_checkin F (clock i).1 (clock i).2 s t) as [r s'].
  destruct r as [[|]|]; apply IH.
Qed.

Lemma attendance_loop_run (F : site) (clock : nat -> datetime) (device_id : string)
    (ts : list dict) (i c : nat) (s : list checkin) :
  snd (ConfigApp.attendance_loop F clock i ts device_id c s)
  = run (fun i s t =>
           snd (ConfigApp.create_checkin_from_attendance_v2 F (clock i) s t device_id))
      i ts s.
Proof.
  revert i c s. induction ts as [|t ts IH]; intros i c s; [reflexivity|].
  simpl.
  destruct (ConfigApp.create_checkin_from_attendance_v2 F (clock i) s t device_id) as [r s'].
  destruct r as [[|]|]; apply IH.
Qed.

Lemma existsb_app_l {A : Type} (P : A -> bool) (l k : list A) :
  existsb P l = true -> existsb P (l ++ k) = true.
Proof. intros H. rewrite existsb_app, H. reflexivity. Qed.

(** X30: with inserts that succeed and the same clock readings, running
    either gate a second time over the same punches leaves the store as
    the first run left it, for [create_employee_checkin] when the device
    identifier of every punch has at most 135 characters; and a punch
    that passes the checks and has a matching event stored writes nothing
    and returns [True]. *)
Theorem upsert_gate_idempotent (F : site) :
  (forall s r, insert F s r = Stored) ->
  (forall clock ts store,
     Forall (fun t => (py_len (py_str (ConfigApp.device_id_of t)) <= 135)%nat) ts ->
     let once := snd (ConfigApp.checkin_loop F clock 0 ts 0 0 store) in
     snd (ConfigApp.checkin_loop F clock 0 ts 0 0 once) = once)
  /\ (forall clock ts device_id store,
        let once := snd (ConfigApp.attendance_loop F clock 0 ts device_id 0 store) in
        snd (ConfigApp.attendance_loop F clock 0 ts device_id 0 once) = once)
  /\ (forall now0 now store t e d,
        app_resolve F now0 now t = Some (e, d) ->
        existsb (ConfigApp.matches e (whole_seconds d) (ConfigApp.log_type_of t)
                   (ConfigApp.device_id_of t)) store = true ->
        ConfigApp.create_employee_checkin F now0 now store t = (Return true, store))
  /\ (forall now store t device_id e d,
        v2_resolve F now t = Some (e, d) ->
        existsb (v2_matches e d device_id t) store = true ->
        ConfigApp.create_checkin_from_attendance_v2 F now store t device_id
        = (Return true, store)).
Proof.
  intros Hins. repeat split.
  - intros clock ts store Hsmall once. unfold once.
    rewrite !checkin_loop_run.
    apply (run_twice _ (fun t => (py_len (py_str (ConfigApp.device_id_of t)) <= 135)%nat));
      [| |exact Hsmall].
    + intros i s t. rewrite app_create_spec.
      destruct (app_resolve F _ _ t) as [[e d]|]; [|exists []; rewrite app_nil_r; reflexivity].
      destruct (existsb _ s); [exists []; rewrite app_nil_r; reflexivity|].
      rewrite Hins. eexists. reflexivity.
    + intros i s t k Hlen. rewrite !app_create_spec.
      destruct (app_resolve F _ _ t) as [[e d]|]; [|reflexivity].
      destruct (existsb _ s) eqn:Hex; cbn [snd].
      * rewrite existsb_app_l by exact Hex. reflexivity.
      * rewrite Hins. cbn [snd].
        rewrite existsb_app_l; [reflexivity|].
        rewrite existsb_app. simpl. rewrite app_row_matches by exact Hlen.
        rewrite orb_true_r. reflexivity.
  - intros clock ts device_id store once. unfold once.
    rewrite !attendance_loop_run.
    apply (run_twice _ (fun _ => True)); [| |apply Forall_forall; intros; exact I].
    + intros i s t. rewrite v2_create_spec.
      destruct (v2_resolve F _ t) as [[e d]|]; [|exists []; rewrite app_nil_r; reflexivity].
      destruct (existsb _ s); [exists []; rewrite app_nil_r; reflexivity|].
      rewrite Hins. eexists. reflexivity.
    + intros i s t k _. rewrite !v2_create_spec.
      destruct (v2_resolve F _ t) as [[e d]|]; [|reflexivity].
      destruct (existsb _ s) eqn:Hex; cbn [snd].
      * rewrite existsb_app_l by exact Hex. reflexivity.
      * rewrite Hins. cbn [snd].
        rewrite existsb_app_l; [reflexivity|].
        rewrite existsb_app. simpl. rewrite v2_row_matches. rewrite orb_true_r. reflexivity.
  - intros now0 now store t e d Hres Hex. rewrite app_create_spec, Hres, Hex. reflexivity.
  - intros now store t device_id e d Hres Hex. rewrite v2_create_spec, Hres, Hex. reflexivity.
Qed.

(** C7: the Upsert Gate is not idempotent on long device identifiers.  A
    punch whose terminal alias has 136 characters is stored once by a
    first run of the loop over [create_employee_checkin] and a second time
    by a second run with the same clock: the stored identifier is cut to
    135 characters and the lookup asks for the uncut one, which no stored
    row contains. *)
Theorem app_long_device_id_stored_twice :
  let clock := fun _ : nat => (evening, evening) in
  let once := snd (ConfigApp.checkin_loop demo_site clock 0 [long_alias_punch] 0 0 []) in
  let twice := snd (ConfigApp.checkin_loop demo_site clock 0 [long_alias_punch] 0 0 once) in
  length once = 1%nat /\ length twice = 2%nat /\ twice <> once
  /\ Forall (fun row =>
               contains (py_str (ConfigApp.device_id_of long_alias_punch))
                 (ck_device_id row) = false) twice.
Proof.
  cbv zeta. split; [vm_compute; reflexivity|].
  split; [vm_compute; reflexivity|].
  split.
  - intros H. apply (f_equal (@length checkin)) in H. vm_compute in H. discriminate.
  - apply Forall_forall. intros row Hrow. apply list_elem_of_In in Hrow.
    vm_compute in Hrow. destruct Hrow as [<-|[<-|[]]]; vm_compute; reflexivity.
Qed.

(** The same loop on a punch whose terminal alias has 100 accented
    letters: the identifier has 111 characters (211 bytes), is stored
    whole, and a second run stores nothing more. *)
Lemma accented_device_id_stored_once :
  let clock := fun _ : nat => (evening, evening) in
  let once := snd (ConfigApp.checkin_loop demo_site clock 0 [accented_alias_punch] 0 0 []) in
  let twice :=
    snd (ConfigApp.checkin_loop demo_site clock 0 [accented_alias_punch] 0 0 once) in
  length once = 1%nat /\ twice = once
  /\ Forall (fun row => py_len (ck_device_id row) = 111%nat
                        /\ String.length (ck_device_id row) = 211%nat) once.
Proof.
  cbv zeta. split; [vm_compute; reflexivity|]. split; [vm_compute; reflexivity|].
  apply Forall_forall. intros row Hrow. apply list_elem_of_In in Hrow.
  vm_compute in Hrow. destruct Hrow as [<-|[]]. split; vm_compute; reflexivity.
Qed.

(** ** Sync passes and the stored events *)

(** C1, counterexample: after a pass that fetches the morning punch and a
    pass that fetches the evening punch, the day holds two events and both
    are labelled IN. *)
Lemma two_passes_store_in_in :
  let clock := fun _ : nat => (evening, evening) in
  let store1 := snd (ConfigApp.sync_zkteco_transactions demo_site clock [] morning_batch) in
  let store2 := snd (ConfigApp.sync_zkteco_transactions demo_site clock store1 evening_batch) in
  day_labels "HR-EMP-1" (days_from_civil 2025 1 1) store2 = ["IN"; "IN"]
  /\ List.last (day_labels "HR-EMP-1" (days_from_civil 2025 1 1) store2) "" <> "OUT".
Proof. cbv zeta. split; [vm_compute; reflexivity|vm_compute; discriminate]. Qed.

Lemma group_add_nonempty (k : value * Z) (x : datetime * nat) (G : groups) :
  Forall (fun g => snd g <> []) G ->
  Forall (fun g => snd g <> []) (group_add ConfigApp.key_eqb k x G).
Proof.
  induction G as [|[k' xs] G IH]; intros H; simpl.
  - constructor; [discriminate|constructor].
  - apply Forall_cons in H as [Hx H].
    destruct (ConfigApp.key_eqb k k'); constructor; simpl; auto.
    destruct xs; discriminate.
Qed.

Lemma group_punches_nonempty (E : py_env) (ts : list dict) (i : nat) (G : groups) :
  Forall (fun g => snd g <> []) G ->
  Forall (fun g => snd g <> []) (ConfigApp.group_punches E i ts G).
Proof.
  revert i G. induction ts as [|t ts IH]; intros i G H; simpl; [exact H|].
  apply IH. destruct (ConfigApp.group_entry E t) as [[k dt]|]; [|exact H].
  apply group_add_nonempty. exact H.
Qed.

Lemma groups_of_nonempty (E : py_env) (ts : list dict) (k : value * Z)
    (ps : list (datetime * nat)) :
  (k, ps) ∈ groups_of E ts -> ps <> [].
Proof.
  intros Hin.
  pose proof (group_punches_nonempty E ts 0 [] (List.Forall_nil _)) as H.
  rewrite Forall_forall in H. apply (H (k, ps)). exact Hin.
Qed.

Lemma resolve_middle_marked (prev : label) (ds : list dict) :
  Forall unlabelled ds ->
  Forall (fun t => exists l, marked l t) (resolve_middle prev ds).
Proof.
  revert prev. induction ds as [|d ds IH]; intros prev H; simpl; [constructor|].
  apply Forall_cons in H as [Hd H]. unfold unlabelled in Hd. rewrite Hd.
  constructor; [exists (opposite prev), d; reflexivity|apply IH; exact H].
Qed.

Lemma resolve_group_unlabelled (ds : list dict) :
  ds <> [] -> Forall unlabelled ds ->
  exists first rest,
    resolve_group ds = first :: rest
    /\ marked IN first
    /\ (rest <> [] -> marked OUT (List.last rest first))
    /\ Forall (fun t => exists l, marked l t) (first :: rest).
Proof.
  intros Hne H. destruct ds as [|d [|e rest]]; [contradiction|..].
  - apply Forall_cons in H as [Hd _]. unfold unlabelled in Hd.
    cbn [resolve_group]. unfold keep_or. rewrite Hd.
    exists (ConfigApp.mark IN d), [].
    split; [reflexivity|]. split; [exists d; reflexivity|].
    split; [intros C; contradiction|].
    constructor; [exists IN, d; reflexivity|constructor].
  - destruct (exists_last (l := e :: rest)) as [mids [z Hz]]; [discriminate|].
    rewrite Hz in *. clear Hz e rest.
    apply Forall_cons in H as [Hd H]. apply Forall_app in H as [Hm Hz].
    apply Forall_cons in Hz as [Hz _]. unfold unlabelled in Hd, Hz.
    rewrite resolve_group_snoc. unfold keep_or. rewrite Hd, Hz.
    eexists _, _. split; [reflexivity|].
    split; [exists d; reflexivity|].
    split; [intros _; rewrite last_last; exists z; reflexivity|].
    constructor; [exists IN, d; reflexivity|].
    apply Forall_app. split; [apply resolve_middle_marked; exact Hm|].
    constructor; [exists OUT, z; reflexivity|constructor].
Qed.

Lemma log_type_of_mark (l : label) (d : dict) :
  ConfigApp.log_type_of (ConfigApp.mark l d) = label_value l.
Proof.
  unfold ConfigApp.log_type_of.
  assert (H1 : get "_sequence_adjusted" (ConfigApp.mark l d) = VBool true).
  { unfold ConfigApp.mark, get. rewrite dict_get_set_eq. reflexivity. }
  rewrite H1, get_log_type_mark. destruct l; reflexivity.
Qed.

(** What a call of [create_employee_checkin] appends. *)
Lemma app_create_appends (F : site) (now current_time : datetime)
    (store : list checkin) (t : dict) :
  exists rs,
    snd (ConfigApp.create_employee_checkin F now current_time store t) = store ++ rs
    /\ Forall (fun row => ck_log_type row = py_str (ConfigApp.log_type_of t)) rs.
Proof.
  rewrite app_create_spec.
  destruct (app_resolve F now current_time t) as [[e d]|];
    [|exists []; rewrite app_nil_r; split; [reflexivity|constructor]].
  destruct (existsb _ store);
    [exists []; rewrite app_nil_r; split; [reflexivity|constructor]|].
  destruct (insert F store _);
    [|exists []; rewrite app_nil_r; split; [reflexivity|constructor]..].
  exists [app_row F store e d t]. split; [reflexivity|].
  constructor; [reflexivity|constructor].
Qed.

(** The rows the loop of a pass appends, call by call. *)
Lemma checkin_loop_rows (F : site) (clock : nat -> datetime * datetime)
    (ts : list dict) (i p e : nat) (s : list checkin) :
  exists rows : list (list checkin),
    length rows = length ts
    /\ snd (ConfigApp.checkin_loop F clock i ts p e s) = s ++ concat rows
    /\ forall j t rs,
         ts !! j = Some t -> rows !! j = Some rs ->
         snd (ConfigApp.create_employee_checkin F (fst (clock (i + j)%nat))
                (snd (clock (i + j)%nat)) (s ++ concat (take j rows)) t)
         = (s ++ concat (take j rows)) ++ rs.
Proof.
  revert i p e s. induction ts as [|t ts IH]; intros i p e s.
  - exists []. split; [reflexivity|]. split; [simpl; rewrite app_nil_r; reflexivity|].
    intros j t rs Ht. rewrite lookup_nil in Ht. discriminate.
  - destruct (app_create_appends F (fst (clock i)) (snd (clock i)) s t) as (rs0 & Hrs0 & _).
    assert (Hloop : exists p' e',
              snd (ConfigApp.checkin_loop F clock i (t :: ts) p e s)
              = snd (ConfigApp.checkin_loop F clock (S i) ts p' e' (s ++ rs0))).
    { cbn [ConfigApp.checkin_loop].
      destruct (ConfigApp.create_employee_checkin F (clock i).1 (clock i).2 s t)
        as [r s1]. cbn [snd] in Hrs0. subst s1.
      destruct r as [[|]|]; eexists _, _; reflexivity. }
    destruct Hloop as (p' & e' & ->).
    destruct (IH (S i) p' e' (s ++ rs0)) as (rows & Hlen & Hfinal & Hstep).
    exists (rs0 :: rows). split; [simpl; rewrite Hlen; reflexivity|].
    split; [rewrite Hfinal; simpl; rewrite <- app_assoc; reflexivity|].
    intros [|j] t' rs Ht Hrs.
    + injection Ht as <-. injection Hrs as <-.
      rewrite Nat.add_0_r. simpl. rewrite app_nil_r. exact Hrs0.
    + simpl in Ht, Hrs. specialize (Hstep j t' rs Ht Hrs).
      rewrite Nat.add_succ_r. cbn [take concat]. rewrite !app_assoc.
      exact Hstep.
Qed.

(** C1 (as amended): within one sync pass, in every group of the fetched
    batch whose punches carry no valid label, the pass labels the
    chronologically first punch IN and, when there are several, the last
    one OUT; and the rows [sync_zkteco_transactions] appends to the store
    are, call by call, what [create_employee_checkin] appends for the
    punches of the normalised batch, each row stored for a punch of the
    group carrying the label the pass gave to that punch. *)
Theorem sync_pass_labels_its_groups (F : site) (clock : nat -> datetime * datetime)
    (store : list checkin) (fetched : list dict)
    (k : value * Z) (ps : list (datetime * nat)) :
  (k, ps) ∈ groups_of (py F) fetched ->
  Forall unlabelled (group_records ps fetched) ->
  let normalized := ConfigApp.adjust_checkin_sequence (py F) fetched in
  let out := group_records ps normalized in
  (exists first rest,
     out = first :: rest
     /\ get "log_type" first = VStr "IN"
     /\ (rest <> [] -> get "log_type" (List.last rest first) = VStr "OUT"))
  /\ exists rows : list (list checkin),
       length rows = length normalized
       /\ snd (ConfigApp.sync_zkteco_transactions F clock store fetched)
          = store ++ concat rows
       /\ forall i t rs,
            normalized !! i = Some t -> rows !! i = Some rs ->
            let before := store ++ concat (take i rows) in
            snd (ConfigApp.create_employee_checkin F (fst (clock i)) (snd (clock i))
                   before t)
            = before ++ rs
            /\ (t ∈ out ->
                exists l,
                  get "log_type" t = label_value l
                  /\ Forall (fun row => ck_log_type row = label_str l) rs).
Proof.
  intros Hg Hun normalized out.
  assert (Hne : group_records ps fetched <> []).
  { intros Hnil. apply (groups_of_nonempty (py F) fetched k ps Hg).
    apply length_zero_iff_nil.
    rewrite <- (group_records_length (py F) fetched k ps Hg), Hnil. reflexivity. }
  destruct (resolve_group_unlabelled _ Hne Hun) as (first & rest & Hres & Hf & Hl & Hall).
  assert (Hout : out = first :: rest).
  { unfold out, normalized, group_records.
    rewrite (adjust_gather (py F) fetched k ps Hg). exact Hres. }
  split.
  - exists first, rest. split; [exact Hout|].
    split.
    + destruct Hf as [d ->]. apply get_log_type_mark.
    + intros Hr. destruct (Hl Hr) as [d ->]. apply get_log_type_mark.
  - unfold ConfigApp.sync_zkteco_transactions. fold normalized.
    destruct (checkin_loop_rows F clock normalized 0 0 0 store)
      as (rows & Hlen & Hfinal & Hstep).
    exists rows. split; [exact Hlen|]. split; [exact Hfinal|].
    intros i t rs Ht Hrs. cbv zeta.
    pose proof (Hstep i t rs Ht Hrs) as Hcall. cbn [Nat.add] in Hcall.
    set (before := store ++ concat (take i rows)) in *.
    split; [exact Hcall|].
    intros Hin. rewrite Hout in Hin.
    rewrite Forall_forall in Hall. destruct (Hall t Hin) as (l & d & ->).
    exists l. split; [apply get_log_type_mark|].
    destruct (app_create_appends F (fst (clock i)) (snd (clock i)) before
                (ConfigApp.mark l d)) as (rs' & Hrs' & Hlab).
    rewrite Hrs' in Hcall. apply app_inv_head in Hcall. subst rs'.
    rewrite log_type_of_mark in Hlab. destruct l; exact Hlab.
Qed.

(** ** The theorems at concrete inputs *)

Lemma day4_group_found : (day4_key, day4_entries) ∈ groups_of iso_env day4.
Proof. vm_compute. apply list_elem_of_here. Defined.

Lemma day2_group_found : (day4_key, day2_entries) ∈ groups_of iso_env day2.
Proof. vm_compute. apply list_elem_of_here. Defined.

Lemma app_unlabelled_group_labels_witness :
  (day4_key, day4_entries) ∈ groups_of iso_env day4
  /\ (3 <= length day4_entries)%nat
  /\ Forall unlabelled (group_records day4_entries day4)
  /\ labels (group_records day4_entries (ConfigApp.adjust_checkin_sequence iso_env day4))
     = map label_value (alternating_from IN 3 ++ [OUT]).
Proof.
  assert (H2 : (3 <= length day4_entries)%nat) by (vm_compute; lia).
  assert (H3 : Forall unlabelled (group_records day4_entries day4))
    by (vm_compute; repeat constructor).
  split; [exact day4_group_found|]. split; [exact H2|]. split; [exact H3|].
  exact (proj1 (app_unlabelled_group_labels iso_env day4 day4_key day4_entries
                  day4_group_found H2 H3)).
Defined.

Lemma app_pair_labels_witness :
  (day4_key, day2_entries) ∈ groups_of iso_env day2
  /\ length day2_entries = 2%nat
  /\ exists d0 d1,
       group_records day2_entries day2 = [d0; d1]
       /\ labels (group_records day2_entries (ConfigApp.adjust_checkin_sequence iso_env day2))
          = [label_or IN d0; label_or OUT d1]
       /\ (unlabelled d0 -> unlabelled d1 ->
           labels (group_records day2_entries (ConfigApp.adjust_checkin_sequence iso_env day2))
           = [VStr "IN"; VStr "OUT"]).
Proof.
  split; [exact day2_group_found|]. split; [reflexivity|].
  exact (app_pair_labels iso_env day2 day4_key day2_entries day2_group_found eq_refl).
Defined.

Lemma sync_pass_labels_its_groups_witness :
  (day4_key, day4_entries) ∈ groups_of (py demo_site) day4
  /\ Forall unlabelled (group_records day4_entries day4)
  /\ (exists first rest,
        group_records day4_entries (ConfigApp.adjust_checkin_sequence (py demo_site) day4)
        = first :: rest
        /\ get "log_type" first = VStr "IN"
        /\ (rest <> [] -> get "log_type" (List.last rest first) = VStr "OUT"))
  /\ exists rows : list (list checkin),
       length rows = length (ConfigApp.adjust_checkin_sequence (py demo_site) day4)
       /\ snd (ConfigApp.sync_zkteco_transactions demo_site
                 (fun _ => (evening, evening)) [] day4)
          = [] ++ concat rows.
Proof.
  assert (H3 : Forall unlabelled (group_records day4_entries day4))
    by (vm_compute; repeat constructor).
  split; [exact day4_group_found|]. split; [exact H3|].
  destruct (sync_pass_labels_its_groups demo_site (fun _ => (evening, evening)) [] day4
              day4_key day4_entries day4_group_found H3)
    as [Hlabels (rows & Hlen & Hfinal & _)].
  split; [exact Hlabels|].
  exists rows. split; [exact Hlen|exact Hfinal].
Defined.

Lemma time_window_gate_witness :
  ConfigApp.extract_punch_time (py demo_site) ConfigApp.time_fields soon_punch
  = ConfigApp.Parsed (evening + minutes 4)
  /\ accepted "HR-EMP-1" (whole_seconds (evening + minutes 4))
       (py_str (ConfigApp.log_type_of soon_punch))
       (ConfigApp.create_employee_checkin demo_site evening evening [] soon_punch).
Proof.
  assert (H1 : ConfigApp.extract_punch_time (py demo_site) ConfigApp.time_fields soon_punch
               = ConfigApp.Parsed (evening + minutes 4)) by (vm_compute; reflexivity).
  split; [exact H1|].
  refine (proj1 (proj2 (proj2 (proj2 (proj2 (proj1
            (time_window_gate demo_site evening evening [] soon_punch "" (evening + minutes 4))
            H1))) "HR-EMP-1" _ _ _ _)) _).
  - vm_compute; reflexivity.
  - vm_compute; reflexivity.
  - intros s r. reflexivity.
  - vm_compute. split; discriminate.
  - reflexivity.
Defined.

Lemma upsert_gate_idempotent_witness :
  (forall s r, insert demo_site s r = Stored)
  /\ Forall (fun t => (py_len (py_str (ConfigApp.device_id_of t)) <= 135)%nat) day4
  /\ let clock := fun _ : nat => (evening, evening) in
     let once := snd (ConfigApp.checkin_loop demo_site clock 0 day4 0 0 []) in
     snd (ConfigApp.checkin_loop demo_site clock 0 day4 0 0 once) = once.
Proof.
  assert (H1 : forall s r, insert demo_site s r = Stored) by (intros s r; reflexivity).
  assert (H2 : Forall (fun t => (py_len (py_str (ConfigApp.device_id_of t)) <= 135)%nat)
                 day4) by (repeat constructor; vm_compute; lia).
  split; [exact H1|]. split; [exact H2|].
  exact (proj1 (upsert_gate_idempotent demo_site H1) (fun _ => (evening, evening)) day4 [] H2).
Defined.

Lemma repair_pass_idempotent_witness :
  NoDup (map ck_name stored_day)
  /\ (let store1 := snd (ConfigApp.fix_existing_checkins stored_day) in
      ConfigApp.compute_updates store1 = []
      /\ ConfigApp.fix_existing_checkins store1 = (0%nat, store1)).
Proof.
  assert (H1 : NoDup (map ck_name stored_day)).
  { apply (bool_decide_unpack (NoDup (map ck_name stored_day))). vm_compute. exact I. }
  split; [exact H1|].
  exact (proj1 (repair_pass_idempotent stored_day H1)).
Defined.

(** ** More on the Punch Normalizer of the app module *)

Lemma group_punches_ext (E : py_env) (ts ts' : list dict) (i : nat) (G : groups) :
  map (ConfigApp.group_entry E) ts = map (ConfigApp.group_entry E) ts' ->
  ConfigApp.group_punches E i ts G = ConfigApp.group_punches E i ts' G.
Proof.
  revert ts' i G. induction ts as [|t ts IH]; intros [|t' ts'] i G H;
    simpl in H; try discriminate; [reflexivity|].
  injection H as Ht H. simpl. rewrite Ht. apply IH. exact H.
Qed.

Lemma groups_of_adjust (E : py_env) (ts : list dict) :
  groups_of E (ConfigApp.adjust_checkin_sequence E ts) = groups_of E ts.
Proof.
  apply group_punches_ext. apply adjust_preserves.
  intros l t. apply group_entry_mark.
Qed.

Lemma entries_of_member (E : py_env) (k k' : value * Z) (dt : datetime)
    (ts : list dict) (j i : nat) (t : dict) :
  ts !! i = Some t -> ConfigApp.group_entry E t = Some (k', dt) ->
  ConfigApp.key_eqb k' k = true ->
  (dt, (j + i)%nat) ∈ entries_of E k j ts.
Proof.
  revert j i. induction ts as [|x ts IH]; intros j i Hi Ht Hk; [discriminate|].
  destruct i as [|i]; simpl in Hi.
  - injection Hi as ->. simpl. rewrite Ht, Hk, Nat.add_0_r. left.
  - simpl. replace (j + S i)%nat with (S j + i)%nat by lia.
    pose proof (IH (S j) i Hi Ht Hk) as Hin.
    destruct (ConfigApp.group_entry E x) as [[k0 d0]|]; [|exact Hin].
    destruct (ConfigApp.key_eqb k0 k); [right|]; exact Hin.
Qed.

Lemma entries_of_origin (E : py_env) (k : value * Z) (dt : datetime)
    (ts : list dict) (j i : nat) :
  (dt, i) ∈ entries_of E k j ts ->
  exists t k', (j <= i)%nat /\ ts !! (i - j)%nat = Some t
               /\ ConfigApp.group_entry E t = Some (k', dt).
Proof.
  revert j. induction ts as [|x ts IH]; intros j Hin; simpl in Hin.
  - apply elem_of_nil in Hin. contradiction.
  - assert (Hrest : (dt, i) ∈ entries_of E k (S j) ts ->
              exists t k', (j <= i)%nat /\ (x :: ts) !! (i - j)%nat = Some t
                           /\ ConfigApp.group_entry E t = Some (k', dt)).
    { intros H. destruct (IH (S j) H) as (t & k' & Hle & Hl & Hg).
      exists t, k'. split; [lia|]. split; [|exact Hg].
      replace (i - j)%nat with (S (i - S j)) by lia. exact Hl. }
    destruct (ConfigApp.group_entry E x) as [[k0 d0]|] eqn:Hx; [|exact (Hrest Hin)].
    destruct (ConfigApp.key_eqb k0 k); [|exact (Hrest Hin)].
    apply elem_of_cons in Hin as [Heq|Hin]; [|exact (Hrest Hin)].
    injection Heq as -> ->. exists x, k0. split; [lia|].
    rewrite Nat.sub_diag. split; [reflexivity|exact Hx].
Qed.

(** A grouped record sits in one of the groups. *)
Lemma grouped_in_group (E : py_env) (ts : list dict) (i : nat) (t : dict) :
  ts !! i = Some t -> grouped E t ->
  exists k ps, (k, ps) ∈ groups_of E ts /\ i ∈ map snd ps.
Proof.
  intros Hi (k & dt & Ht).
  destruct (groups_of_ok E ts) as [_ He Hp].
  assert (Hin : t ∈ ts) by (apply list_elem_of_lookup; exists i; exact Hi).
  destruct (Hp t k dt Hin Ht) as (k1 & ps & Hg & Hk1).
  exists k1, ps. split; [exact Hg|].
  rewrite (He k1 ps Hg).
  apply list_elem_of_fmap. exists (dt, i). split; [reflexivity|].
  apply (entries_of_member E k1 k dt ts 0 i t Hi Ht Hk1).
Qed.

(** The positions the groups hold are those of grouped records. *)
Lemma all_indices_grouped (E : py_env) (ts : list dict) (i : nat) :
  i ∈ all_indices (groups_of E ts) ->
  exists t, ts !! i = Some t /\ grouped E t.
Proof.
  intros Hi. unfold all_indices in Hi.
  apply list_elem_of_In, in_concat in Hi as (idxs & Hidxs & Hi).
  apply list_elem_of_In in Hi. apply list_elem_of_In in Hidxs.
  apply list_elem_of_fmap in Hidxs as ([k ps] & -> & Hg). simpl in Hi.
  destruct (groups_of_ok E ts) as [_ He _].
  rewrite (He k ps Hg) in Hi.
  apply list_elem_of_fmap in Hi as ([dt i'] & Heq & Hin). simpl in Heq. subst i'.
  destruct (entries_of_origin E k dt ts 0 i Hin) as (t & k' & _ & Hl & Ht).
  rewrite Nat.sub_0_r in Hl. exists t. split; [exact Hl|].
  exists k', dt. exact Ht.
Qed.

Lemma keep_or_labelled (l : label) (t : dict) : labelled (keep_or l t).
Proof.
  unfold keep_or, labelled. destruct (ConfigApp.existing_label t) as [l'|] eqn:H.
  - exists l'. exact H.
  - exists l. apply existing_label_mark.
Qed.

Lemma resolve_middle_labelled (prev : label) (ds : list dict) :
  Forall labelled (resolve_middle prev ds).
Proof.
  revert prev. induction ds as [|d ds IH]; intros prev; simpl; [constructor|].
  destruct (ConfigApp.existing_label d) as [l|] eqn:H; constructor;
    try apply IH.
  - exists l. exact H.
  - exists (opposite prev). apply existing_label_mark.
Qed.

Lemma resolve_group_labelled (ds : list dict) : Forall labelled (resolve_group ds).
Proof.
  destruct ds as [|d [|e rest]]; simpl.
  - constructor.
  - constructor; [apply keep_or_labelled|constructor].
  - constructor; [apply keep_or_labelled|].
    apply Forall_app. split; [apply resolve_middle_labelled|].
    constructor; [apply keep_or_labelled|constructor].
Qed.

(** After the pass every grouped record carries a valid label. *)
Lemma adjust_grouped_labelled (E : py_env) (ts : list dict) (i : nat) (t : dict) :
  ts !! i = Some t -> grouped E t ->
  exists t', ConfigApp.adjust_checkin_sequence E ts !! i = Some t' /\ labelled t'.
Proof.
  intros Hi Hg.
  destruct (grouped_in_group E ts i t Hi Hg) as (k & ps & Hk & Hin).
  pose proof (adjust_gather E ts k ps Hk) as Hgather.
  assert (Hb : forall j, j ∈ sorted_indices ps -> (j < length ts)%nat).
  { intros j Hj. apply (groups_of_bound E).
    eapply elem_of_all_indices; [exact Hk|].
    rewrite <- sorted_indices_perm. exact Hj. }
  rewrite <- sorted_indices_perm in Hin.
  apply list_elem_of_lookup in Hin as [p Hp].
  assert (Hb' : forall j, j ∈ sorted_indices ps ->
                  (j < length (ConfigApp.adjust_checkin_sequence E ts))%nat).
  { intros j Hj. rewrite adjust_length. apply Hb, Hj. }
  pose proof (gather_lookup _ _ p i Hb' Hp) as Hl.
  rewrite Hgather in Hl.
  assert (Hlen : (p < length (resolve_group (gather (sorted_indices ps) ts)))%nat).
  { rewrite resolve_group_length, gather_length by exact Hb.
    apply lookup_lt_is_Some_1. exists i. exact Hp. }
  destruct (lookup_lt_is_Some_2 _ _ Hlen) as [t' Ht'].
  exists t'. split; [rewrite <- Hl; exact Ht'|].
  pose proof (resolve_group_labelled (gather (sorted_indices ps) ts)) as Hall.
  rewrite Forall_lookup in Hall. exact (Hall p t' Ht').
Qed.

(** A record that carries a valid label is never written. *)
Lemma set_unless_labelled_keeps (l : label) (j : nat) (ts : list dict)
    (i : nat) (t : dict) :
  ts !! i = Some t -> labelled t ->
  ConfigApp.set_unless_labelled l j ts !! i = Some t.
Proof.
  intros Hi [l0 Hl]. destruct (decide (j = i)) as [->|Hne].
  - rewrite set_unless_labelled_eq, Hi. simpl. unfold keep_or. rewrite Hl. reflexivity.
  - rewrite set_unless_labelled_ne by exact Hne. exact Hi.
Qed.

Lemma alternate_middle_keeps (mids : list nat) (prev : label) (ts : list dict)
    (i : nat) (t : dict) :
  ts !! i = Some t -> labelled t ->
  ConfigApp.alternate_middle prev mids ts !! i = Some t.
Proof.
  revert prev ts. induction mids as [|j rest IH]; intros prev ts Hi Hl; simpl;
    [exact Hi|].
  destruct (ts !! j) as [current|] eqn:Hj; [|apply IH; assumption].
  destruct (ConfigApp.existing_label current) as [l|] eqn:Hc; [apply IH; assumption|].
  apply IH; [|exact Hl].
  rewrite list_lookup_alter_ne; [exact Hi|].
  intros ->. rewrite Hi in Hj. injection Hj as ->.
  destruct Hl as [l0 Hl0]. congruence.
Qed.

Lemma process_group_keeps (ps : list (datetime * nat)) (ts : list dict)
    (i : nat) (t : dict) :
  ts !! i = Some t -> labelled t -> ConfigApp.process_group ps ts !! i = Some t.
Proof.
  intros Hi Hl. unfold ConfigApp.process_group.
  destruct (map snd (sort_by fst ps)) as [|first [|r rest]]; [exact Hi|..].
  - apply set_unless_labelled_keeps; assumption.
  - destruct (length (sort_by fst ps) =? 2)%nat.
    + apply set_unless_labelled_keeps; [|exact Hl].
      apply set_unless_labelled_keeps; assumption.
    + apply alternate_middle_keeps; [|exact Hl].
      apply set_unless_labelled_keeps; [|exact Hl].
      apply set_unless_labelled_keeps; assumption.
Qed.

Lemma process_groups_keeps (G : groups) (ts : list dict) (i : nat) (t : dict) :
  ts !! i = Some t -> labelled t -> process_groups G ts !! i = Some t.
Proof.
  revert ts. induction G as [|g G IH]; intros ts Hi Hl; [exact Hi|].
  unfold process_groups in *. simpl. apply IH; [|exact Hl].
  apply process_group_keeps; assumption.
Qed.

(** X1: after the Normalizer of the app module has run, every punch that has
    an employee code and a readable time carries a valid label, [IN] or
    [OUT], at its position in the list. *)
Theorem app_adjust_labels_every_grouped_punch (E : py_env) (ts : list dict)
    (i : nat) (t : dict) :
  ts !! i = Some t -> grouped E t ->
  exists t' l, ConfigApp.adjust_checkin_sequence E ts !! i = Some t'
               /\ get "log_type" t' = VStr (label_str l).
Proof.
  intros Hi Hg.
  destruct (adjust_grouped_labelled E ts i t Hi Hg) as (t' & Ht' & l & Hl).
  exists t', l. split; [exact Ht'|].
  apply existing_label_get in Hl. exact Hl.
Qed.

(** X2: the Normalizer of the app module returns a record exactly as it
    was given when the record already carries [IN] or [OUT], and when it
    has no employee code or no readable time. *)
Theorem app_adjust_leaves_record_untouched (E : py_env) (ts : list dict)
    (i : nat) (t : dict) :
  ts !! i = Some t ->
  labelled t \/ ConfigApp.group_entry E t = None ->
  ConfigApp.adjust_checkin_sequence E ts !! i = Some t.
Proof.
  intros Hi [Hl|Hnone].
  - rewrite adjust_is_process_groups. apply process_groups_keeps; assumption.
  - rewrite adjust_frame; [exact Hi|].
    intros Hin. destruct (all_indices_grouped E ts i Hin) as (t0 & Hi0 & k & dt & Hg).
    rewrite Hi in Hi0. injection Hi0 as <-. congruence.
Qed.

(** X3: the Normalizer of the app module is idempotent: running it on its
    own output changes nothing. *)
Theorem app_adjust_idempotent (E : py_env) (ts : list dict) :
  ConfigApp.adjust_checkin_sequence E (ConfigApp.adjust_checkin_sequence E ts)
  = ConfigApp.adjust_checkin_sequence E ts.
Proof.
  set (out := ConfigApp.adjust_checkin_sequence E ts).
  rewrite (adjust_is_process_groups E out).
  unfold out at 1. rewrite groups_of_adjust. fold out.
  apply list_eq. intros i.
  destruct (decide (i ∈ all_indices (groups_of E ts))) as [Hin|Hout].
  - destruct (all_indices_grouped E ts i Hin) as (t & Hi & Hg).
    destruct (adjust_grouped_labelled E ts i t Hi Hg) as (t' & Ht' & Hl).
    fold out in Ht'. rewrite Ht'. apply process_groups_keeps; assumption.
  - apply process_groups_frame. exact Hout.
Qed.

(** ** The employee lookup *)

Lemma get_employee_by_sound (field : employee_row -> string) (c : value)
    (rows : list employee_row) (n : string) :
  get_employee_by field c rows = Some n ->
  exists r, r ∈ rows /\ emp_name r = n /\ field r = py_str c.
Proof.
  unfold get_employee_by.
  destruct (List.find _ rows) as [r|] eqn:Hf; [|discriminate].
  intros [= <-]. apply find_some in Hf as [Hin Heq].
  exists r. split; [apply list_elem_of_In; exact Hin|]. split; [reflexivity|].
  apply String.eqb_eq. exact Heq.
Qed.

Lemma get_employee_by_complete (field : employee_row -> string) (c : value)
    (rows : list employee_row) :
  (exists r, r ∈ rows /\ field r = py_str c) ->
  exists r, r ∈ rows /\ field r = py_str c
            /\ get_employee_by field c rows = Some (emp_name r).
Proof.
  intros (r0 & Hin & Heq). unfold get_employee_by.
  destruct (List.find (fun r => String.eqb (field r) (py_str c)) rows) as [r|] eqn:Hf.
  - pose proof (find_some _ _ Hf) as [Hin' Heq'].
    exists r. split; [apply list_elem_of_In; exact Hin'|].
    split; [apply String.eqb_eq; exact Heq'|reflexivity].
  - exfalso. apply list_elem_of_In in Hin.
    pose proof (find_none _ _ Hf r0 Hin) as Hne. simpl in Hne.
    rewrite Heq, String.eqb_refl in Hne. discriminate.
Qed.

Lemma found_nonempty (n : string) : found (Some n) = true -> n <> "".
Proof.
  simpl. intros H ->. discriminate.
Qed.

Lemma found_of_nonempty (n : string) : n <> "" -> found (Some n) = true.
Proof.
  simpl. intros H. destruct (String.eqb n "") eqn:E; [|reflexivity].
  apply String.eqb_eq in E. contradiction.
Qed.

(** ** What the two gates do to the store *)

Lemma app_create_grows (F : site) (now current_time : datetime)
    (store : list checkin) (t : dict) :
  let r := ConfigApp.create_employee_checkin F now current_time store t in
  snd r = store
  \/ exists e d, app_resolve F now current_time t = Some (e, d)
       /\ existsb (ConfigApp.matches e (whole_seconds d) (ConfigApp.log_type_of t)
                     (ConfigApp.device_id_of t)) store = false
       /\ insert F store (app_row F store e d t) = Stored
       /\ r = (Return true, store ++ [app_row F store e d t]).
Proof.
  cbv zeta. rewrite app_create_spec.
  destruct (app_resolve F now current_time t) as [[e d]|] eqn:Hr; [|left; reflexivity].
  destruct (existsb _ store) eqn:Hm; [left; reflexivity|].
  destruct (insert F store (app_row F store e d t)) eqn:Hi;
    [|left; reflexivity..].
  right. exists e, d. repeat split; assumption.
Qed.

Lemma v2_create_grows (F : site) (current_time : datetime)
    (store : list checkin) (t : dict) (device_id : string) :
  let r := ConfigApp.create_checkin_from_attendance_v2 F current_time store t device_id in
  (fst r = Return false /\ snd r = store) \/ (fst r = Return true /\ snd r = store)
  \/ exists e d, v2_resolve F current_time t = Some (e, d)
       /\ r = (Return true, store ++ [v2_row F store e d device_id t]).
Proof.
  cbv zeta. rewrite v2_create_spec.
  destruct (v2_resolve F current_time t) as [[e d]|] eqn:Hr; [|left; split; reflexivity].
  destruct (existsb _ store) eqn:Hm; [right; left; split; reflexivity|].
  destruct (insert F store (v2_row F store e d device_id t)) eqn:Hi;
    [|left; split; reflexivity..].
  right. right. exists e, d. split; reflexivity.
Qed.

Lemma snoc_inj {A : Type} (l : list A) (x y : A) : l ++ [x] = l ++ [y] -> x = y.
Proof. intros H. apply app_inv_head in H. congruence. Qed.

Lemma snoc_not_same {A : Type} (l : list A) (x : A) : l <> l ++ [x].
Proof.
  intros H. apply (f_equal (@length A)) in H. rewrite length_app in H. simpl in H. lia.
Qed.

Lemma clip_device_id_length (u : string) :
  (py_len (ConfigApp.clip_device_id u) <= 140)%nat.
Proof.
  unfold ConfigApp.clip_device_id.
  destruct (140 <? py_len u)%nat eqn:H.
  - rewrite py_len_append. pose proof (py_len_take 135 u).
    change (py_len "...") with 3%nat. lia.
  - apply Nat.ltb_ge in H. exact H.
Qed.

Lemma whole_seconds_mod (d : datetime) : whole_seconds d mod us_per_second = 0.
Proof. unfold whole_seconds. apply Z.mod_mul. discriminate. Qed.

Lemma app_resolve_employee (F : site) (now current_time : datetime) (t : dict)
    (e : string) (d : datetime) :
  app_resolve F now current_time t = Some (e, d) ->
  ConfigApp.find_employee_by_code F (ConfigApp.emp_code_of t) = Some e.
Proof.
  unfold app_resolve.
  destruct (ConfigApp.extract_punch_time _ _ t) as [d0| |]; try discriminate.
  destruct (negb (truthy (ConfigApp.emp_code_of t))); [discriminate|].
  destruct (d0 >? now + days 1); [discriminate|].
  destruct (now - d0 >? days 90); [discriminate|].
  destruct (ConfigApp.find_employee_by_code F (ConfigApp.emp_code_of t)) as [e0|];
    [|discriminate].
  destruct (d0 >? current_time + minutes 5); [discriminate|].
  destruct (d0 <? current_time - days max_past_days); [discriminate|].
  intros [= <- <-]. reflexivity.
Qed.

(** ** The loop of a sync pass *)

Lemma checkin_loop_counts (F : site) (clock : nat -> datetime * datetime)
    (ts : list dict) (i p e : nat) (s : list checkin) :
  let '(p', e', s') := ConfigApp.checkin_loop F clock i ts p e s in
  (p' + e' = p + e + length ts)%nat
  /\ exists new, s' = s ++ new /\ (length new + p <= p')%nat.
Proof.
  revert i p e s. induction ts as [|t ts IH]; intros i p e s.
  - simpl. split; [lia|]. exists []. rewrite app_nil_r. split; [reflexivity|simpl; lia].
  - simpl.
    pose proof (app_create_grows F (fst (clock i)) (snd (clock i)) s t) as Hg.
    cbv zeta in Hg.
    destruct (ConfigApp.create_employee_checkin F (clock i).1 (clock i).2 s t)
      as [r s1] eqn:Hc.
    simpl in Hg.
    destruct Hg as [Hsame|(e0 & d0 & _ & _ & _ & Heq)].
    + subst s1.
      destruct r as [[|]|];
        [specialize (IH (S i) (S p) e s)|specialize (IH (S i) p (S e) s)
        |specialize (IH (S i) p (S e) s)];
        destruct (ConfigApp.checkin_loop F clock (S i) ts _ _ s) as [[p' e'] s'];
        destruct IH as [Hsum (new & Hnew & Hlen)];
        (split; [simpl; lia|]); exists new; (split; [exact Hnew|lia]).
    + injection Heq as -> ->.
      specialize (IH (S i) (S p) e (s ++ [app_row F s e0 d0 t])).
      destruct (ConfigApp.checkin_loop F clock (S i) ts _ _ _) as [[p' e'] s'].
      destruct IH as [Hsum (new & Hnew & Hlen)].
      split; [simpl; lia|]. exists (app_row F s e0 d0 t :: new).
      split; [rewrite Hnew, <- app_assoc; reflexivity|simpl; lia].
Qed.

Lemma label_str_cases (l : label) : label_str l = "IN" \/ label_str l = "OUT".
Proof. destruct l; [left|right]; reflexivity. Qed.

Lemma labelled_stores_in_or_out (t : dict) : labelled t -> stores_in_or_out t.
Proof.
  intros [l Hl]. apply existing_label_get in Hl.
  unfold stores_in_or_out, ConfigApp.log_type_of. rewrite Hl.
  destruct (get "_sequence_adjusted" t); simpl;
    try apply label_str_cases;
    destruct l; simpl; auto.
Qed.

Lemma unadjusted_stores_in_or_out (t : dict) :
  get "_sequence_adjusted" t = VNone -> stores_in_or_out t.
Proof.
  intros H. unfold stores_in_or_out, ConfigApp.log_type_of. rewrite H. simpl.
  apply label_str_cases.
Qed.

Lemma adjust_stores_in_or_out (E : py_env) (ts : list dict) :
  Forall (fun t => get "_sequence_adjusted" t = VNone) ts ->
  Forall stores_in_or_out (ConfigApp.adjust_checkin_sequence E ts).
Proof.
  intros Hall. apply Forall_lookup. intros i t' Ht'.
  assert (Hlt : (i < length ts)%nat).
  { rewrite <- (adjust_length E ts). apply lookup_lt_is_Some_1. exists t'. exact Ht'. }
  destruct (lookup_lt_is_Some_2 _ _ Hlt) as [t Ht].
  destruct (ConfigApp.group_entry E t) as [[k dt]|] eqn:Hg.
  - destruct (adjust_grouped_labelled E ts i t Ht) as (t1 & Ht1 & Hl).
    { exists k, dt. exact Hg. }
    rewrite Ht' in Ht1. injection Ht1 as <-. apply labelled_stores_in_or_out, Hl.
  - assert (Hsame : ConfigApp.adjust_checkin_sequence E ts !! i = Some t).
    { rewrite adjust_frame; [exact Ht|].
      intros Hin. destruct (all_indices_grouped E ts i Hin) as (t0 & Hi0 & k & dt & Hg0).
      rewrite Ht in Hi0. injection Hi0 as <-. congruence. }
    rewrite Ht' in Hsame. injection Hsame as ->.
    apply unadjusted_stores_in_or_out.
    rewrite Forall_lookup in Hall. exact (Hall i t Ht).
Qed.

Lemma checkin_loop_labels (F : site) (clock : nat -> datetime * datetime)
    (ts : list dict) (i p e : nat) (s : list checkin) (row : checkin) :
  Forall stores_in_or_out ts ->
  row ∈ snd (ConfigApp.checkin_loop F clock i ts p e s) ->
  row ∈ s \/ ck_log_type row = "IN" \/ ck_log_type row = "OUT".
Proof.
  revert i p e s. induction ts as [|t ts IH]; intros i p e s Hall Hin.
  - left. exact Hin.
  - apply Forall_cons in Hall as [Ht Hall]. simpl in Hin.
    pose proof (app_create_grows F (fst (clock i)) (snd (clock i)) s t) as Hg.
    cbv zeta in Hg.
    destruct (ConfigApp.create_employee_checkin F (clock i).1 (clock i).2 s t)
      as [r s1] eqn:Hc.
    simpl in Hg.
    assert (Hrow : row ∈ s1 \/ ck_log_type row = "IN" \/ ck_log_type row = "OUT").
    { destruct r as [[|]|]; eapply IH; eassumption. }
    destruct Hrow as [Hs1|Hlab]; [|right; exact Hlab].
    destruct Hg as [->|(e0 & d0 & _ & _ & _ & Heq)]; [left; exact Hs1|].
    injection Heq as _ ->.
    apply elem_of_app in Hs1 as [Hs|Hnew]; [left; exact Hs|].
    apply list_elem_of_singleton in Hnew. subst row. right. exact Ht.
Qed.

(** X4: when [find_employee_by_code] returns an employee, it is the
    non-empty name of a row of [Employee] whose [employee] field, [user_id]
    field or (when the table has that column) [attendance_device_id] field
    holds the code. *)
Theorem find_employee_by_code_sound (F : site) (emp_code : value) (n : string) :
  ConfigApp.find_employee_by_code F emp_code = Some n ->
  n <> "" /\ exists r, r ∈ employees F /\ emp_name r = n /\ code_matches F emp_code r.
Proof.
  unfold ConfigApp.find_employee_by_code.
  destruct (found (get_employee_by emp_employee emp_code (employees F))) eqn:H1.
  { intros Heq. rewrite Heq in H1. split; [apply found_nonempty; exact H1|].
    destruct (get_employee_by_sound _ _ _ _ Heq) as (r & Hin & Hn & Hf).
    exists r. split; [exact Hin|]. split; [exact Hn|]. left. exact Hf. }
  destruct (found (get_employee_by emp_user_id emp_code (employees F))) eqn:H2.
  { intros Heq. rewrite Heq in H2. split; [apply found_nonempty; exact H2|].
    destruct (get_employee_by_sound _ _ _ _ Heq) as (r & Hin & Hn & Hf).
    exists r. split; [exact Hin|]. split; [exact Hn|]. right. left. exact Hf. }
  destruct (has_attendance_device_id F) eqn:Hcol; [|discriminate].
  destruct (found (get_employee_by emp_attendance_device_id emp_code (employees F))) eqn:H3;
    [|discriminate].
  intros Heq. rewrite Heq in H3. split; [apply found_nonempty; exact H3|].
  destruct (get_employee_by_sound _ _ _ _ Heq) as (r & Hin & Hn & Hf).
  exists r. split; [exact Hin|]. split; [exact Hn|]. right. right. split; [exact Hcol|exact Hf].
Qed.

(** X5: the [employee] field comes first in [find_employee_by_code]: when
    some row holds the code in its [employee] field (row names being
    non-empty), the result is a row found by that field, whatever the
    [user_id] and [attendance_device_id] fields of the table hold. *)
Theorem find_employee_by_code_prefers_employee_field (F : site) (emp_code : value) :
  (forall r, r ∈ employees F -> emp_name r <> "") ->
  (exists r, r ∈ employees F /\ emp_employee r = py_str emp_code) ->
  exists r, r ∈ employees F /\ emp_employee r = py_str emp_code
            /\ ConfigApp.find_employee_by_code F emp_code = Some (emp_name r).
Proof.
  intros Hnames Hex.
  destruct (get_employee_by_complete emp_employee emp_code (employees F) Hex)
    as (r & Hin & Hf & Hget).
  exists r. split; [exact Hin|]. split; [exact Hf|].
  unfold ConfigApp.find_employee_by_code. rewrite Hget.
  rewrite found_of_nonempty by (apply Hnames; exact Hin). reflexivity.
Qed.

(** X6: neither gate ever changes or removes a stored check-in: after
    [create_employee_checkin] or [create_checkin_from_attendance_v2] the
    store is the one before the call, or that store with one row appended
    and the call returned [True]; a call that returns [False] or raises
    has written nothing. *)
Theorem gates_only_append (F : site) (now current_time : datetime)
    (store : list checkin) (t : dict) (device_id : string) :
  (let r := ConfigApp.create_employee_checkin F now current_time store t in
   snd r = store \/ exists row, r = (Return true, store ++ [row]))
  /\ (let r := ConfigApp.create_checkin_from_attendance_v2 F current_time store t device_id in
      snd r = store \/ exists row, r = (Return true, store ++ [row])).
Proof.
  split; cbv zeta.
  - destruct (app_create_grows F now current_time store t) as [H|(e & d & _ & _ & _ & H)];
      [left; exact H|right; eexists; exact H].
  - destruct (v2_create_grows F current_time store t device_id)
      as [[_ H]|[[_ H]|(e & d & _ & H)]]; [left; exact H..|right; eexists; exact H].
Qed.

(** X7: the row [create_employee_checkin] appends belongs to the employee
    found for the punch's code, has a time in whole seconds, a
    [device_id] of at most 140 characters and the name the store gives it;
    and no stored row matched the punch before the call. *)
Theorem app_stored_row_facts (F : site) (now current_time : datetime)
    (store : list checkin) (t : dict) (o : outcome) (row : checkin) :
  ConfigApp.create_employee_checkin F now current_time store t = (o, store ++ [row]) ->
  o = Return true
  /\ ConfigApp.find_employee_by_code F (ConfigApp.emp_code_of t) = Some (ck_employee row)
  /\ ck_time row mod us_per_second = 0
  /\ (py_len (ck_device_id row) <= 140)%nat
  /\ ck_name row = autoname F store
  /\ existsb (ConfigApp.matches (ck_employee row) (ck_time row)
                (ConfigApp.log_type_of t) (ConfigApp.device_id_of t)) store = false.
Proof.
  intros Hc.
  destruct (app_create_grows F now current_time store t)
    as [H|(e & d & Hr & Hm & _ & H)]; rewrite Hc in H; simpl in H.
  - exfalso. symmetry in H. exact (snoc_not_same _ _ H).
  - injection H as -> H. apply snoc_inj in H. subst row. simpl.
    split; [reflexivity|]. split; [exact (app_resolve_employee _ _ _ _ _ _ Hr)|].
    split; [apply whole_seconds_mod|]. split; [apply clip_device_id_length|].
    split; [reflexivity|exact Hm].
Qed.

(** X8: a sync pass counts every fetched transaction once, as processed
    or as an error; it only appends to the stored check-ins, and appends
    at most as many rows as it counts processed. *)
Theorem sync_counts_every_transaction (F : site) (clock : nat -> datetime * datetime)
    (store : list checkin) (fetched : list dict) :
  let '(processed_count, error_count, store') :=
    ConfigApp.sync_zkteco_transactions F clock store fetched in
  (processed_count + error_count = length fetched)%nat
  /\ exists new, store' = store ++ new /\ (length new <= processed_count)%nat.
Proof.
  unfold ConfigApp.sync_zkteco_transactions.
  pose proof (checkin_loop_counts F clock
                (ConfigApp.adjust_checkin_sequence (py F) fetched) 0 0 0 store) as H.
  destruct (ConfigApp.checkin_loop F clock 0 _ 0 0 store) as [[p e] s'].
  destruct H as [Hsum (new & Hnew & Hlen)]. rewrite adjust_length in Hsum.
  split; [lia|]. exists new. split; [exact Hnew|lia].
Qed.

(** X9: when no fetched transaction carries the key [_sequence_adjusted],
    every check-in a sync pass adds to the store is labelled [IN] or
    [OUT]. *)
Theorem sync_stores_in_or_out (F : site) (clock : nat -> datetime * datetime)
    (store : list checkin) (fetched : list dict) (row : checkin) :
  Forall (fun t => get "_sequence_adjusted" t = VNone) fetched ->
  row ∈ snd (ConfigApp.sync_zkteco_transactions F clock store fetched) ->
  row ∈ store \/ ck_log_type row = "IN" \/ ck_log_type row = "OUT".
Proof.
  intros Hall Hin. unfold ConfigApp.sync_zkteco_transactions in Hin.
  eapply checkin_loop_labels; [|exact Hin].
  apply adjust_stores_in_or_out. exact Hall.
Qed.

(** ** More on the repair passes *)

Lemma app_fix_repaired (store : list checkin) :
  ConfigApp.fix_existing_checkins store
  = (length (mismatches (audit (get_all_checkins port_4370 store))),
     repaired port_4370 store).
Proof.
  unfold ConfigApp.fix_existing_checkins, ConfigApp.apply_updates, repaired.
  rewrite app_compute_updates_audit. reflexivity.
Qed.

Lemma script_fix_repaired (dry_run : bool) (store : list checkin) :
  FixScript.fix_all_checkins dry_run store
  = (length (mismatches (audit (get_all_checkins FixScript.filters store))),
     already_correct (audit (get_all_checkins FixScript.filters store)),
     if dry_run then store else repaired FixScript.filters store).
Proof.
  unfold FixScript.fix_all_checkins, FixScript.apply_updates, repaired.
  rewrite script_analyse_audit. reflexivity.
Qed.

Lemma repaired_relabel (P : checkin -> bool) (store : list checkin) :
  repaired P store
  = map (relabel_row (mismatches (audit (get_all_checkins P store)))) store.
Proof. apply apply_updates_relabel. Qed.

Lemma repaired_same_but_label (P : checkin -> bool) (store : list checkin) :
  Forall2 same_but_label store (repaired P store).
Proof.
  rewrite repaired_relabel.
  generalize (mismatches (audit (get_all_checkins P store))). intros U.
  induction store as [|r store IH]; simpl; constructor; [|exact IH].
  repeat split.
Qed.

Lemma NoDup_map_inj_on {A B : Type} (f : A -> B) (l : list A) (x y : A) :
  NoDup (map f l) -> x ∈ l -> y ∈ l -> f x = f y -> x = y.
Proof.
  induction l as [|z l IH]; intros Hnd Hx Hy Hf.
  - apply elem_of_nil in Hx. contradiction.
  - simpl in Hnd. apply NoDup_cons in Hnd as [Hz Hnd].
    apply elem_of_cons in Hx as [->|Hx]; apply elem_of_cons in Hy as [->|Hy].
    + reflexivity.
    + exfalso. apply Hz. rewrite Hf.
      apply list_elem_of_fmap. exists y. split; [reflexivity|exact Hy].
    + exfalso. apply Hz. rewrite <- Hf.
      apply list_elem_of_fmap. exists x. split; [reflexivity|exact Hx].
    + apply IH; assumption.
Qed.

(** The names of the rows a pass updates are names of rows it examines. *)
Lemma update_names_examined (P : checkin -> bool) (store : list checkin) (n : string) :
  n ∈ map fst (mismatches (audit (get_all_checkins P store))) ->
  exists r, r ∈ store /\ P r = true /\ ck_name r = n.
Proof.
  intros Hn. apply mismatches_names in Hn.
  rewrite <- (map_map fst fe_name) in Hn.
  rewrite (Permutation_map fe_name (audit_perm (get_all_checkins P store))) in Hn.
  rewrite map_map in Hn. simpl in Hn. unfold get_all_checkins in Hn.
  rewrite (Permutation_map ck_name (sort_leb_perm by_employee_time (List.filter P store)))
    in Hn.
  apply list_elem_of_fmap in Hn as (r & -> & Hr).
  apply list_elem_of_In, filter_In in Hr as [Hin HP].
  exists r. split; [apply list_elem_of_In; exact Hin|]. split; [exact HP|reflexivity].
Qed.

Lemma repaired_frame (P : checkin -> bool) (store : list checkin) (i : nat) (r : checkin) :
  NoDup (map ck_name store) ->
  store !! i = Some r -> P r = false -> repaired P store !! i = Some r.
Proof.
  intros Hnd Hi HP. rewrite repaired_relabel, list_lookup_fmap, Hi. simpl. f_equal.
  unfold relabel_row. rewrite relabel_absent; [destruct r; reflexivity|].
  intros Hn. destruct (update_names_examined P store _ Hn) as (r' & Hin & HP' & Hname).
  assert (Hr : r ∈ store) by (apply list_elem_of_lookup; exists i; exact Hi).
  rewrite (NoDup_map_inj_on ck_name store r' r Hnd Hin Hr Hname) in HP'. congruence.
Qed.

Lemma filter_split_length {A : Type} (P : A -> bool) (l : list A) :
  (length (List.filter (fun x => negb (P x)) l) + length (List.filter P l))%nat = length l.
Proof.
  induction l as [|x l IH]; [reflexivity|].
  simpl. destruct (P x); simpl; lia.
Qed.

Lemma audit_counts (rows : list checkin) :
  (length (mismatches (audit rows)) + already_correct (audit rows))%nat = length rows.
Proof.
  unfold mismatches, already_correct. rewrite length_map.
  rewrite (filter_split_length
             (fun ck : fix_entry * string => String.eqb (fe_current (fst ck)) (snd ck))).
  apply audit_length.
Qed.

Lemma get_all_checkins_ext (P Q : checkin -> bool) (store : list checkin) :
  (forall r, r ∈ store -> P r = Q r) ->
  get_all_checkins P store = get_all_checkins Q store.
Proof.
  intros H. unfold get_all_checkins. f_equal.
  apply filter_ext_in. intros r Hr. apply H, list_elem_of_In, Hr.
Qed.

(** X10: [fix_existing_checkins] writes nothing but labels: with unique
    row names, it leaves the number and the order of the rows, their
    names, employees, times and device identifiers as they are, and it
    leaves a row whose [device_id] does not contain [:4370] exactly as it
    is. *)
Theorem fix_existing_checkins_only_relabels (store : list checkin) :
  NoDup (map ck_name store) ->
  let store' := snd (ConfigApp.fix_existing_checkins store) in
  Forall2 same_but_label store store'
  /\ forall i r, store !! i = Some r -> contains ":4370" (ck_device_id r) = false ->
                 store' !! i = Some r.
Proof.
  intros Hnd. cbv zeta. rewrite app_fix_repaired. cbn [snd]. split.
  - apply repaired_same_but_label.
  - intros i r Hi HP. apply repaired_frame; assumption.
Qed.

(** X11: the script [fix_all_checkins] counts every row it examines once:
    the number of updates needed plus [no_change_needed] is the number of
    rows passing its filters; and a dry run leaves the store as it is. *)
Theorem fix_all_checkins_report (dry_run : bool) (store : list checkin) :
  (let '(updates_needed, no_change_needed, _) :=
     FixScript.fix_all_checkins dry_run store in
   (updates_needed + no_change_needed)%nat = length (List.filter FixScript.filters store))
  /\ snd (FixScript.fix_all_checkins true store) = store.
Proof.
  rewrite !script_fix_repaired. split.
  - rewrite audit_counts. unfold get_all_checkins. apply sort_leb_length.
  - reflexivity.
Qed.

(** X12: on a store in which the rows of port 4370 are exactly the rows the
    script's filters select, the script (with [dry_run=False]) and
    [fix_existing_checkins] count the same number of updates and leave
    the same store. *)
Theorem script_and_app_repairs_agree (store : list checkin) :
  (forall r, r ∈ store -> contains ":4370" (ck_device_id r) = FixScript.filters r) ->
  fst (fst (FixScript.fix_all_checkins false store))
  = fst (ConfigApp.fix_existing_checkins store)
  /\ snd (FixScript.fix_all_checkins false store)
     = snd (ConfigApp.fix_existing_checkins store).
Proof.
  intros H. rewrite script_fix_repaired, app_fix_repaired. cbn [fst snd].
  unfold repaired.
  rewrite (get_all_checkins_ext port_4370 FixScript.filters store H).
  split; reflexivity.
Qed.

(** ** Decimal numerals: [int(str(n))] is [n] *)

Lemma digit_char_facts (d : Z) :
  0 <= d < 10 ->
  is_digit (digit_char d) = true /\ digit_value (digit_char d) = d
  /\ is_space (digit_char d) = false.
Proof.
  intros H.
  assert (Hd : d = 0 \/ d = 1 \/ d = 2 \/ d = 3 \/ d = 4 \/ d = 5 \/ d = 6 \/ d = 7
               \/ d = 8 \/ d = 9) by lia.
  repeat (destruct Hd as [->|Hd]; [repeat split; reflexivity|]).
  subst d. repeat split; reflexivity.
Qed.

Lemma parse_digits_digit (d : Z) (s : string) (a : Z) (af : bool) :
  0 <= d < 10 ->
  parse_digits (String (digit_char d) s) a af = parse_digits s (10 * a + d) true.
Proof.
  intros H. destruct (digit_char_facts d H) as (H1 & H2 & _).
  cbn [parse_digits]. rewrite H1, H2. reflexivity.
Qed.

Lemma parse_digits_fuel (fuel : nat) (n : Z) (acc : string) :
  0 <= n < 2 ^ Z.of_nat (S fuel) ->
  exists k, 0 <= k /\ forall a af,
    parse_digits (digits_fuel (S fuel) n acc) a af = parse_digits acc (a * 10 ^ k + n) true.
Proof.
  revert n acc. induction fuel as [|fuel IH]; intros n acc Hn.
  - exists 1. split; [lia|]. intros a af. cbn [digits_fuel].
    change (2 ^ Z.of_nat 1) with 2 in Hn.
    assert (Hsmall : n / 10 = 0) by (apply Z.div_small; lia).
    rewrite Hsmall. cbn [Z.eqb].
    rewrite parse_digits_digit by (apply Z.mod_pos_bound; lia).
    f_equal. rewrite Z.mod_small by lia. change (10 ^ 1) with 10. lia.
  - cbn [digits_fuel]. destruct (n / 10 =? 0) eqn:Hq.
    + exists 1. split; [lia|]. intros a af. apply Z.eqb_eq in Hq.
      rewrite parse_digits_digit by (apply Z.mod_pos_bound; lia).
      f_equal. pose proof (Z.div_mod n 10 ltac:(lia)) as Hdm.
      change (10 ^ 1) with 10. lia.
    + assert (Hq' : 0 <= n / 10 < 2 ^ Z.of_nat (S fuel)).
      { split; [apply Z.div_pos; lia|].
        apply Z.div_lt_upper_bound; [lia|].
        replace (Z.of_nat (S (S fuel))) with (Z.succ (Z.of_nat (S fuel))) in Hn by lia.
        rewrite Z.pow_succ_r in Hn by lia. lia. }
      destruct (IH (n / 10) (String (digit_char (n mod 10)) acc) Hq') as (k & Hk0 & Hk).
      exists (Z.succ k). split; [lia|]. intros a af. rewrite Hk.
      rewrite parse_digits_digit by (apply Z.mod_pos_bound; lia).
      f_equal. rewrite Z.pow_succ_r by exact Hk0.
      pose proof (Z.div_mod n 10 ltac:(lia)) as Hdm. lia.
Qed.

Lemma digits_bound (n : Z) : 0 <= n -> 0 <= n < 2 ^ Z.of_nat (S (Z.to_nat (Z.log2 n))).
Proof.
  intros Hn. split; [exact Hn|].
  rewrite Nat2Z.inj_succ, Z2Nat.id by apply Z.log2_nonneg.
  destruct (Z.eq_dec n 0) as [->|Hne]; [reflexivity|].
  apply Z.log2_spec. lia.
Qed.

Lemma parse_digits_digits (n : Z) : 0 <= n -> parse_digits (digits n) 0 false = Some n.
Proof.
  intros Hn. unfold digits.
  destruct (parse_digits_fuel (Z.to_nat (Z.log2 n)) n "" (digits_bound n Hn))
    as (k & _ & Hk).
  rewrite Hk. reflexivity.
Qed.

Lemma digits_fuel_head (fuel : nat) (n : Z) (acc : string) :
  0 <= n ->
  exists c rest, digits_fuel (S fuel) n acc = String c rest /\ is_digit c = true.
Proof.
  revert n acc. induction fuel as [|fuel IH]; intros n acc Hn; cbn [digits_fuel].
  - destruct (n / 10 =? 0); eexists _, _; (split; [reflexivity|]);
      apply digit_char_facts, Z.mod_pos_bound; lia.
  - destruct (n / 10 =? 0).
    + eexists _, _. split; [reflexivity|].
      apply digit_char_facts, Z.mod_pos_bound; lia.
    + apply IH. apply Z.div_pos; lia.
Qed.

Lemma digits_fuel_no_space (fuel : nat) (n : Z) (acc : string) :
  0 <= n -> no_space acc = true -> no_space (digits_fuel fuel n acc) = true.
Proof.
  revert n acc. induction fuel as [|fuel IH]; intros n acc Hn Hacc; cbn [digits_fuel];
    [exact Hacc|].
  assert (Hc : no_space (String (digit_char (n mod 10)) acc) = true).
  { cbn [no_space]. rewrite Hacc, andb_true_r.
    destruct (digit_char_facts (n mod 10)) as (_ & _ & ->); [|reflexivity].
    apply Z.mod_pos_bound. lia. }
  destruct (n / 10 =? 0); [exact Hc|].
  apply IH; [apply Z.div_pos; lia|exact Hc].
Qed.

Lemma lstrip_no_space (s : string) : no_space s = true -> lstrip s = s.
Proof.
  destruct s as [|c s]; [reflexivity|]. cbn [no_space lstrip].
  intros H. apply andb_true_iff in H as [H _].
  destruct (is_space c); [discriminate|reflexivity].
Qed.

Lemma rstrip_no_space (s : string) : no_space s = true -> rstrip s = s.
Proof.
  induction s as [|c s IH]; [reflexivity|]. cbn [no_space rstrip].
  intros H. apply andb_true_iff in H as [Hc Hs]. rewrite IH by exact Hs.
  destruct s; [|reflexivity]. destruct (is_space c); [discriminate|reflexivity].
Qed.

Lemma strip_no_space (s : string) : no_space s = true -> strip s = s.
Proof.
  intros H. unfold strip. rewrite lstrip_no_space by exact H.
  apply rstrip_no_space. exact H.
Qed.

Lemma str_of_int_no_space (n : Z) : no_space (str_of_int n) = true.
Proof.
  unfold str_of_int. destruct (n <? 0) eqn:H.
  - cbn [no_space]. apply Z.ltb_lt in H.
    unfold digits. rewrite digits_fuel_no_space; [reflexivity|lia|reflexivity].
  - apply Z.ltb_ge in H. unfold digits.
    apply digits_fuel_no_space; [exact H|reflexivity].
Qed.

Lemma int_of_string_digits (n : Z) : 0 <= n -> int_of_string (digits n) = Some n.
Proof.
  intros Hn. unfold int_of_string.
  assert (Hns : no_space (digits n) = true)
    by (apply digits_fuel_no_space; [exact Hn|reflexivity]).
  rewrite strip_no_space by exact Hns.
  pose proof (parse_digits_digits n Hn) as Hp.
  destruct (digits_fuel_head (Z.to_nat (Z.log2 n)) n "" Hn) as (c & rest & Hd & Hc).
  unfold digits in *. rewrite Hd in *.
  transitivity (parse_digits (String c rest) 0 false); [|exact Hp].
  destruct c as [b0 b1 b2 b3 b4 b5 b6 b7].
  destruct b0, b1, b2, b3, b4, b5, b6, b7; try reflexivity; discriminate Hc.
Qed.

(** [int(str(n))] gives [n] back. *)
Lemma int_of_string_str_of_int (n : Z) : int_of_string (str_of_int n) = Some n.
Proof.
  unfold str_of_int. destruct (n <? 0) eqn:H.
  - apply Z.ltb_lt in H. unfold int_of_string.
    assert (Hns : no_space (String "-" (digits (- n))) = true).
    { cbn [no_space]. unfold digits.
      rewrite digits_fuel_no_space; [reflexivity|lia|reflexivity]. }
    rewrite strip_no_space by exact Hns.
    rewrite parse_digits_digits by lia. simpl. f_equal. lia.
  - apply Z.ltb_ge in H. apply int_of_string_digits. exact H.
Qed.

Lemma int_of_stripped_str_of_int (n : Z) :
  int_of_string (strip (str_of_int n)) = Some n.
Proof.
  rewrite strip_no_space by apply str_of_int_no_space.
  apply int_of_string_str_of_int.
Qed.

(** ** [build_api_url] *)

Lemma starts_with_slash (e : string) : starts_with "/" ("/" +:+ e) = true.
Proof. reflexivity. Qed.

Lemma build_api_url_port (server_ip : value) (p : Z) (endpoint : string) :
  ConfigApp.build_api_url server_ip (VInt p) endpoint None
  = ConfigApp.build_api_url server_ip (VInt p) endpoint (Some ((p =? 443) || (p =? 8443))).
Proof.
  unfold ConfigApp.build_api_url. cbn [py_str].
  rewrite int_of_stripped_str_of_int. reflexivity.
Qed.

Lemma build_api_url_port_string (server_ip : value) (p : Z) (endpoint : string) :
  ConfigApp.build_api_url server_ip (VStr (str_of_int p)) endpoint None
  = ConfigApp.build_api_url server_ip (VStr (str_of_int p)) endpoint
      (Some ((p =? 443) || (p =? 8443))).
Proof.
  unfold ConfigApp.build_api_url. cbn [py_str].
  rewrite int_of_stripped_str_of_int. reflexivity.
Qed.

(** X13: with the port given as an integer or as its decimal numeral and
    [use_https] left to its default, [build_api_url] does not raise and
    builds the URL it builds with [use_https=True] when the port is 443
    or 8443, and the one it builds with [use_https=False] for any other
    port. *)
Theorem build_api_url_detects_https (server_ip : value) (p : Z) (endpoint : string) :
  ConfigApp.build_api_url server_ip (VInt p) endpoint None
  = ConfigApp.build_api_url server_ip (VInt p) endpoint (Some ((p =? 443) || (p =? 8443)))
  /\ ConfigApp.build_api_url server_ip (VStr (str_of_int p)) endpoint None
     = ConfigApp.build_api_url server_ip (VStr (str_of_int p)) endpoint
         (Some ((p =? 443) || (p =? 8443)))
  /\ exists url,
       ConfigApp.build_api_url server_ip (VInt p) endpoint None = Some url
       /\ starts_with (if (p =? 443) || (p =? 8443) then "https://" else "http://") url
          = true.
Proof.
  split; [apply build_api_url_port|]. split; [apply build_api_url_port_string|].
  rewrite build_api_url_port. unfold ConfigApp.build_api_url.
  destruct ((p =? 443) || (p =? 8443)); destruct (negb (String.eqb endpoint ""));
    eexists; (split; [reflexivity|reflexivity]).
Qed.

(** X14: [build_api_url] gives the same URL for an endpoint written with
    or without its leading slash. *)
Theorem build_api_url_leading_slash (server_ip server_port : value) (endpoint : string)
    (use_https : option bool) :
  endpoint <> "" -> starts_with "/" endpoint = false ->
  ConfigApp.build_api_url server_ip server_port ("/" +:+ endpoint) use_https
  = ConfigApp.build_api_url server_ip server_port endpoint use_https.
Proof.
  intros Hne Hs. unfold ConfigApp.build_api_url.
  destruct (match use_https with
            | Some b => Some b
            | None => _
            end) as [b|]; [|reflexivity].
  rewrite starts_with_slash, Hs.
  destruct (String.eqb endpoint "") eqn:He;
    [apply String.eqb_eq in He; contradiction|].
  reflexivity.
Qed.

(** ** [remove_duplicate_checkins] *)

Lemma duplicate_key_eqb_eq (a b : dkey) :
  ConfigApp.duplicate_key_eqb a b = true <-> a = b.
Proof.
  destruct a as [[a1 a2] a3], b as [[b1 b2] b3]. unfold ConfigApp.duplicate_key_eqb.
  simpl. rewrite !andb_true_iff, !String.eqb_eq. split.
  - intros [[-> ->] ->]. reflexivity.
  - intros [= -> -> ->]. repeat split.
Qed.

Lemma seen_key_spec (k : dkey) (seen : list dkey) :
  existsb (ConfigApp.duplicate_key_eqb k) seen = true <-> k ∈ seen.
Proof.
  rewrite existsb_exists. split.
  - intros (x & Hin & Heq). apply duplicate_key_eqb_eq in Heq. subst x.
    apply list_elem_of_In. exact Hin.
  - intros Hin. exists k. split; [apply list_elem_of_In; exact Hin|].
    apply duplicate_key_eqb_eq. reflexivity.
Qed.

Lemma existsb_map_fst {A B : Type} (f : A -> bool) (l : list (A * B)) :
  existsb (fun kv => f (fst kv)) l = existsb f (map fst l).
Proof. induction l as [|x l IH]; [reflexivity|]. simpl. rewrite IH. reflexivity. Qed.

Lemma duplicates_loop_spec (checkins : list checkin) (seen : list (dkey * string))
    (to_delete : list string) :
  ConfigApp.duplicates_loop checkins seen to_delete
  = to_delete ++ map ck_name (later_copies (map fst seen) checkins).
Proof.
  revert seen to_delete. induction checkins as [|r rest IH]; intros seen to_delete.
  - simpl. rewrite app_nil_r. reflexivity.
  - cbn [ConfigApp.duplicates_loop later_copies].
    rewrite (existsb_map_fst (ConfigApp.duplicate_key_eqb (ConfigApp.duplicate_key r))).
    destruct (existsb _ (map fst seen)).
    + rewrite IH, <- app_assoc. reflexivity.
    + rewrite IH, map_app. reflexivity.
Qed.

Lemma copies_perm (seen : list dkey) (checkins : list checkin) :
  checkins ≡ₚ first_copies seen checkins ++ later_copies seen checkins.
Proof.
  revert seen. induction checkins as [|r rest IH]; intros seen; [reflexivity|].
  cbn [first_copies later_copies].
  destruct (existsb _ seen).
  - rewrite <- Permutation_middle. constructor. apply IH.
  - simpl. constructor. apply IH.
Qed.

Lemma first_copies_keys (seen : list dkey) (checkins : list checkin) :
  NoDup (map ConfigApp.duplicate_key (first_copies seen checkins))
  /\ forall r, r ∈ first_copies seen checkins -> ConfigApp.duplicate_key r ∉ seen.
Proof.
  revert seen. induction checkins as [|r rest IH]; intros seen.
  - split; [constructor|]. intros r Hr. apply elem_of_nil in Hr. contradiction.
  - cbn [first_copies].
    destruct (existsb _ seen) eqn:E; [apply IH|].
    destruct (IH (seen ++ [ConfigApp.duplicate_key r])) as [Hnd Hout].
    split.
    + simpl. apply NoDup_cons. split; [|exact Hnd].
      intros Hin. apply list_elem_of_fmap in Hin as (x & Hk & Hx).
      apply (Hout x Hx). rewrite <- Hk. apply elem_of_app. right. left.
    + intros x Hx. apply elem_of_cons in Hx as [->|Hx].
      * intros Hin. apply seen_key_spec in Hin. congruence.
      * intros Hin. apply (Hout x Hx). apply elem_of_app. left. exact Hin.
Qed.

Lemma later_copies_twin (seen : list dkey) (checkins : list checkin) (r : checkin) :
  r ∈ later_copies seen checkins ->
  ConfigApp.duplicate_key r ∈ seen
  \/ exists r', r' ∈ first_copies seen checkins
                /\ ConfigApp.duplicate_key r' = ConfigApp.duplicate_key r.
Proof.
  revert seen. induction checkins as [|x rest IH]; intros seen Hr.
  - apply elem_of_nil in Hr. contradiction.
  - cbn [later_copies first_copies] in *.
    destruct (existsb _ seen) eqn:E.
    + apply elem_of_cons in Hr as [->|Hr].
      * left. apply seen_key_spec. exact E.
      * apply IH. exact Hr.
    + destruct (IH _ Hr) as [Hin|(r' & Hr' & Hk)].
      * apply elem_of_app in Hin as [Hin|Hin]; [left; exact Hin|].
        apply list_elem_of_singleton in Hin. right. exists x.
        split; [left|symmetry; exact Hin].
      * right. exists r'. split; [right; exact Hr'|exact Hk].
Qed.

Lemma later_copies_none (seen : list dkey) (checkins : list checkin) :
  NoDup (map ConfigApp.duplicate_key checkins) ->
  (forall r, r ∈ checkins -> ConfigApp.duplicate_key r ∉ seen) ->
  later_copies seen checkins = [].
Proof.
  revert seen. induction checkins as [|x rest IH]; intros seen Hnd Hout; [reflexivity|].
  simpl in Hnd. apply NoDup_cons in Hnd as [Hx Hnd].
  cbn [later_copies].
  destruct (existsb _ seen) eqn:E.
  - exfalso. apply seen_key_spec in E. exact (Hout x ltac:(left) E).
  - apply IH; [exact Hnd|].
    intros r Hr Hin. apply elem_of_app in Hin as [Hin|Hin].
    + exact (Hout r ltac:(right; exact Hr) Hin).
    + apply list_elem_of_singleton in Hin. apply Hx. rewrite <- Hin.
      apply list_elem_of_fmap. exists r. split; [reflexivity|exact Hr].
Qed.

Lemma named_in_spec (to_delete : list string) (r : checkin) :
  named_in to_delete r = true <-> ck_name r ∈ to_delete.
Proof.
  unfold named_in. rewrite existsb_exists. split.
  - intros (n & Hin & Heq). apply String.eqb_eq in Heq. rewrite Heq.
    apply list_elem_of_In. exact Hin.
  - intros Hin. exists (ck_name r). split; [apply list_elem_of_In; exact Hin|].
    apply String.eqb_refl.
Qed.

Lemma delete_all (to_delete : list string) (store : list checkin) :
  fold_left (fun st name => ConfigApp.delete_doc name st) to_delete store
  = List.filter (fun r => negb (named_in to_delete r)) store.
Proof.
  revert store. induction to_delete as [|n rest IH]; intros store; simpl.
  - symmetry. apply forallb_filter_id. apply forallb_forall. reflexivity.
  - rewrite IH. unfold ConfigApp.delete_doc.
    induction store as [|r store IHs]; [reflexivity|].
    cbn [List.filter named_in existsb]. fold (named_in rest r).
    destruct (String.eqb (ck_name r) n); simpl; [exact IHs|].
    destruct (named_in rest r); simpl; [exact IHs|]. f_equal. exact IHs.
Qed.

Lemma deduplicated_spec (store : list checkin) :
  ConfigApp.remove_duplicate_checkins store
  = (length (later_copies [] (get_all_checkins port_4370 store)),
     List.filter
       (fun r => negb (named_in
                         (map ck_name (later_copies [] (get_all_checkins port_4370 store))) r))
       store).
Proof.
  unfold ConfigApp.remove_duplicate_checkins.
  fold port_4370. rewrite duplicates_loop_spec, delete_all. simpl.
  rewrite length_map. reflexivity.
Qed.

Lemma examined_rows (P : checkin -> bool) (store : list checkin) (r : checkin) :
  r ∈ get_all_checkins P store <-> r ∈ store /\ P r = true.
Proof.
  unfold get_all_checkins. rewrite sort_leb_perm.
  rewrite list_elem_of_In, filter_In, <- list_elem_of_In. reflexivity.
Qed.

Lemma rows_NoDup (store : list checkin) : NoDup (map ck_name store) -> NoDup store.
Proof. apply NoDup_fmap_1. Qed.

Lemma examined_NoDup (store : list checkin) :
  NoDup (map ck_name store) -> NoDup (get_all_checkins port_4370 store).
Proof.
  intros H. apply (NoDup_fmap_1 ck_name). unfold get_all_checkins.
  rewrite sort_leb_perm. apply NoDup_map_filter. exact H.
Qed.

Lemma later_examined (store : list checkin) (r : checkin) :
  r ∈ later_copies [] (get_all_checkins port_4370 store) ->
  r ∈ store /\ port_4370 r = true.
Proof.
  intros H. apply (examined_rows port_4370).
  rewrite (copies_perm [] (get_all_checkins port_4370 store)).
  apply elem_of_app. right. exact H.
Qed.

Lemma first_examined (store : list checkin) (r : checkin) :
  r ∈ first_copies [] (get_all_checkins port_4370 store) ->
  r ∈ store /\ port_4370 r = true.
Proof.
  intros H. apply (examined_rows port_4370).
  rewrite (copies_perm [] (get_all_checkins port_4370 store)).
  apply elem_of_app. left. exact H.
Qed.

(** With unique names, the rows named in [to_delete] are the later copies. *)
Lemma named_later (store : list checkin) (r : checkin) :
  NoDup (map ck_name store) -> r ∈ store ->
  named_in (map ck_name (later_copies [] (get_all_checkins port_4370 store))) r = true ->
  r ∈ later_copies [] (get_all_checkins port_4370 store).
Proof.
  intros Hnd Hr Hn. apply named_in_spec in Hn.
  apply list_elem_of_fmap in Hn as (r0 & Hname & Hr0).
  destruct (later_examined store r0 Hr0) as [Hin _].
  rewrite (NoDup_map_inj_on ck_name store r r0 Hnd Hr Hin Hname). exact Hr0.
Qed.

Lemma later_named (store : list checkin) (r : checkin) :
  r ∈ later_copies [] (get_all_checkins port_4370 store) ->
  named_in (map ck_name (later_copies [] (get_all_checkins port_4370 store))) r = true.
Proof.
  intros H. apply named_in_spec. apply list_elem_of_fmap. exists r.
  split; [reflexivity|exact H].
Qed.

Lemma first_not_later (store : list checkin) (r : checkin) :
  NoDup (map ck_name store) ->
  r ∈ first_copies [] (get_all_checkins port_4370 store) ->
  r ∉ later_copies [] (get_all_checkins port_4370 store).
Proof.
  intros Hnd Hf Hl. pose proof (examined_NoDup store Hnd) as He.
  rewrite (copies_perm [] (get_all_checkins port_4370 store)) in He.
  apply NoDup_app in He as (_ & Hdisj & _). exact (Hdisj r Hf Hl).
Qed.

Lemma deduplicated_rows (store : list checkin) (r : checkin) :
  r ∈ deduplicated store
  <-> r ∈ store
      /\ named_in (map ck_name (later_copies [] (get_all_checkins port_4370 store))) r
         = false.
Proof.
  unfold deduplicated. rewrite deduplicated_spec. cbn [snd].
  rewrite list_elem_of_In, filter_In, <- list_elem_of_In, negb_true_iff. reflexivity.
Qed.

Lemma first_kept (store : list checkin) (r : checkin) :
  NoDup (map ck_name store) ->
  r ∈ first_copies [] (get_all_checkins port_4370 store) -> r ∈ deduplicated store.
Proof.
  intros Hnd Hf. apply deduplicated_rows.
  destruct (first_examined store r Hf) as [Hin _]. split; [exact Hin|].
  destruct (named_in _ r) eqn:Hn; [|reflexivity].
  exfalso. apply (first_not_later store r Hnd Hf).
  apply named_later; assumption.
Qed.

Lemma kept_examined_first (store : list checkin) (r : checkin) :
  r ∈ deduplicated store -> port_4370 r = true ->
  r ∈ first_copies [] (get_all_checkins port_4370 store).
Proof.
  intros Hr HP. apply deduplicated_rows in Hr as [Hin Hn].
  assert (He : r ∈ get_all_checkins port_4370 store)
    by (apply examined_rows; split; assumption).
  rewrite (copies_perm [] (get_all_checkins port_4370 store)) in He.
  apply elem_of_app in He as [Hf|Hl]; [exact Hf|].
  apply later_named in Hl. congruence.
Qed.

Lemma deduplicated_no_duplicates (store : list checkin) :
  NoDup (map ck_name store) ->
  NoDup (map ConfigApp.duplicate_key (List.filter port_4370 (deduplicated store))).
Proof.
  intros Hnd. apply NoDup_fmap_2_strong.
  - intros x y Hx Hy Hk.
    apply list_elem_of_In, filter_In in Hx as [Hx HPx].
    apply list_elem_of_In, filter_In in Hy as [Hy HPy].
    apply list_elem_of_In in Hx. apply list_elem_of_In in Hy.
    pose proof (kept_examined_first store x Hx HPx) as Hfx.
    pose proof (kept_examined_first store y Hy HPy) as Hfy.
    destruct (first_copies_keys [] (get_all_checkins port_4370 store)) as [Hkeys _].
    exact (NoDup_map_inj_on _ _ x y Hkeys Hfx Hfy Hk).
  - apply (NoDup_fmap_1 ck_name). apply NoDup_map_filter.
    unfold deduplicated. rewrite deduplicated_spec. cbn [snd].
    apply NoDup_map_filter. exact Hnd.
Qed.

Lemma deleted_count (store : list checkin) :
  NoDup (map ck_name store) ->
  (fst (ConfigApp.remove_duplicate_checkins store) + length (deduplicated store))%nat
  = length store.
Proof.
  intros Hnd. unfold deduplicated. rewrite deduplicated_spec. cbn [fst snd].
  set (D := map ck_name (later_copies [] (get_all_checkins port_4370 store))).
  rewrite <- (filter_split_length (named_in D) store).
  rewrite Nat.add_comm. f_equal.
  apply Permutation_length. apply NoDup_Permutation.
  - pose proof (examined_NoDup store Hnd) as He.
    rewrite (copies_perm [] (get_all_checkins port_4370 store)) in He.
    apply NoDup_app in He as (_ & _ & Hl). exact Hl.
  - apply (NoDup_fmap_1 ck_name). apply NoDup_map_filter. exact Hnd.
  - intros r. rewrite (list_elem_of_In (List.filter _ _) r), filter_In, <- list_elem_of_In.
    split.
    + intros Hl. split; [apply (later_examined store r Hl)|apply later_named; exact Hl].
    + intros [Hin Hn]. apply named_later; assumption.
Qed.

(** X15: with unique row names, [remove_duplicate_checkins] leaves no two
    rows of port 4370 with the same employee, the same [str(time)] and the
    same label; it keeps the surviving rows in their order, never touches
    a row whose [device_id] does not contain [:4370], and reports as
    [deleted_count] the number of rows it removed. *)
Theorem remove_duplicate_checkins_leaves_no_duplicates (store : list checkin) :
  NoDup (map ck_name store) ->
  let '(deleted_count, store') := ConfigApp.remove_duplicate_checkins store in
  NoDup (map ConfigApp.duplicate_key
           (List.filter (fun r => contains ":4370" (ck_device_id r)) store'))
  /\ (exists keep, store' = List.filter keep store)
  /\ (forall r, r ∈ store -> contains ":4370" (ck_device_id r) = false -> r ∈ store')
  /\ (deleted_count + length store' = length store)%nat.
Proof.
  intros Hnd.
  pose proof (deduplicated_no_duplicates store Hnd) as H1.
  pose proof (deleted_count store Hnd) as H4.
  assert (H3 : forall r, r ∈ store -> port_4370 r = false -> r ∈ deduplicated store).
  { intros r Hr HP. apply deduplicated_rows. split; [exact Hr|].
    destruct (named_in _ r) eqn:Hn; [|reflexivity].
    apply (named_later store r Hnd Hr) in Hn.
    destruct (later_examined store r Hn) as [_ HP']. congruence. }
  unfold deduplicated in *. rewrite deduplicated_spec in *. cbn [fst snd] in *.
  split; [exact H1|]. split; [eexists; reflexivity|]. split; [exact H3|exact H4].
Qed.

(** X16: [remove_duplicate_checkins] removes copies only: with unique row
    names, every row of port 4370 of the store has, after the call, a
    row of port 4370 with the same employee, the same [str(time)] and the
    same label. *)
Theorem remove_duplicate_checkins_keeps_a_copy (store : list checkin) (r : checkin) :
  NoDup (map ck_name store) ->
  r ∈ store -> contains ":4370" (ck_device_id r) = true ->
  exists r', r' ∈ snd (ConfigApp.remove_duplicate_checkins store)
             /\ contains ":4370" (ck_device_id r') = true
             /\ ConfigApp.duplicate_key r' = ConfigApp.duplicate_key r.
Proof.
  intros Hnd Hr HP. fold (deduplicated store).
  assert (He : r ∈ get_all_checkins port_4370 store)
    by (apply examined_rows; split; assumption).
  rewrite (copies_perm [] (get_all_checkins port_4370 store)) in He.
  apply elem_of_app in He as [Hf|Hl].
  - exists r. split; [apply first_kept; assumption|]. split; [exact HP|reflexivity].
  - destruct (later_copies_twin [] _ r Hl) as [Hin|(r' & Hf & Hk)].
    + apply elem_of_nil in Hin. contradiction.
    + exists r'. split; [apply first_kept; assumption|].
      split; [apply (first_examined store r' Hf)|exact Hk].
Qed.

(** X17: [remove_duplicate_checkins] is idempotent: with unique row names,
    a second call deletes nothing and reports zero. *)
Theorem remove_duplicate_checkins_idempotent (store : list checkin) :
  NoDup (map ck_name store) ->
  ConfigApp.remove_duplicate_checkins (snd (ConfigApp.remove_duplicate_checkins store))
  = (0%nat, snd (ConfigApp.remove_duplicate_checkins store)).
Proof.
  intros Hnd. fold (deduplicated store).
  rewrite (deduplicated_spec (deduplicated store)).
  assert (Hnone : later_copies [] (get_all_checkins port_4370 (deduplicated store)) = []).
  { apply later_copies_none.
    - unfold get_all_checkins.
      rewrite (Permutation_map ConfigApp.duplicate_key
                 (sort_leb_perm by_employee_time
                    (List.filter port_4370 (deduplicated store)))).
      apply deduplicated_no_duplicates. exact Hnd.
    - intros x _ Hin. apply elem_of_nil in Hin. contradiction. }
  rewrite Hnone. simpl. f_equal.
  apply forallb_filter_id. apply forallb_forall. reflexivity.
Qed.

(** ** [fetch_zkteco_transactions] *)

Lemma fetch_pages_spec (N : network) (params : datetime * datetime) (pages : nat)
    (page_num : nat) (url : string) (acc : list dict) (requested : list string) :
  exists urls,
    (length urls <= pages)%nat
    /\ (pages <> 0%nat -> exists rest, urls = url :: rest)
    /\ ConfigApp.fetch_pages N params pages page_num url acc requested
       = (acc ++ pages_content N params page_num urls, requested ++ urls).
Proof.
  revert page_num url acc requested.
  induction pages as [|pages IH]; intros page_num url acc requested.
  - exists []. split; [simpl; lia|]. split; [intros H; contradiction|].
    simpl. rewrite !app_nil_r. reflexivity.
  - cbn [ConfigApp.fetch_pages].
    destruct (http_get N url (if (page_num =? 0)%nat then Some params else None))
      as [data|] eqn:Hget.
    + destruct (ConfigApp.page_content data) as [transactions next_url] eqn:Hpage.
      assert (Hstop :
                exists urls, (length urls <= S pages)%nat
                  /\ (S pages <> 0%nat -> exists rest, urls = url :: rest)
                  /\ (acc ++ transactions, requested ++ [url])
                     = (acc ++ pages_content N params page_num urls, requested ++ urls)).
      { exists [url]. split; [simpl; lia|]. split; [intros _; exists []; reflexivity|].
        simpl. rewrite Hget, Hpage. simpl. rewrite app_nil_r. reflexivity. }
      destruct (negb (truthy next_url)); [exact Hstop|].
      destruct next_url as [|b|z|next|d]; try exact Hstop.
      destruct (IH (S page_num) next (acc ++ transactions) (requested ++ [url]))
        as (urls & Hlen & _ & Heq).
      exists (url :: urls). split; [simpl; lia|]. split; [intros _; eexists; reflexivity|].
      rewrite Heq. simpl. rewrite Hget, Hpage. simpl.
      rewrite <- !app_assoc. reflexivity.
    + exists [url]. split; [simpl; lia|]. split; [intros _; exists []; reflexivity|].
      simpl. rewrite Hget. simpl. rewrite app_nil_r. reflexivity.
Qed.

(** X18: [fetch_zkteco_transactions] makes at least one and at most 100
    requests, the first to the transactions endpoint of the configured
    server, however the [next] links of the responses are chained; and
    what it returns is the concatenation, in order, of the transactions
    of the pages it requested, a failed request bringing nothing. *)
Theorem fetch_requests_bounded (N : network) (c : config)
    (start_time end_time : datetime) (transactions : list dict) (requested : list string) :
  ConfigApp.fetch_zkteco_transactions N c start_time end_time
  = Some (transactions, requested) ->
  (1 <= length requested <= 100)%nat
  /\ head requested
     = ConfigApp.build_api_url (cfg_server_ip c) (cfg_server_port c)
         "/iclock/api/transactions/" None
  /\ transactions
     = pages_content N (whole_seconds start_time, whole_seconds end_time) 0 requested.
Proof.
  unfold ConfigApp.fetch_zkteco_transactions.
  destruct (ConfigApp.build_api_url _ _ _ None) as [base_url|]; [|discriminate].
  destruct (fetch_pages_spec N (whole_seconds start_time, whole_seconds end_time)
              ConfigApp.max_pages 0 base_url [] []) as (urls & Hlen & Hhead & Heq).
  rewrite Heq. intros [= <- <-].
  destruct Hhead as [rest ->]; [discriminate|].
  simpl in Hlen. unfold ConfigApp.max_pages in Hlen.
  split; [simpl; lia|]. split; reflexivity.
Qed.

(** ** The lock of the sync jobs *)

Lemma dict_get_del_ne (k k' : string) (d : dict) :
  k <> k' -> dict_get k (dict_del k' d) = dict_get k d.
Proof.
  intros Hne. induction d as [|[k0 v0] d IH]; [reflexivity|].
  simpl. destruct (String.eqb k' k0) eqn:E.
  - apply String.eqb_eq in E. subst k0.
    destruct (String.eqb k k') eqn:E'; [apply String.eqb_eq in E'; contradiction|].
    reflexivity.
  - simpl. rewrite IH. reflexivity.
Qed.

Lemma dict_get_absent (k : string) (d : dict) : k ∉ map fst d -> dict_get k d = None.
Proof.
  induction d as [|[k0 v0] d IH]; intros H; [reflexivity|].
  simpl in *. apply not_elem_of_cons in H as [Hne H].
  destruct (String.eqb k k0) eqn:E; [apply String.eqb_eq in E; contradiction|].
  apply IH. exact H.
Qed.

Lemma dict_get_del_eq (k : string) (d : dict) :
  NoDup (map fst d) -> dict_get k (dict_del k d) = None.
Proof.
  induction d as [|[k0 v0] d IH]; intros H; [reflexivity|].
  simpl in H. apply NoDup_cons in H as [Hk0 H].
  simpl. destruct (String.eqb k k0) eqn:E.
  - apply String.eqb_eq in E. subst k0. apply dict_get_absent. exact Hk0.
  - simpl. rewrite E. apply IH. exact H.
Qed.

Lemma dict_set_keys (k : string) (v : value) (d : dict) :
  map fst (dict_set k v d) = map fst d
  \/ ((k ∉ map fst d) /\ map fst (dict_set k v d) = map fst d ++ [k]).
Proof.
  induction d as [|[k0 v0] d IH]; [right; split; [apply not_elem_of_nil|reflexivity]|].
  simpl. destruct (String.eqb k k0) eqn:E; [left; reflexivity|].
  simpl. destruct IH as [->|[Hout ->]]; [left; reflexivity|].
  right. split; [|reflexivity].
  apply not_elem_of_cons. split; [|exact Hout].
  intros ->. rewrite String.eqb_refl in E. discriminate.
Qed.

Lemma dict_set_NoDup (k : string) (v : value) (d : dict) :
  NoDup (map fst d) -> NoDup (map fst (dict_set k v d)).
Proof.
  intros H. destruct (dict_set_keys k v d) as [->|[Hout ->]]; [exact H|].
  apply NoDup_app. split; [exact H|]. split.
  - intros x Hx Hx'. apply list_elem_of_singleton in Hx'. subst x. contradiction.
  - apply NoDup_singleton.
Qed.

Lemma after_lock_free (lock_key : string) (cache : dict) :
  NoDup (map fst cache) -> dict_get lock_key (after_lock lock_key cache) = None.
Proof. intros H. apply dict_get_del_eq, dict_set_NoDup, H. Qed.

Lemma after_lock_other (lock_key k : string) (cache : dict) :
  k <> lock_key -> dict_get k (after_lock lock_key cache) = dict_get k cache.
Proof.
  intros H. unfold after_lock.
  rewrite dict_get_del_ne by exact H. apply dict_get_set_ne.
  intros ->. apply H. reflexivity.
Qed.

(** ** [sync_zkteco_transactions] as a whole *)

Lemma run_sync_cache (F : site) (N : network) (now current_time : datetime)
    (clock : nat -> datetime * datetime) (w : world) :
  truthy (get "zkteco_sync_lock" (w_cache w)) = false ->
  w_cache (ConfigApp.run_sync_zkteco_transactions F N now current_time clock w)
  = after_lock "zkteco_sync_lock" (w_cache w).
Proof.
  intros Hlock. unfold ConfigApp.run_sync_zkteco_transactions. rewrite Hlock.
  fold (after_lock "zkteco_sync_lock" (w_cache w)).
  destruct (String.eqb _ "4370"); [reflexivity|].
  destruct (negb (cfg_enable_sync (w_cfg w))); [reflexivity|].
  destruct (negb (truthy (cfg_token (w_cfg w)))); [reflexivity|].
  destruct (if truthy (cfg_last_sync (w_cfg w)) then _ else _) as [last_sync|];
    [|reflexivity].
  destruct (ConfigApp.fetch_zkteco_transactions N (w_cfg w) last_sync current_time)
    as [[transactions requested]|]; [|reflexivity].
  destruct (ConfigApp.sync_zkteco_transactions F clock (w_store w) transactions)
    as [[p e] s]. reflexivity.
Qed.

Lemma run_sync_skipped (F : site) (N : network) (now current_time : datetime)
    (clock : nat -> datetime * datetime) (w : world) :
  truthy (get "zkteco_sync_lock" (w_cache w)) = false ->
  sync_skipped (w_cfg w) ->
  ConfigApp.run_sync_zkteco_transactions F N now current_time clock w
  = with_cache (after_lock "zkteco_sync_lock" (w_cache w)) w.
Proof.
  intros Hlock Hskip. unfold ConfigApp.run_sync_zkteco_transactions. rewrite Hlock.
  fold (after_lock "zkteco_sync_lock" (w_cache w)).
  destruct (String.eqb _ "4370") eqn:Hport; [reflexivity|].
  destruct (cfg_enable_sync (w_cfg w)) eqn:Hen; [|reflexivity].
  destruct (truthy (cfg_token (w_cfg w))) eqn:Htok; [|reflexivity].
  exfalso. destruct Hskip as [H|[H|H]];
    [rewrite H, String.eqb_refl in Hport; discriminate|congruence|congruence].
Qed.

(** X19: [sync_zkteco_transactions] and its lock: a call that finds the
    lock taken changes nothing at all; a call that finds it free leaves it
    free, whichever way the call ends; and no other entry of the cache is
    ever touched. *)
Theorem sync_lock_discipline (F : site) (N : network) (now current_time : datetime)
    (clock : nat -> datetime * datetime) (w : world) :
  NoDup (map fst (w_cache w)) ->
  let w' := ConfigApp.run_sync_zkteco_transactions F N now current_time clock w in
  (if truthy (get "zkteco_sync_lock" (w_cache w)) then w' = w
   else dict_get "zkteco_sync_lock" (w_cache w') = None)
  /\ forall k, k <> "zkteco_sync_lock" ->
               dict_get k (w_cache w') = dict_get k (w_cache w).
Proof.
  intros Hnd. cbv zeta.
  destruct (truthy (get "zkteco_sync_lock" (w_cache w))) eqn:Hlock.
  - assert (Hsame : ConfigApp.run_sync_zkteco_transactions F N now current_time clock w = w).
    { unfold ConfigApp.run_sync_zkteco_transactions. rewrite Hlock. reflexivity. }
    rewrite Hsame. split; reflexivity.
  - rewrite run_sync_cache by exact Hlock. split.
    + apply after_lock_free. exact Hnd.
    + intros k Hk. apply after_lock_other. exact Hk.
Qed.

(** X20: when the configured port is 4370, when the sync is disabled or
    when no token is set, [sync_zkteco_transactions] makes no request (its
    result does not depend on the network) and leaves the configuration
    and the stored check-ins as they are. *)
Theorem sync_skips_without_requests (F : site) (N N' : network)
    (now current_time : datetime) (clock : nat -> datetime * datetime) (w : world) :
  sync_skipped (w_cfg w) ->
  let w' := ConfigApp.run_sync_zkteco_transactions F N now current_time clock w in
  w' = ConfigApp.run_sync_zkteco_transactions F N' now current_time clock w
  /\ w_cfg w' = w_cfg w /\ w_store w' = w_store w.
Proof.
  intros Hskip. cbv zeta.
  destruct (truthy (get "zkteco_sync_lock" (w_cache w))) eqn:Hlock.
  - unfold ConfigApp.run_sync_zkteco_transactions. rewrite Hlock.
    repeat split.
  - rewrite !run_sync_skipped by assumption. repeat split.
Qed.

(** X21: a call of [sync_zkteco_transactions] that gets past the lock and
    the three checks, reads its [last_sync] and fetches an empty list of
    transactions still sets [last_sync] to its [current_time]; it leaves
    the stored check-ins and [total_synced_records] as they are. *)
Theorem sync_advances_last_sync_without_transactions (F : site) (N : network)
    (now current_time : datetime) (clock : nat -> datetime * datetime) (w : world)
    (start_time : datetime) (requested : list string) :
  truthy (get "zkteco_sync_lock" (w_cache w)) = false ->
  ~ sync_skipped (w_cfg w) ->
  (if truthy (cfg_last_sync (w_cfg w))
   then get_datetime (py F) (cfg_last_sync (w_cfg w))
   else Some (now - 60 * us_per_minute)) = Some start_time ->
  ConfigApp.fetch_zkteco_transactions N (w_cfg w) start_time current_time
  = Some ([], requested) ->
  let w' := ConfigApp.run_sync_zkteco_transactions F N now current_time clock w in
  cfg_last_sync (w_cfg w') = VDatetime current_time
  /\ cfg_total_synced_records (w_cfg w') = cfg_total_synced_records (w_cfg w)
  /\ w_store w' = w_store w.
Proof.
  intros Hlock Hrun Hstart Hfetch. cbv zeta.
  unfold ConfigApp.run_sync_zkteco_transactions. rewrite Hlock.
  destruct (String.eqb _ "4370") eqn:Hport.
  { exfalso. apply Hrun. left. apply String.eqb_eq. exact Hport. }
  destruct (cfg_enable_sync (w_cfg w)) eqn:Hen;
    [|exfalso; apply Hrun; right; left; exact Hen].
  destruct (truthy (cfg_token (w_cfg w))) eqn:Htok;
    [|exfalso; apply Hrun; right; right; exact Htok].
  cbn [negb]. rewrite Hstart, Hfetch.
  cbn. split; [reflexivity|]. split; [lia|reflexivity].
Qed.

(** ** [device_mode_sync] *)

(** After the pass a record carries a valid label or is as it was. *)
Lemma adjust_cases (E : py_env) (ts : list dict) (i : nat) (t' : dict) :
  ConfigApp.adjust_checkin_sequence E ts !! i = Some t' ->
  labelled t' \/ ts !! i = Some t'.
Proof.
  intros Ht'.
  assert (Hlt : (i < length ts)%nat).
  { rewrite <- (adjust_length E ts). apply lookup_lt_is_Some_1. exists t'. exact Ht'. }
  destruct (lookup_lt_is_Some_2 _ _ Hlt) as [t Ht].
  destruct (ConfigApp.group_entry E t) as [[k dt]|] eqn:Hg.
  - left. destruct (adjust_grouped_labelled E ts i t Ht) as (t1 & Ht1 & Hl).
    { exists k, dt. exact Hg. }
    rewrite Ht' in Ht1. injection Ht1 as <-. exact Hl.
  - right. rewrite <- Ht'. symmetry. apply adjust_frame.
    intros Hin. destruct (all_indices_grouped E ts i Hin) as (t0 & Hi0 & k & dt & Hg0).
    rewrite Ht in Hi0. injection Hi0 as <-. congruence.
Qed.

Lemma labelled_v2_label (t : dict) :
  labelled t -> v2_label t = "IN" \/ v2_label t = "OUT".
Proof.
  intros [l Hl]. unfold v2_label, get_default.
  unfold ConfigApp.existing_label in Hl.
  destruct (dict_get "log_type" t) as [v|]; [|discriminate].
  destruct v as [|b|z|s|d]; simpl in Hl; try discriminate.
  destruct (String.eqb s "IN") eqn:E1; [apply String.eqb_eq in E1; left; exact E1|].
  destruct (String.eqb s "OUT") eqn:E2; [apply String.eqb_eq in E2; right; exact E2|].
  discriminate.
Qed.

Lemma attendance_transactions_built (records : list attendance) (acc ts : list dict) :
  Forall device_transaction acc ->
  ConfigApp.attendance_transactions records acc = Some ts ->
  Forall device_transaction ts.
Proof.
  revert acc. induction records as [|att rest IH]; intros acc Hacc; simpl.
  - intros [= <-]. exact Hacc.
  - destruct (py_int (att_punch att)) as [p|]; [|discriminate].
    apply IH. destruct (_ && _); [|exact Hacc].
    apply Forall_app. split; [exact Hacc|].
    constructor; [|constructor]. eexists _, _, _. reflexivity.
Qed.

Lemma adjusted_device_labels (E : py_env) (ts : list dict) :
  Forall device_transaction ts ->
  Forall (fun t => v2_label t = "IN" \/ v2_label t = "OUT")
    (ConfigApp.adjust_checkin_sequence E ts).
Proof.
  intros Hall. apply Forall_lookup. intros i t' Ht'.
  destruct (adjust_cases E ts i t' Ht') as [Hl|Hsame].
  - apply labelled_v2_label, Hl.
  - rewrite Forall_lookup in Hall.
    destruct (Hall i t' Hsame) as (e & d & p & ->). left. reflexivity.
Qed.

Lemma attendance_loop_rows (F : site) (clock : nat -> datetime) (ts : list dict)
    (i : nat) (device_id : string) (c : nat) (s : list checkin) :
  let '(c', s') := ConfigApp.attendance_loop F clock i ts device_id c s in
  exists new,
    s' = s ++ new /\ (length new + c <= c')%nat
    /\ Forall (fun row => ck_device_id row = device_id
                          /\ exists t, t ∈ ts /\ ck_log_type row = v2_label t) new.
Proof.
  revert i c s. induction ts as [|t ts IH]; intros i c s.
  - simpl. exists []. rewrite app_nil_r. repeat split; [simpl; lia|constructor].
  - simpl.
    pose proof (v2_create_grows F (clock i) s t device_id) as Hg. cbv zeta in Hg.
    destruct (ConfigApp.create_checkin_from_attendance_v2 F (clock i) s t device_id)
      as [r s1] eqn:Hc.
    simpl in Hg.
    assert (Hweak : forall new : list checkin,
              Forall (fun row => ck_device_id row = device_id
                          /\ exists t0, t0 ∈ ts /\ ck_log_type row = v2_label t0) new ->
              Forall (fun row => ck_device_id row = device_id
                          /\ exists t0, t0 ∈ t :: ts /\ ck_log_type row = v2_label t0) new).
    { intros new HF. eapply Forall_impl; [exact HF|]. intros row [Hd (t0 & Hin & Hl)].
      split; [exact Hd|]. exists t0. split; [right; exact Hin|exact Hl]. }
    destruct Hg as [[-> ->]|[[-> ->]|(e & d & _ & Heq)]].
    + specialize (IH (S i) c s).
      destruct (ConfigApp.attendance_loop F clock (S i) ts device_id c s) as [c' s'].
      destruct IH as (new & Hnew & Hlen & Hall).
      exists new. split; [exact Hnew|]. split; [exact Hlen|apply Hweak, Hall].
    + specialize (IH (S i) (S c) s).
      destruct (ConfigApp.attendance_loop F clock (S i) ts device_id (S c) s) as [c' s'].
      destruct IH as (new & Hnew & Hlen & Hall).
      exists new. split; [exact Hnew|]. split; [lia|apply Hweak, Hall].
    + injection Heq as -> ->.
      specialize (IH (S i) (S c) (s ++ [v2_row F s e d device_id t])).
      destruct (ConfigApp.attendance_loop F clock (S i) ts device_id (S c) _) as [c' s'].
      destruct IH as (new & Hnew & Hlen & Hall).
      exists (v2_row F s e d device_id t :: new).
      split; [rewrite Hnew, <- app_assoc; reflexivity|]. split; [simpl; lia|].
      constructor; [|apply Hweak, Hall].
      split; [reflexivity|]. exists t. split; [left|reflexivity].
Qed.

(** X22: the rows [device_mode_sync] adds to the store all carry the
    [device_id] made of the configured address and [:4370] and a label
    [IN] or [OUT]; the call only appends to the store; when it succeeds,
    [created] is at least the number of rows appended, [last_sync] is the
    time read after the loop and [total_synced_records] has grown by
    [created]; when it does not succeed, neither the store nor the
    configuration has changed. *)
Theorem device_mode_sync_rows (F : site) (N : network) (clock : nat -> datetime)
    (now : datetime) (w : world) :
  let '(result, w') := ConfigApp.device_mode_sync F N clock now w in
  exists new,
    w_store w' = w_store w ++ new
    /\ Forall (fun row =>
                 ck_device_id row = py_str (cfg_server_ip (w_cfg w)) +:+ ":4370"
                 /\ (ck_log_type row = "IN" \/ ck_log_type row = "OUT")) new
    /\ match result with
       | SyncCreated created =>
           (length new <= created)%nat
           /\ cfg_last_sync (w_cfg w') = VDatetime now
           /\ cfg_total_synced_records (w_cfg w')
              = cfg_total_synced_records (w_cfg w) + Z.of_nat created
       | _ => new = [] /\ w_cfg w' = w_cfg w
       end.
Proof.
  unfold ConfigApp.device_mode_sync.
  assert (Hnone : forall c : dict,
            exists new : list checkin,
              w_store (with_cache c w) = w_store w ++ new
              /\ Forall (fun row =>
                   ck_device_id row = py_str (cfg_server_ip (w_cfg w)) +:+ ":4370"
                   /\ (ck_log_type row = "IN" \/ ck_log_type row = "OUT")) new
              /\ new = [] /\ w_cfg (with_cache c w) = w_cfg w).
  { intros c. exists []. simpl. rewrite app_nil_r. repeat split. constructor. }
  destruct (truthy (get "zkteco_device_sync_lock" (w_cache w))).
  { exists []. rewrite app_nil_r. repeat split. constructor. }
  destruct (int_of_string _) as [port|]; [|apply Hnone].
  destruct (port =? 4370) eqn:Hport; [|apply Hnone].
  apply Z.eqb_eq in Hport. subst port. cbn [negb].
  destruct (zk_library N); [|apply Hnone]. cbn [negb].
  destruct (get_attendance N _ 4370) as [records|]; [|apply Hnone].
  destruct (ConfigApp.attendance_transactions records []) as [ts|] eqn:Hts; [|apply Hnone].
  pose proof (attendance_transactions_built records [] ts (Forall_nil_2 _) Hts) as Hbuilt.
  pose proof (adjusted_device_labels (py F) ts Hbuilt) as Hlabels.
  pose proof (attendance_loop_rows F clock (ConfigApp.adjust_checkin_sequence (py F) ts) 0
                (py_str (cfg_server_ip (w_cfg w)) +:+ ":" +:+ str_of_int 4370) 0 (w_store w))
    as Hloop.
  destruct (ConfigApp.attendance_loop F clock 0 _ _ 0 (w_store w)) as [created store].
  destruct Hloop as (new & Hnew & Hlen & Hrows).
  exists new. cbn. split; [exact Hnew|]. split.
  - eapply Forall_impl; [exact Hrows|]. intros row [Hd (t & Hin & Hl)].
    split; [exact Hd|]. rewrite Hl.
    rewrite Forall_forall in Hlabels. apply Hlabels. exact Hin.
  - split; [lia|]. split; reflexivity.
Qed.

(** ** The punch value of the device is not used *)

Lemma same_but_punch_get (t t' : dict) (k : string) :
  same_but_punch t t' -> k <> "punch" -> get k t = get k t'.
Proof. intros H Hk. unfold get. rewrite (H k Hk). reflexivity. Qed.

Lemma same_but_punch_group_entry (E : py_env) (t t' : dict) :
  same_but_punch t t' -> ConfigApp.group_entry E t = ConfigApp.group_entry E t'.
Proof.
  intros H. unfold ConfigApp.group_entry.
  rewrite !(same_but_punch_get t t' _ H) by discriminate. reflexivity.
Qed.

Lemma same_but_punch_label (t t' : dict) :
  same_but_punch t t' -> ConfigApp.existing_label t = ConfigApp.existing_label t'.
Proof.
  intros H. unfold ConfigApp.existing_label. rewrite (H "log_type") by discriminate.
  reflexivity.
Qed.

Lemma same_but_punch_set (k0 : string) (v : value) (t t' : dict) :
  same_but_punch t t' -> same_but_punch (dict_set k0 v t) (dict_set k0 v t').
Proof.
  intros H k Hk. destruct (String.eqb_spec k0 k) as [->|Hne].
  - rewrite !dict_get_set_eq. reflexivity.
  - rewrite !dict_get_set_ne by exact Hne. apply H, Hk.
Qed.

Lemma same_but_punch_mark (l : label) (t t' : dict) :
  same_but_punch t t' -> same_but_punch (ConfigApp.mark l t) (ConfigApp.mark l t').
Proof. intros H. unfold ConfigApp.mark. apply same_but_punch_set, same_but_punch_set, H. Qed.

Lemma set_unless_labelled_related (l : label) (i : nat) (ts ts' : list dict) :
  Forall2 same_but_punch ts ts' ->
  Forall2 same_but_punch (ConfigApp.set_unless_labelled l i ts)
    (ConfigApp.set_unless_labelled l i ts').
Proof.
  intros H. unfold ConfigApp.set_unless_labelled.
  apply Forall2_alter; [exact H|]. intros x y _ _ Hxy.
  rewrite (same_but_punch_label x y Hxy).
  destruct (ConfigApp.existing_label y); [exact Hxy|apply same_but_punch_mark, Hxy].
Qed.

Lemma alternate_middle_related (mids : list nat) (prev : label) (ts ts' : list dict) :
  Forall2 same_but_punch ts ts' ->
  Forall2 same_but_punch (ConfigApp.alternate_middle prev mids ts)
    (ConfigApp.alternate_middle prev mids ts').
Proof.
  revert prev ts ts'. induction mids as [|i rest IH]; intros prev ts ts' H; [exact H|].
  simpl. destruct (ts !! i) as [x|] eqn:Hx.
  - destruct (Forall2_lookup_l _ _ _ _ _ H Hx) as (y & Hy & Hxy). rewrite Hy.
    rewrite (same_but_punch_label x y Hxy).
    destruct (ConfigApp.existing_label y); [apply IH, H|].
    apply IH. apply Forall2_alter; [exact H|].
    intros a b _ _ Hab. apply same_but_punch_mark, Hab.
  - destruct (ts' !! i) as [y|] eqn:Hy; [|apply IH, H].
    destruct (Forall2_lookup_r _ _ _ _ _ H Hy) as (x & Hx' & _). congruence.
Qed.

Lemma process_group_related (ps : list (datetime * nat)) (ts ts' : list dict) :
  Forall2 same_but_punch ts ts' ->
  Forall2 same_but_punch (ConfigApp.process_group ps ts) (ConfigApp.process_group ps ts').
Proof.
  intros H. unfold ConfigApp.process_group.
  destruct (map snd (sort_by fst ps)) as [|first [|r rest]]; [exact H|..].
  - apply set_unless_labelled_related, H.
  - destruct (length (sort_by fst ps) =? 2)%nat.
    + apply set_unless_labelled_related, set_unless_labelled_related, H.
    + apply alternate_middle_related, set_unless_labelled_related,
        set_unless_labelled_related, H.
Qed.

Lemma adjust_related (E : py_env) (ts ts' : list dict) :
  Forall2 same_but_punch ts ts' ->
  Forall2 same_but_punch (ConfigApp.adjust_checkin_sequence E ts)
    (ConfigApp.adjust_checkin_sequence E ts').
Proof.
  intros H. rewrite !adjust_is_process_groups.
  assert (HG : groups_of E ts' = groups_of E ts).
  { apply group_punches_ext. symmetry.
    induction H as [|x y l l' Hxy _ IH]; [reflexivity|].
    simpl. rewrite (same_but_punch_group_entry E x y Hxy), IH. reflexivity. }
  rewrite HG. clear HG. generalize (groups_of E ts). intros G.
  revert ts ts' H. induction G as [|g G IH]; intros ts ts' H; [exact H|].
  unfold process_groups in *. simpl. apply IH. apply process_group_related, H.
Qed.

Lemma v2_related (F : site) (current_time : datetime) (store : list checkin)
    (t t' : dict) (device_id : string) :
  same_but_punch t t' ->
  ConfigApp.create_checkin_from_attendance_v2 F current_time store t device_id
  = ConfigApp.create_checkin_from_attendance_v2 F current_time store t' device_id.
Proof.
  intros H. unfold ConfigApp.create_checkin_from_attendance_v2.
  rewrite !(same_but_punch_get t t' _ H) by discriminate.
  unfold get_default. rewrite (H "log_type") by discriminate. reflexivity.
Qed.

Lemma attendance_loop_related (F : site) (clock : nat -> datetime) (ts ts' : list dict)
    (i : nat) (device_id : string) (c : nat) (s : list checkin) :
  Forall2 same_but_punch ts ts' ->
  ConfigApp.attendance_loop F clock i ts device_id c s
  = ConfigApp.attendance_loop F clock i ts' device_id c s.
Proof.
  intros H. revert i c s. induction H as [|x y l l' Hxy _ IH]; intros i c s; [reflexivity|].
  simpl. rewrite (v2_related F (clock i) s x y device_id Hxy).
  destruct (ConfigApp.create_checkin_from_attendance_v2 F (clock i) s y device_id)
    as [r s1].
  destruct r as [[|]|]; apply IH.
Qed.

Lemma attendance_transaction_related (e : string) (d : value) (p p' : Z) :
  same_but_punch (ConfigApp.attendance_transaction e d p)
    (ConfigApp.attendance_transaction e d p').
Proof.
  intros k Hk. unfold ConfigApp.attendance_transaction. simpl.
  destruct (String.eqb k "emp_code"); [reflexivity|].
  destruct (String.eqb k "punch_time"); [reflexivity|].
  destruct (String.eqb k "punch") eqn:E; [apply String.eqb_eq in E; contradiction|].
  reflexivity.
Qed.

Lemma attendance_transactions_related (records records' : list attendance)
    (acc acc' : list dict) :
  Forall2 same_punch_apart records records' ->
  Forall2 same_but_punch acc acc' ->
  exists ts ts',
    ConfigApp.attendance_transactions records acc = Some ts
    /\ ConfigApp.attendance_transactions records' acc' = Some ts'
    /\ Forall2 same_but_punch ts ts'.
Proof.
  intros H. revert acc acc'.
  induction H as [|a a' l l' (Hu & Ht & Hp & Hp') _ IH]; intros acc acc' Hacc.
  - exists acc, acc'. repeat split. exact Hacc.
  - simpl. rewrite Hu, Ht.
    destruct (py_int (att_punch a)) as [p|]; [|contradiction].
    destruct (py_int (att_punch a')) as [p'|]; [|contradiction].
    apply IH. destruct (_ && _); [|exact Hacc].
    apply Forall2_app; [exact Hacc|].
    constructor; [apply attendance_transaction_related|constructor].
Qed.

(** X23: [device_mode_sync] does not use the punch value the device
    reports: two lists of attendance records that differ only in their
    [punch] attributes (each readable by [int()]) lead to the same result
    and the same stored check-ins. *)
Theorem device_mode_sync_ignores_punch (F : site) (N N' : network)
    (clock : nat -> datetime) (now : datetime) (w : world)
    (records records' : list attendance) :
  zk_library N' = zk_library N ->
  get_attendance N (cfg_server_ip (w_cfg w)) 4370 = Some records ->
  get_attendance N' (cfg_server_ip (w_cfg w)) 4370 = Some records' ->
  Forall2 same_punch_apart records records' ->
  ConfigApp.device_mode_sync F N' clock now w = ConfigApp.device_mode_sync F N clock now w.
Proof.
  intros Hlib Hrec Hrec' Hrel. unfold ConfigApp.device_mode_sync.
  destruct (truthy (get "zkteco_device_sync_lock" (w_cache w))); [reflexivity|].
  destruct (int_of_string _) as [port|]; [|reflexivity].
  destruct (port =? 4370) eqn:Hport; [|reflexivity].
  apply Z.eqb_eq in Hport. subst port. cbn [negb].
  rewrite Hlib. destruct (zk_library N); [|reflexivity]. cbn [negb].
  rewrite Hrec, Hrec'.
  destruct (attendance_transactions_related records records' [] [] Hrel
              ltac:(constructor))
    as (ts & ts' & -> & -> & Hts).
  rewrite (attendance_loop_related F clock _ _ 0 _ 0 (w_store w)
             (adjust_related (py F) ts ts' Hts)).
  reflexivity.
Qed.

(** ** [create_checkin_from_attendance] *)

Lemma punch_label_spec (att : attendance) :
  match py_int (att_punch att) with
  | Some punch_val => if punch_val =? 1 then "OUT" else "IN"
  | None => "IN"
  end = punch_label att.
Proof.
  unfold punch_label. destruct (py_int (att_punch att)) as [p|]; [|reflexivity].
  destruct (p =? 1) eqn:E.
  - apply Z.eqb_eq in E. subst p. reflexivity.
  - destruct p as [|q|q]; try reflexivity. destruct q; try reflexivity. discriminate E.
Qed.

(** X24: the row [create_checkin_from_attendance] appends is labelled
    [OUT] when [int()] reads the record's [punch] as 1 and [IN] in every
    other case, also when [int()] fails; it carries the record's
    timestamp and the given [device_id]; and a second call with the same
    record and the same clock reading writes nothing more. *)
Theorem create_checkin_from_attendance_label (F : site) (current_time : datetime)
    (store : list checkin) (att : attendance) (device_id : string)
    (o : outcome) (row : checkin) :
  ConfigApp.create_checkin_from_attendance F current_time store att device_id
  = (o, store ++ [row]) ->
  o = Return true
  /\ ck_log_type row = punch_label att
  /\ att_timestamp att = VDatetime (ck_time row)
  /\ ck_device_id row = device_id
  /\ ConfigApp.create_checkin_from_attendance F current_time (store ++ [row]) att device_id
     = (Return true, store ++ [row]).
Proof.
  unfold ConfigApp.create_checkin_from_attendance.
  rewrite punch_label_spec.
  assert (Hno : forall b : bool, (Return b, store) = (o, store ++ [row]) -> False).
  { intros b [= _ H]. exact (snoc_not_same _ _ H). }
  destruct (String.eqb _ ""); [intros H; destruct (Hno _ H)|].
  destruct (ConfigApp.find_employee_by_code F _) as [employee|];
    [|intros H; destruct (Hno _ H)].
  destruct (negb (truthy (att_timestamp att))); [intros H; destruct (Hno _ H)|].
  destruct (att_timestamp att) as [|b|z|s|d]; try (intros H; destruct (Hno _ H)).
  destruct (d >? current_time + minutes 5); [intros H; destruct (Hno _ H)|].
  destruct (d <? current_time - days max_past_days); [intros H; destruct (Hno _ H)|].
  destruct (existsb _ store) eqn:Hm; [intros H; destruct (Hno _ H)|].
  destruct (insert F store _); try (intros H; destruct (Hno _ H)).
  intros [= <- Hrow]. apply snoc_inj in Hrow. subst row. cbn.
  repeat split.
  rewrite existsb_app. cbn. rewrite !String.eqb_refl, Z.eqb_refl. cbn.
  rewrite orb_true_r. reflexivity.
Qed.

(** ** What a repaired store looks like *)

(** *** Sorting a filtered list *)

Section InsertCommute.
Context {A : Type} (key : A -> Z).

Lemma insert_sorted_swap (a x : A) (l : list A) :
key a < key x ->
insert_sorted (fun u v => key u <=? key v) a
  (insert_sorted (fun u v => key u <=? key v) x l)
= insert_sorted (fun u v => key u <=? key v) x
    (insert_sorted (fun u v => key u <=? key v) a l).
Proof.
intros Hax.
assert (E1 : (key a <=? key x) = true) by (apply Z.leb_le; lia).
assert (E2 : (key x <=? key a) = false) by (apply Z.leb_gt; lia).
induction l as [|y l IH]; cbn [insert_sorted]; rewrite ?E1, ?E2; [reflexivity|].
destruct (key x <=? key y) eqn:Exy; destruct (key a <=? key y) eqn:Eay;
  cbn [insert_sorted]; rewrite ?E1, ?E2, ?Exy, ?Eay; try reflexivity.
- apply Z.leb_le in Exy. apply Z.leb_gt in Eay. lia.
- rewrite IH. reflexivity.
Qed.

(** Moving an element in front of elements of strictly smaller key does
  not change the sorted list. *)
Lemma sort_by_move_front (pre post : list A) (x : A) :
(forall y, y ∈ pre -> key y < key x) ->
sort_by key (pre ++ x :: post) = sort_by key (x :: pre ++ post).
Proof.
unfold sort_by. induction pre as [|a pre IH]; intros H; [reflexivity|].
cbn [app sort_leb]. rewrite IH by (intros y Hy; apply H; right; exact Hy).
cbn [sort_leb]. apply insert_sorted_swap. apply H. left.
Qed.
End InsertCommute.

Lemma insert_sorted_split {A : Type} (leb : A -> A -> bool) (x : A) (l : list A) :
  exists pre post,
    l = pre ++ post /\ insert_sorted leb x l = pre ++ x :: post
    /\ forall y, y ∈ pre -> leb x y = false.
Proof.
  induction l as [|y l IH]; simpl.
  - exists [], []. repeat split. intros y Hy. apply elem_of_nil in Hy. contradiction.
  - destruct (leb x y) eqn:E.
    + exists [], (y :: l). repeat split.
      intros z Hz. apply elem_of_nil in Hz. contradiction.
    + destruct IH as (pre & post & Hl & Hins & Hpre).
      exists (y :: pre), post. split; [simpl; rewrite Hl; reflexivity|].
      split; [simpl; rewrite Hins; reflexivity|].
      intros z Hz. apply elem_of_cons in Hz as [->|Hz]; [exact E|apply Hpre, Hz].
Qed.

Lemma string_compare_refl (s : string) : String.compare s s = Eq.
Proof.
  pose proof (String.compare_antisym s s) as H.
  destruct (String.compare s s); simpl in H; try discriminate; reflexivity.
Qed.

Lemma has_key_employee (k : string * Z) (r : checkin) :
  in_day k r = true -> ck_employee r = fst k /\ date_key (ck_time r) = snd k.
Proof.
  unfold in_day, day_key_eqb. simpl. intros H.
  apply andb_true_iff in H as [H1 H2].
  apply String.eqb_eq in H1. apply Z.eqb_eq in H2. split; assumption.
Qed.

(** Ordering the rows by employee and time first does not change the
    chronological order of the rows of one key. *)
Lemma day_rows_of_ordered (k : string * Z) (rows : list checkin) :
  sort_by ck_time (List.filter (in_day k) (sort_leb by_employee_time rows))
  = sort_by ck_time (List.filter (in_day k) rows).
Proof.
  induction rows as [|x rows IH]; [reflexivity|].
  cbn [sort_leb].
  destruct (insert_sorted_split by_employee_time x (sort_leb by_employee_time rows))
    as (pre & post & Hl & Hins & Hpre).
  rewrite Hins. rewrite Hl in IH.
  rewrite List.filter_app in *. cbn [List.filter].
  destruct (in_day k x) eqn:Hx.
  - rewrite sort_by_move_front.
    + unfold sort_by in *. cbn [sort_leb]. rewrite IH. reflexivity.
    + intros y Hy. apply list_elem_of_In, filter_In in Hy as [Hy Hky].
      apply list_elem_of_In in Hy. specialize (Hpre y Hy).
      apply has_key_employee in Hx as [Hx _]. apply has_key_employee in Hky as [Hky _].
      unfold by_employee_time in Hpre. rewrite Hx, Hky, string_compare_refl in Hpre.
      apply Z.leb_gt in Hpre. exact Hpre.
  - exact IH.
Qed.

(** *** The groups of the repair passes *)

Lemma day_key_eqb_eq (a b : string * Z) : day_key_eqb a b = true <-> a = b.
Proof.
  destruct a as [a1 a2], b as [b1 b2]. unfold day_key_eqb. simpl.
  rewrite andb_true_iff, String.eqb_eq, Z.eqb_eq. split.
  - intros [-> ->]. reflexivity.
  - intros [= -> ->]. split; reflexivity.
Qed.

Lemma day_key_eqb_sym (a b : string * Z) : day_key_eqb a b = day_key_eqb b a.
Proof.
  destruct (day_key_eqb a b) eqn:H1, (day_key_eqb b a) eqn:H2; try reflexivity.
  - apply day_key_eqb_eq in H1. subst b. rewrite <- H2. symmetry.
    apply day_key_eqb_eq. reflexivity.
  - apply day_key_eqb_eq in H2. subst b. rewrite <- H1.
    apply day_key_eqb_eq. reflexivity.
Qed.

Lemma day_group_add (k k' : string * Z) (x : fix_entry)
    (G : list ((string * Z) * list fix_entry)) :
  day_group k (group_add day_key_eqb k' x G)
  = if day_key_eqb k' k then day_group k G ++ [x] else day_group k G.
Proof.
  unfold day_group. induction G as [|[k0 xs] G IH]; simpl.
  - rewrite (day_key_eqb_sym k k'). destruct (day_key_eqb k' k); reflexivity.
  - destruct (day_key_eqb k' k0) eqn:E0; simpl.
    + apply day_key_eqb_eq in E0. subst k0.
      rewrite (day_key_eqb_sym k k'). destruct (day_key_eqb k' k); reflexivity.
    + destruct (day_key_eqb k k0) eqn:E1; [|exact IH].
      apply day_key_eqb_eq in E1. subst k0. rewrite E0. reflexivity.
Qed.

Lemma day_group_checkins (k : string * Z) (rows : list checkin)
    (G : list ((string * Z) * list fix_entry)) :
  day_group k (group_checkins rows G)
  = day_group k G ++ map entry_of (List.filter (in_day k) rows).
Proof.
  revert G. induction rows as [|r rows IH]; intros G; simpl.
  - rewrite app_nil_r. reflexivity.
  - rewrite IH, day_group_add. fold (entry_of r). unfold in_day at 2.
    destruct (day_key_eqb (ck_employee r, date_key (ck_time r)) k); simpl;
      [rewrite <- app_assoc|]; reflexivity.
Qed.

Lemma day_group_member (k : string * Z) (G : list ((string * Z) * list fix_entry)) :
  day_group k G <> [] -> exists k0, (k0, day_group k G) ∈ G.
Proof.
  unfold day_group. destruct (List.find _ G) as [[k0 es]|] eqn:Hf; [|intros H; contradiction].
  intros _. apply find_some in Hf as [Hin _]. exists k0. simpl.
  apply list_elem_of_In. exact Hin.
Qed.

(** *** The correct labels of a day *)

Lemma audit_from_labels (len idx : nat) (p : label) (daily : list fix_entry) :
  (1 <= idx)%nat -> (idx + length daily = len)%nat -> daily <> [] ->
  map snd (audit_from len idx (label_str p) daily)
  = map label_str (alternating_from (opposite p) (length daily - 1)) ++ ["OUT"].
Proof.
  revert idx p. induction daily as [|c rest IH]; intros idx p Hidx Hlen Hne;
    [contradiction|].
  cbn [audit_from map length].
  destruct (idx =? 0)%nat eqn:E0; [apply Nat.eqb_eq in E0; lia|].
  destruct rest as [|c' rest'].
  - simpl in Hlen. assert (E1 : (idx =? len - 1)%nat = true) by (apply Nat.eqb_eq; lia).
    rewrite E1. reflexivity.
  - assert (E1 : (idx =? len - 1)%nat = false) by (apply Nat.eqb_neq; simpl in Hlen; lia).
    rewrite E1.
    assert (Hnext : (if String.eqb (label_str p) "IN" then "OUT" else "IN")
                    = label_str (opposite p)) by (destruct p; reflexivity).
    rewrite Hnext.
    rewrite (IH (S idx) (opposite p)); [|lia|simpl in *; lia|discriminate].
    replace (S (length (c' :: rest')) - 1)%nat with (S (length (c' :: rest') - 1))
      by (simpl; lia).
    reflexivity.
Qed.

Lemma audit_from_head (len : nat) (prev : string) (c : fix_entry)
    (rest : list fix_entry) :
  audit_from len 0 prev (c :: rest) = (c, "IN") :: audit_from len 1 "IN" rest.
Proof. reflexivity. Qed.

Lemma audit_day_labels (daily : list fix_entry) :
  map snd (audit_day daily) = repaired_labels (length daily).
Proof.
  unfold audit_day. rewrite <- (sort_leb_length (fun x y => fe_time x <=? fe_time y) daily).
  fold (sort_by fe_time daily).
  destruct (sort_by fe_time daily) as [|c [|c' rest]]; [reflexivity..|].
  rewrite audit_from_head. cbn [map snd].
  pose proof (audit_from_labels (length (c :: c' :: rest)) 1 IN (c' :: rest)
                ltac:(lia) ltac:(reflexivity) ltac:(discriminate)) as H.
  cbn [label_str] in H. rewrite H. simpl. rewrite Nat.sub_0_r. reflexivity.
Qed.

Lemma no_mismatch (a : list (fix_entry * string)) :
  mismatches a = [] -> map (fun ck => fe_current (fst ck)) a = map snd a.
Proof.
  unfold mismatches. induction a as [|[c k] a IH]; [reflexivity|].
  cbn [List.filter fst snd]. destruct (String.eqb (fe_current c) k) eqn:E; simpl.
  - intros H. apply String.eqb_eq in E. rewrite E, IH by exact H. reflexivity.
  - discriminate.
Qed.

Lemma mismatches_app (a b : list (fix_entry * string)) :
  mismatches (a ++ b) = mismatches a ++ mismatches b.
Proof. unfold mismatches. rewrite List.filter_app, map_app. reflexivity. Qed.

Lemma audit_group_correct (rows : list checkin) (k0 : string * Z) (es : list fix_entry) :
  mismatches (audit rows) = [] ->
  (k0, es) ∈ group_checkins rows [] ->
  mismatches (audit_day es) = [].
Proof.
  unfold audit. generalize (group_checkins rows []). intros G HG Hin.
  induction G as [|g G IH]; [apply elem_of_nil in Hin; contradiction|].
  simpl in HG. rewrite mismatches_app in HG. apply app_eq_nil in HG as [Hg HG].
  apply elem_of_cons in Hin as [<-|Hin]; [exact Hg|apply IH; assumption].
Qed.

(** The labels of the rows of a key, in chronological order, once every
    examined label is correct. *)
Lemma correct_day_labels (rows : list checkin) (k : string * Z) :
  mismatches (audit rows) = [] ->
  map ck_log_type (sort_by ck_time (List.filter (in_day k) rows))
  = repaired_labels (length (List.filter (in_day k) rows)).
Proof.
  intros Hok.
  pose proof (day_group_checkins k rows []) as Hgroup.
  change (day_group k []) with (@nil fix_entry) in Hgroup. simpl in Hgroup.
  destruct (List.filter (in_day k) rows) as [|r0 rest] eqn:Hf; [reflexivity|].
  destruct (day_group_member k (group_checkins rows [])) as [k0 Hin];
    [rewrite Hgroup; discriminate|].
  rewrite Hgroup in Hin.
  pose proof (audit_group_correct rows k0 _ Hok Hin) as Hday.
  apply no_mismatch in Hday. rewrite audit_day_labels, length_map in Hday.
  rewrite <- Hday. rewrite <- (map_map fst fe_current).
  unfold audit_day. rewrite audit_from_fst.
  unfold sort_by.
  rewrite (sort_leb_map (fun x y => ck_time x <=? ck_time y)
             (fun x y => fe_time x <=? fe_time y) entry_of) by reflexivity.
  rewrite map_map. reflexivity.
Qed.

Lemma filter_filter_and {A : Type} (P Q : A -> bool) (l : list A) :
  List.filter Q (List.filter P l) = List.filter (fun x => P x && Q x) l.
Proof.
  induction l as [|x l IH]; [reflexivity|].
  simpl. destruct (P x); simpl; [destruct (Q x)|]; rewrite IH; reflexivity.
Qed.

Lemma repaired_all_correct (P : checkin -> bool) (store : list checkin) :
  (forall U r, P (relabel_row U r) = P r) ->
  NoDup (map ck_name store) ->
  mismatches (audit (get_all_checkins P (repaired P store))) = [].
Proof.
  intros HP Hnd. exact (proj1 (audit_after_updates P store HP Hnd)).
Qed.

(** X25: after [fix_existing_checkins] (row names being unique), the rows
    of port 4370 of every employee on every day carry, in chronological
    order, the labels of a repaired day: [IN] alone for one row;
    otherwise labels that alternate [IN], [OUT], ... on all rows but the
    last, and [OUT] on the last row. *)
Theorem fix_existing_checkins_repairs_every_day (store : list checkin)
    (employee : string) (day : Z) :
  NoDup (map ck_name store) ->
  let store' := snd (ConfigApp.fix_existing_checkins store) in
  map ck_log_type (day_rows employee day store')
  = repaired_labels (length (day_rows employee day store')).
Proof.
  intros Hnd. cbv zeta. rewrite app_fix_repaired. cbn [snd].
  assert (Hrows : day_rows employee day (repaired port_4370 store)
                  = sort_by ck_time
                      (List.filter (in_day (employee, day))
                         (get_all_checkins port_4370 (repaired port_4370 store)))).
  { unfold get_all_checkins. rewrite day_rows_of_ordered, filter_filter_and.
    reflexivity. }
  rewrite Hrows. unfold sort_by at 2. rewrite sort_leb_length.
  apply correct_day_labels, repaired_all_correct; [reflexivity|exact Hnd].
Qed.

(** ** [adjust_checkin_sequence] of the copy at the top of the repository *)

Lemma payload_set (k : string) (v : value) (t : dict) :
  k = "log_type" \/ k = "_sequence_adjusted" \/ k = "_punch_time" ->
  payload (dict_set k v t) = payload t.
Proof.
  intros Hk. unfold payload.
  induction t as [|[k' v'] t IH]; simpl.
  - destruct Hk as [->|[->| ->]]; reflexivity.
  - destruct (String.eqb k k') eqn:Hkk.
    + apply String.eqb_eq in Hkk. subst k'. simpl.
      destruct Hk as [->|[->| ->]]; reflexivity.
    + simpl. rewrite IH. reflexivity.
Qed.

Lemma payload_del (t : dict) : payload (dict_del "_punch_time" t) = payload t.
Proof.
  unfold payload. induction t as [|[k' v'] t IH]; [reflexivity|].
  cbn [dict_del]. destruct (String.eqb "_punch_time" k') eqn:Hk.
  - apply String.eqb_eq in Hk. subst k'. reflexivity.
  - cbn [List.filter]. rewrite IH. reflexivity.
Qed.

Lemma get_del_ne (k k' : string) (d : dict) :
  k <> k' -> get k (dict_del k' d) = get k d.
Proof. intros H. unfold get. rewrite dict_get_del_ne by exact H. reflexivity. Qed.

Section SortValuesFacts.
Context {A : Type} (key : A -> value).

Lemma insert_value_strings (x : A) (l : list A) :
is_str (key x) -> Forall (fun y => is_str (key y)) l ->
exists l', insert_value key x l = Some l' /\ l' ≡ₚ x :: l.
Proof.
intros [sx Hx] Hl. induction Hl as [|y l [sy Hy] Hl IH]; simpl.
- exists [x]. split; reflexivity.
- rewrite Hx, Hy. simpl. destruct (String.ltb sy sx).
  + destruct IH as (l' & -> & Hperm). exists (y :: l'). split; [reflexivity|].
    rewrite Hperm. apply perm_swap.
  + exists (x :: y :: l). split; reflexivity.
Qed.

Lemma sort_values_strings (l : list A) :
Forall (fun y => is_str (key y)) l ->
exists l', sort_values key l = Some l' /\ l' ≡ₚ l.
Proof.
induction 1 as [|x l Hx Hl (s & Hs & Hperm)]; simpl.
- exists []. split; reflexivity.
- rewrite Hs.
  destruct (insert_value_strings x s Hx) as (l' & Hl' & Hperm').
  + rewrite Hperm. exact Hl.
  + exists l'. split; [exact Hl'|]. rewrite Hperm', Hperm. reflexivity.
Qed.
End SortValuesFacts.

Lemma group_add_members {K X : Type} (eqb : K -> K -> bool) (k : K) (x : X)
    (G : list (K * list X)) :
  concat (map snd (group_add eqb k x G)) ≡ₚ x :: concat (map snd G).
Proof.
  induction G as [|[k' xs] G IH]; simpl; [reflexivity|].
  destruct (eqb k k'); simpl.
  - rewrite <- app_assoc. simpl. rewrite <- Permutation_middle. reflexivity.
  - rewrite IH. rewrite <- Permutation_middle. reflexivity.
Qed.

(** The grouping loop keeps the records of [top_kept], each with its
    sort key. *)
Lemma group_by_employee_members (ts : list dict) (G : list (value * list dict)) :
  concat (map snd (ConfigTop.group_by_employee ts G))
  ≡ₚ concat (map snd G)
     ++ map (fun t => dict_set "_punch_time" (top_punch_time t) t)
          (List.filter top_kept ts).
Proof.
  revert G. induction ts as [|t ts IH]; intros G; simpl.
  - rewrite app_nil_r. reflexivity.
  - rewrite IH. fold (top_punch_time t). unfold top_kept at 2.
    destruct (truthy (top_punch_time t)
              && negb (py_eqb (get_default "emp_code" (VStr "unknown") t)
                         (VStr "unknown"))); [|reflexivity].
    rewrite group_add_members. simpl. rewrite <- Permutation_middle. reflexivity.
Qed.

Lemma alternate_facts (i : nat) (l : list dict) :
  map payload (ConfigTop.alternate i l) = map payload l
  /\ map (get "_punch_time") (ConfigTop.alternate i l) = map (get "_punch_time") l
  /\ Forall top_labelled (ConfigTop.alternate i l).
Proof.
  revert i. induction l as [|t l IH]; intros i; simpl.
  - repeat split. constructor.
  - destruct (IH (S i)) as (H1 & H2 & H3).
    rewrite H1, H2, !payload_set by auto. rewrite !get_set_ne by discriminate.
    repeat split. constructor; [|exact H3].
    unfold top_labelled, get.
    rewrite dict_get_set_ne by discriminate. rewrite !dict_get_set_eq.
    split; [destruct (Nat.even i); auto|reflexivity].
Qed.

Lemma Forall_key_perm {A : Type} (P : A -> Prop) (l l' : list A) :
  l ≡ₚ l' -> Forall P l' -> Forall P l.
Proof. intros H. rewrite H. auto. Qed.

Lemma label_employees_facts (G : list (value * list dict)) :
  Forall (fun t => is_str (get "_punch_time" t)) (concat (map snd G)) ->
  exists groups,
    ConfigTop.label_employees G = Some groups
    /\ map payload (concat groups) ≡ₚ map payload (concat (map snd G))
    /\ Forall (fun t => is_str (get "_punch_time" t)) (concat groups)
    /\ Forall top_labelled (concat groups).
Proof.
  induction G as [|[k l] G IH]; simpl; intros HF.
  - exists []. repeat split; constructor.
  - apply Forall_app in HF as [Hl HG].
    destruct (sort_values_strings (get "_punch_time") l Hl) as (s & -> & Hperm).
    destruct (IH HG) as (groups & -> & H1 & H2 & H3).
    destruct (alternate_facts 0 s) as (A1 & A2 & A3).
    exists (ConfigTop.alternate 0 s :: groups). split; [reflexivity|].
    simpl. split.
    { rewrite !map_app, A1.
      apply Permutation_app; [apply Permutation_map, Hperm|exact H1]. }
    split; apply Forall_app; split; try assumption.
    apply Forall_forall. intros t Ht.
    apply (list_elem_of_fmap_2 (get "_punch_time")) in Ht.
    change (@fmap list _ _ _ (get "_punch_time")) with (map (get "_punch_time")) in Ht.
    rewrite A2 in Ht. apply list_elem_of_fmap in Ht as (t' & -> & Ht').
    rewrite Hperm in Ht'. rewrite Forall_forall in Hl. apply Hl, Ht'.
Qed.

(** X26: the copy of [adjust_checkin_sequence] at the top of the
    repository, on records whose punch times are strings, returns; it
    drops the records with no punch time or no employee code (or the
    code [unknown]) and returns the others, in some order, with nothing
    changed but [log_type], set to [IN] or [OUT], [_sequence_adjusted],
    set to [True], and [_punch_time], removed. *)
Theorem top_adjust_drops_and_labels (transactions : list dict) :
  Forall (fun t => is_str (top_punch_time t)) (List.filter top_kept transactions) ->
  exists result,
    ConfigTop.adjust_checkin_sequence transactions = Some result
    /\ map payload result ≡ₚ map payload (List.filter top_kept transactions)
    /\ Forall top_labelled result.
Proof.
  intros Hstr. unfold ConfigTop.adjust_checkin_sequence.
  pose proof (group_by_employee_members transactions []) as Hmem. simpl in Hmem.
  destruct (label_employees_facts (ConfigTop.group_by_employee transactions []))
    as (groups & -> & H1 & H2 & H3).
  { eapply Forall_key_perm; [exact Hmem|].
    apply Forall_forall. intros t Ht.
    apply list_elem_of_fmap in Ht as (t' & -> & Ht').
    rewrite Forall_forall in Hstr. specialize (Hstr t' Ht').
    unfold get. rewrite dict_get_set_eq. exact Hstr. }
  destruct (sort_values_strings (get "_punch_time") (concat groups) H2)
    as (s & -> & Hperm).
  exists (map (dict_del "_punch_time") s). split; [reflexivity|].
  split.
  - rewrite map_map.
    rewrite (map_ext (fun t => payload (dict_del "_punch_time" t)) payload)
      by (intros t; apply payload_del).
    rewrite Hperm, H1, Hmem, map_map.
    rewrite (map_ext (fun t => payload (dict_set "_punch_time" (top_punch_time t) t))
               payload) by (intros t; apply payload_set; auto).
    reflexivity.
  - apply Forall_forall. intros t Ht.
    apply list_elem_of_fmap in Ht as (t' & -> & Ht').
    rewrite Hperm in Ht'. rewrite Forall_forall in H3. specialize (H3 t' Ht').
    unfold top_labelled in *. rewrite !get_del_ne by discriminate. exact H3.
Qed.

(** ** [manual_sync] *)

(** A port that reads [4370] for [manual_sync] reads 4370 for
    [device_mode_sync]. *)
Lemma port_4370_parsed (server_port : value) :
  strip (py_str server_port) = "4370" ->
  int_of_string (strip (py_str (py_or server_port (VStr "4370")))) = Some 4370.
Proof.
  intros H.
  assert (Ht : truthy server_port = true).
  { destruct server_port as [|b|z|s|d]; simpl in *.
    - vm_compute in H. discriminate.
    - destruct b; [reflexivity|]. vm_compute in H. discriminate.
    - destruct (z =? 0) eqn:Hz; [|reflexivity].
      apply Z.eqb_eq in Hz. subst z. vm_compute in H. discriminate.
    - destruct s; [|reflexivity]. vm_compute in H. discriminate.
    - reflexivity. }
  unfold py_or. rewrite Ht, H. reflexivity.
Qed.

(** X27: [manual_sync] never answers that device mode only supports port
    4370: when it hands over to [device_mode_sync], the port that read
    [4370] for the one reads 4370 for the other. *)
Theorem manual_sync_never_refuses_port (F : site) (N : network)
    (device_clock : nat -> datetime) (device_now now current_time : datetime)
    (clock : nat -> datetime * datetime) (w : world) :
  fst (ConfigApp.manual_sync F N device_clock device_now now current_time clock w)
  <> ConfigApp.ManualDevice (SyncRefused "Device mode only supports port 4370").
Proof.
  unfold ConfigApp.manual_sync.
  destruct (String.eqb (strip (py_str (cfg_server_port (w_cfg w)))) "4370") eqn:Hport;
    [|simpl; discriminate].
  apply String.eqb_eq in Hport.
  unfold ConfigApp.device_mode_sync.
  destruct (truthy (get "zkteco_device_sync_lock" (w_cache w))); [simpl; discriminate|].
  rewrite (port_4370_parsed _ Hport). cbn [Z.eqb Pos.eqb negb].
  destruct (zk_library N); [|simpl; discriminate]. cbn [negb].
  destruct (get_attendance N (cfg_server_ip (w_cfg w)) 4370) as [records|];
    [|simpl; discriminate].
  destruct (ConfigApp.attendance_transactions records []) as [transactions|];
    [|simpl; discriminate].
  destruct (ConfigApp.attendance_loop _ _ _ _ _ _ _) as [created store].
  simpl. discriminate.
Qed.


(** ** [validate] and [get_all_devices] of the copy at the top of the repository *)

Lemma multi_ip_devices_token (c c' : ConfigTop.config_doc) (l : list ConfigTop.ip_entry) :
  ConfigTop.cd_token c = ConfigTop.cd_token c' ->
  ConfigTop.multi_ip_devices c l = ConfigTop.multi_ip_devices c' l.
Proof.
  intros H. induction l as [|e l IH]; [reflexivity|].
  simpl. rewrite IH, H. reflexivity.
Qed.

Lemma default_name_truthy (n : value) (s : string) :
  truthy (py_or n (VStr ("Device-" +:+ s))) = true.
Proof. unfold py_or. destruct (truthy n) eqn:E; [exact E|reflexivity]. Qed.

Lemma multi_ip_devices_cons (c : ConfigTop.config_doc) (e : ConfigTop.ip_entry)
    (l : list ConfigTop.ip_entry) :
  ConfigTop.multi_ip_devices c (e :: l)
  = (if listed e then [listed_device c e] else []) ++ ConfigTop.multi_ip_devices c l.
Proof.
  cbn [ConfigTop.multi_ip_devices]. unfold listed.
  destruct (truthy _); reflexivity.
Qed.

Lemma listed_device_named (c : ConfigTop.config_doc) (e : ConfigTop.ip_entry)
    (n : value) :
  ConfigTop.ie_device_name e = Some n -> truthy n = false ->
  let e' := ConfigTop.with_device_name
              (VStr ("Device-" +:+ str_of_int (ConfigTop.ie_idx e))) e in
  listed_device c e' = listed_device c e /\ listed e' = listed e.
Proof.
  intros Hname Hn. split; [|reflexivity].
  unfold listed_device. rewrite Hname. cbn [ConfigTop.with_device_name
    ConfigTop.ie_device_name ConfigTop.ie_idx ConfigTop.ie_ip ConfigTop.ie_port
    ConfigTop.ie_user ConfigTop.ie_password ConfigTop.ie_enable_sync].
  unfold py_or. rewrite Hn. reflexivity.
Qed.

Lemma listed_device_usable (c : ConfigTop.config_doc) (e : ConfigTop.ip_entry) :
  truthy (ConfigTop.ie_ip e) = true -> truthy (ConfigTop.ie_port e) = true ->
  usable (listed_device c e).
Proof.
  intros Hip Hport. repeat split; [exact Hip|exact Hport|apply default_name_truthy].
Qed.

Lemma validate_entries_devices (c : ConfigTop.config_doc)
    (l l' : list ConfigTop.ip_entry) :
  ConfigTop.validate_entries l = inr l' ->
  length l' = length l
  /\ ConfigTop.multi_ip_devices c l' = ConfigTop.multi_ip_devices c l
  /\ Forall usable (ConfigTop.multi_ip_devices c l').
Proof.
  revert l'. induction l as [|e l IH]; intros l' H; cbn [ConfigTop.validate_entries] in H.
  - injection H as <-. repeat split. constructor.
  - destruct (truthy (ConfigTop.ie_ip e)) eqn:Hip; [|discriminate].
    destruct (truthy (ConfigTop.ie_port e)) eqn:Hport; [|discriminate].
    cbn [negb] in H.
    destruct (ConfigTop.validate_entries l) as [m|r]; [discriminate|].
    destruct (IH r eq_refl) as (Hlen & Hsame & Husable).
    assert (Hcons : forall e', listed_device c e' = listed_device c e ->
                               listed e' = listed e ->
              length (e' :: r) = length (e :: l)
              /\ ConfigTop.multi_ip_devices c (e' :: r)
                 = ConfigTop.multi_ip_devices c (e :: l)
              /\ Forall usable (ConfigTop.multi_ip_devices c (e' :: r))).
    { intros e' Hdev Hlisted. rewrite !multi_ip_devices_cons, Hdev, Hlisted, Hsame.
      split; [simpl; rewrite Hlen; reflexivity|]. split; [reflexivity|].
      apply Forall_app. split; [|rewrite <- Hsame; exact Husable].
      destruct (listed e); constructor; [|constructor].
      apply listed_device_usable; assumption. }
    destruct (ConfigTop.ie_device_name e) as [n|] eqn:Hname.
    + destruct (truthy n) eqn:Hn; cbn [negb] in H; injection H as <-.
      * apply Hcons; reflexivity.
      * destruct (listed_device_named c e n Hname Hn) as [Hdev Hlisted].
        apply Hcons; assumption.
    + injection H as <-. apply Hcons; reflexivity.
Qed.

(** X29: for a configuration that [validate] accepts, [get_all_devices]
    lists the same devices after the validation as before it (the name
    [validate] writes in a row without one is the name [get_all_devices]
    gives it), and every device listed has an address, a port and a
    name. *)
Theorem validated_devices (config config' : ConfigTop.config_doc) :
  ConfigTop.validate config = inr config' ->
  ConfigTop.get_all_devices config' = ConfigTop.get_all_devices config
  /\ Forall usable (ConfigTop.get_all_devices config').
Proof.
  unfold ConfigTop.validate, ConfigTop.get_all_devices.
  destruct (ConfigTop.cd_multi_ip config) as [|e l] eqn:Hmulti.
  - destruct (truthy (ConfigTop.cd_enable_sync config)
              && negb (truthy (ConfigTop.cd_server_ip config))); [discriminate|].
    intros [= <-]. rewrite Hmulti. split; [reflexivity|].
    destruct (truthy (ConfigTop.cd_server_ip config)) eqn:Hip;
      destruct (truthy (ConfigTop.cd_server_port config)) eqn:Hport;
      simpl; repeat constructor; assumption.
  - destruct (ConfigTop.validate_entries (e :: l)) as [m|l'] eqn:Hv; [discriminate|].
    intros [= <-].
    destruct (validate_entries_devices config (e :: l) l' Hv) as (Hlen & Hsame & Husable).
    cbn [ConfigTop.with_multi_ip ConfigTop.cd_multi_ip].
    destruct l' as [|e' l']; [discriminate|].
    rewrite !(multi_ip_devices_token (ConfigTop.with_multi_ip (e' :: l') config) config)
      by reflexivity.
    split; assumption.
Qed.

(** ** More theorems at concrete inputs *)

Lemma app_adjust_labels_every_grouped_punch_witness :
  day4 !! 0%nat = Some first_punch
  /\ grouped iso_env first_punch
  /\ exists t' l,
       ConfigApp.adjust_checkin_sequence iso_env day4 !! 0%nat = Some t'
       /\ get "log_type" t' = VStr (label_str l).
Proof.
  assert (H1 : day4 !! 0%nat = Some first_punch) by reflexivity.
  assert (H2 : grouped iso_env first_punch).
  { exists (VStr "E1", days_from_civil 2025 1 1),
      (days (days_from_civil 2025 1 1) + 9 * 3600 * us_per_second).
    vm_compute. reflexivity. }
  split; [exact H1|]. split; [exact H2|].
  exact (app_adjust_labels_every_grouped_punch iso_env day4 0 first_punch H1 H2).
Defined.

Lemma app_adjust_leaves_record_untouched_witness :
  labelled_pair !! 0%nat = Some out_punch
  /\ labelled out_punch
  /\ ConfigApp.adjust_checkin_sequence iso_env labelled_pair !! 0%nat = Some out_punch.
Proof.
  assert (H1 : labelled_pair !! 0%nat = Some out_punch) by reflexivity.
  assert (H2 : labelled out_punch) by (exists OUT; reflexivity).
  split; [exact H1|]. split; [exact H2|].
  exact (app_adjust_leaves_record_untouched iso_env labelled_pair 0 out_punch H1
           (or_introl H2)).
Defined.

Lemma find_employee_by_code_sound_witness :
  ConfigApp.find_employee_by_code demo_site (VStr "E1") = Some "HR-EMP-1"
  /\ "HR-EMP-1" <> ""
  /\ exists r, r ∈ employees demo_site /\ emp_name r = "HR-EMP-1"
               /\ code_matches demo_site (VStr "E1") r.
Proof.
  assert (H1 : ConfigApp.find_employee_by_code demo_site (VStr "E1") = Some "HR-EMP-1")
    by reflexivity.
  split; [exact H1|].
  exact (find_employee_by_code_sound demo_site (VStr "E1") "HR-EMP-1" H1).
Defined.

Lemma find_employee_by_code_prefers_employee_field_witness :
  (forall r, r ∈ employees demo_site -> emp_name r <> "")
  /\ exists r, r ∈ employees demo_site /\ emp_employee r = py_str (VStr "E2")
               /\ ConfigApp.find_employee_by_code demo_site (VStr "E2")
                  = Some (emp_name r).
Proof.
  assert (H1 : forall r, r ∈ employees demo_site -> emp_name r <> "").
  { intros r Hr. apply elem_of_cons in Hr as [->|Hr]; [discriminate|].
    apply elem_of_cons in Hr as [->|Hr]; [discriminate|].
    apply elem_of_nil in Hr. contradiction. }
  split; [exact H1|].
  apply (find_employee_by_code_prefers_employee_field demo_site (VStr "E2") H1).
  exists {| emp_name := "HR-EMP-2"; emp_employee := "E2"; emp_user_id := "";
            emp_attendance_device_id := "" |}.
  split; [right; left|reflexivity].
Defined.

Lemma app_stored_row_facts_witness :
  ConfigApp.create_employee_checkin demo_site evening evening [] soon_punch
  = (Return true, [] ++ [soon_row])
  /\ ConfigApp.find_employee_by_code demo_site (ConfigApp.emp_code_of soon_punch)
     = Some (ck_employee soon_row)
  /\ ck_time soon_row mod us_per_second = 0
  /\ (py_len (ck_device_id soon_row) <= 140)%nat.
Proof.
  assert (H1 : ConfigApp.create_employee_checkin demo_site evening evening [] soon_punch
               = (Return true, [] ++ [soon_row])) by (vm_compute; reflexivity).
  split; [exact H1|].
  pose proof (app_stored_row_facts demo_site evening evening [] soon_punch
                (Return true) soon_row H1) as (_ & H2 & H3 & H4 & _).
  split; [exact H2|]. split; [exact H3|exact H4].
Defined.

Lemma sync_stores_in_or_out_witness :
  Forall (fun t => get "_sequence_adjusted" t = VNone) day4
  /\ forall row,
       row ∈ snd (ConfigApp.sync_zkteco_transactions demo_site evening_clock [] day4) ->
       row ∈ [] \/ ck_log_type row = "IN" \/ ck_log_type row = "OUT".
Proof.
  assert (H1 : Forall (fun t => get "_sequence_adjusted" t = VNone) day4)
    by (repeat constructor).
  split; [exact H1|].
  exact (fun row => sync_stores_in_or_out demo_site evening_clock [] day4 row H1).
Defined.

Lemma fix_existing_checkins_only_relabels_witness :
  NoDup (map ck_name mixed_store)
  /\ Forall2 same_but_label mixed_store (snd (ConfigApp.fix_existing_checkins mixed_store))
  /\ snd (ConfigApp.fix_existing_checkins mixed_store) !! 3%nat = Some other_device_row.
Proof.
  assert (H1 : NoDup (map ck_name mixed_store)).
  { apply (bool_decide_unpack (NoDup (map ck_name mixed_store))). vm_compute. exact I. }
  split; [exact H1|].
  pose proof (fix_existing_checkins_only_relabels mixed_store H1) as [H2 H3].
  split; [exact H2|].
  apply (H3 3%nat other_device_row); reflexivity.
Defined.

Lemma script_and_app_repairs_agree_witness :
  (forall r, r ∈ stored_day -> contains ":4370" (ck_device_id r) = FixScript.filters r)
  /\ snd (FixScript.fix_all_checkins false stored_day)
     = snd (ConfigApp.fix_existing_checkins stored_day).
Proof.
  assert (H1 : forall r, r ∈ stored_day ->
                 contains ":4370" (ck_device_id r) = FixScript.filters r).
  { apply Forall_forall. repeat constructor. }
  split; [exact H1|].
  exact (proj2 (script_and_app_repairs_agree stored_day H1)).
Defined.

Lemma build_api_url_leading_slash_witness :
  "api" <> "" /\ starts_with "/" "api" = false
  /\ ConfigApp.build_api_url (VStr "10.0.0.5") (VInt 80) ("/" +:+ "api") None
     = ConfigApp.build_api_url (VStr "10.0.0.5") (VInt 80) "api" None.
Proof.
  assert (H1 : "api" <> "") by discriminate.
  assert (H2 : starts_with "/" "api" = false) by reflexivity.
  split; [exact H1|]. split; [exact H2|].
  exact (build_api_url_leading_slash (VStr "10.0.0.5") (VInt 80) "api" None H1 H2).
Defined.

Lemma twice_store_names : NoDup (map ck_name twice_store).
Proof.
  apply (bool_decide_unpack (NoDup (map ck_name twice_store))). vm_compute. exact I.
Defined.

Lemma remove_duplicate_checkins_leaves_no_duplicates_witness :
  NoDup (map ck_name twice_store)
  /\ let '(deleted_count, store') := ConfigApp.remove_duplicate_checkins twice_store in
     NoDup (map ConfigApp.duplicate_key
              (List.filter (fun r => contains ":4370" (ck_device_id r)) store'))
     /\ (exists keep, store' = List.filter keep twice_store)
     /\ (forall r, r ∈ twice_store -> contains ":4370" (ck_device_id r) = false ->
                   r ∈ store')
     /\ (deleted_count + length store' = length twice_store)%nat.
Proof.
  split; [exact twice_store_names|].
  exact (remove_duplicate_checkins_leaves_no_duplicates twice_store twice_store_names).
Defined.

Lemma remove_duplicate_checkins_keeps_a_copy_witness :
  NoDup (map ck_name twice_store)
  /\ twice_row "CHK-1" ∈ twice_store
  /\ contains ":4370" (ck_device_id (twice_row "CHK-1")) = true
  /\ exists r', r' ∈ snd (ConfigApp.remove_duplicate_checkins twice_store)
                /\ contains ":4370" (ck_device_id r') = true
                /\ ConfigApp.duplicate_key r' = ConfigApp.duplicate_key (twice_row "CHK-1").
Proof.
  assert (H2 : twice_row "CHK-1" ∈ twice_store) by (right; left).
  assert (H3 : contains ":4370" (ck_device_id (twice_row "CHK-1")) = true) by reflexivity.
  split; [exact twice_store_names|]. split; [exact H2|]. split; [exact H3|].
  exact (remove_duplicate_checkins_keeps_a_copy twice_store (twice_row "CHK-1")
           twice_store_names H2 H3).
Defined.

Lemma remove_duplicate_checkins_idempotent_witness :
  NoDup (map ck_name twice_store)
  /\ ConfigApp.remove_duplicate_checkins
       (snd (ConfigApp.remove_duplicate_checkins twice_store))
     = (0%nat, snd (ConfigApp.remove_duplicate_checkins twice_store)).
Proof.
  split; [exact twice_store_names|].
  exact (remove_duplicate_checkins_idempotent twice_store twice_store_names).
Defined.

Lemma fetch_requests_bounded_witness :
  ConfigApp.fetch_zkteco_transactions (demo_network []) api_config evening evening
  = Some (day4, ["http://10.0.0.5:80/iclock/api/transactions/"])
  /\ (1 <= length ["http://10.0.0.5:80/iclock/api/transactions/"] <= 100)%nat.
Proof.
  assert (H1 : ConfigApp.fetch_zkteco_transactions (demo_network []) api_config
                 evening evening
               = Some (day4, ["http://10.0.0.5:80/iclock/api/transactions/"]))
    by (vm_compute; reflexivity).
  split; [exact H1|].
  exact (proj1 (fetch_requests_bounded (demo_network []) api_config evening evening
                  day4 ["http://10.0.0.5:80/iclock/api/transactions/"] H1)).
Defined.

Lemma sync_lock_discipline_witness :
  NoDup (map fst (w_cache api_world))
  /\ dict_get "zkteco_sync_lock"
       (w_cache (ConfigApp.run_sync_zkteco_transactions demo_site (demo_network [])
                   evening evening evening_clock api_world)) = None.
Proof.
  assert (H1 : NoDup (map fst (w_cache api_world))) by constructor.
  split; [exact H1|].
  exact (proj1 (sync_lock_discipline demo_site (demo_network []) evening evening
                  evening_clock api_world H1)).
Defined.

Lemma sync_skips_without_requests_witness :
  sync_skipped (w_cfg device_world)
  /\ w_store (ConfigApp.run_sync_zkteco_transactions demo_site (demo_network [])
                evening evening evening_clock device_world)
     = w_store device_world.
Proof.
  assert (H1 : sync_skipped (w_cfg device_world)) by (left; reflexivity).
  split; [exact H1|].
  exact (proj2 (proj2 (sync_skips_without_requests demo_site (demo_network [])
                         (demo_network []) evening evening evening_clock device_world H1))).
Defined.

Lemma sync_advances_last_sync_without_transactions_witness :
  truthy (get "zkteco_sync_lock" (w_cache api_world)) = false
  /\ ~ sync_skipped (w_cfg api_world)
  /\ ConfigApp.fetch_zkteco_transactions dead_network (w_cfg api_world)
       (evening - 60 * us_per_minute) evening
     = Some ([], ["http://10.0.0.5:80/iclock/api/transactions/"])
  /\ cfg_last_sync
       (w_cfg (ConfigApp.run_sync_zkteco_transactions demo_site dead_network
                 evening evening evening_clock api_world))
     = VDatetime evening.
Proof.
  assert (H1 : truthy (get "zkteco_sync_lock" (w_cache api_world)) = false) by reflexivity.
  assert (H2 : ~ sync_skipped (w_cfg api_world)).
  { intros [H|[H|H]]; vm_compute in H; discriminate H. }
  assert (H3 : (if truthy (cfg_last_sync (w_cfg api_world))
                then get_datetime (py demo_site) (cfg_last_sync (w_cfg api_world))
                else Some (evening - 60 * us_per_minute))
               = Some (evening - 60 * us_per_minute)) by reflexivity.
  assert (H4 : ConfigApp.fetch_zkteco_transactions dead_network (w_cfg api_world)
                 (evening - 60 * us_per_minute) evening
               = Some ([], ["http://10.0.0.5:80/iclock/api/transactions/"]))
    by (vm_compute; reflexivity).
  split; [exact H1|]. split; [exact H2|]. split; [exact H4|].
  exact (proj1 (sync_advances_last_sync_without_transactions demo_site dead_network
                  evening evening evening_clock api_world
                  (evening - 60 * us_per_minute)
                  ["http://10.0.0.5:80/iclock/api/transactions/"] H1 H2 H3 H4)).
Defined.

Lemma device_mode_sync_ignores_punch_witness :
  Forall2 same_punch_apart (device_records 0 1) (device_records 1 0)
  /\ ConfigApp.device_mode_sync demo_site (demo_network (device_records 1 0))
       (fun _ => evening) evening device_world
     = ConfigApp.device_mode_sync demo_site (demo_network (device_records 0 1))
         (fun _ => evening) evening device_world.
Proof.
  assert (H1 : Forall2 same_punch_apart (device_records 0 1) (device_records 1 0)).
  { repeat constructor; discriminate. }
  split; [exact H1|].
  exact (device_mode_sync_ignores_punch demo_site (demo_network (device_records 0 1))
           (demo_network (device_records 1 0)) (fun _ => evening) evening device_world
           (device_records 0 1) (device_records 1 0) eq_refl eq_refl eq_refl H1).
Defined.

Lemma create_checkin_from_attendance_label_witness :
  ConfigApp.create_checkin_from_attendance demo_site evening [] out_attendance
    "10.0.0.5:4370"
  = (Return true, [] ++ [out_attendance_row])
  /\ ck_log_type out_attendance_row = punch_label out_attendance.
Proof.
  assert (H1 : ConfigApp.create_checkin_from_attendance demo_site evening []
                 out_attendance "10.0.0.5:4370"
               = (Return true, [] ++ [out_attendance_row])) by (vm_compute; reflexivity).
  split; [exact H1|].
  exact (proj1 (proj2 (create_checkin_from_attendance_label demo_site evening []
                         out_attendance "10.0.0.5:4370" (Return true)
                         out_attendance_row H1))).
Defined.

Lemma fix_existing_checkins_repairs_every_day_witness :
  NoDup (map ck_name twice_store)
  /\ map ck_log_type
       (day_rows "HR-EMP-1" (days_from_civil 2025 10 1)
          (snd (ConfigApp.fix_existing_checkins twice_store)))
     = repaired_labels
         (length (day_rows "HR-EMP-1" (days_from_civil 2025 10 1)
                    (snd (ConfigApp.fix_existing_checkins twice_store)))).
Proof.
  split; [exact twice_store_names|].
  exact (fix_existing_checkins_repairs_every_day twice_store "HR-EMP-1"
           (days_from_civil 2025 10 1) twice_store_names).
Defined.

Lemma top_adjust_drops_and_labels_witness :
  Forall (fun t => is_str (top_punch_time t)) (List.filter top_kept with_untimed)
  /\ exists result,
       ConfigTop.adjust_checkin_sequence with_untimed = Some result
       /\ map payload result ≡ₚ map payload (List.filter top_kept with_untimed)
       /\ Forall top_labelled result.
Proof.
  assert (H1 : Forall (fun t => is_str (top_punch_time t))
                 (List.filter top_kept with_untimed)).
  { repeat constructor; eexists; reflexivity. }
  split; [exact H1|].
  exact (top_adjust_drops_and_labels with_untimed H1).
Defined.


Lemma validated_devices_witness :
  ConfigTop.validate two_devices = inr two_devices_validated
  /\ ConfigTop.get_all_devices two_devices_validated
     = ConfigTop.get_all_devices two_devices
  /\ Forall usable (ConfigTop.get_all_devices two_devices_validated).
Proof.
  assert (H1 : ConfigTop.validate two_devices = inr two_devices_validated)
    by reflexivity.
  split; [exact H1|].
  exact (validated_devices two_devices two_devices_validated H1).
Defined.
